(** * Stock dashboard helpers: a shallow embedding and its properties

  The development follows the Python sources of the dashboard:
  - [stock_analyzer.py]  (class [StockAnalyzer]): technical signals,
    fundamental metrics, the weighted recommendation score, RSI;
  - [stock_utils.py]     (class [StockDataFetcher]): ticker validation and
    the guarded provider fetch;
  - [Sentimental.py], [Sector_Sentiment.py]: the two [classify_sentiment]
    and the overall label of the sentiment page;
  - [Prediction.py]: loading, the training windows, the open-loop forecast
    loop of [main] and the confidence shown with it;
  - [Home.py], [Fundamental_Analysis.py], [Technical_Analysis.py]: the
    parts of the pages that call the classes above.

  Numbers.  Python floats and pandas/numpy cells are modelled by [fval]:
  exact rationals extended with the IEEE special values [+inf], [-inf] and
  [NaN].  Division by zero, NaN propagation and NaN comparisons behave as in
  numpy, and the sign of zero is not tracked.  Finite results are exact
  where a statement is about ranges, signs and special values, which
  rounding does not change.  Where the last bits decide a label, the
  operations are taken with their rounding (module [Rounded]), and what
  pandas computes on its own, the rolling mean, is a parameter of the
  evaluator ([analyze_technicals_with]).  Module [Binary64] re-evaluates
  concrete cases on IEEE binary64 numbers.

  Strings.  Ticker symbols are ASCII strings; the helpers [strip], [upper],
  [isalnum] and [isalpha] follow [str] on the ASCII range, and the
  statements about what these checks let through are about symbols typed in
  ASCII.

  Errors.  A Python exception is a value of [pyerr]; code that may raise
  returns [py A = pyerr + A]. *)

From Stdlib Require Import QArith Qabs Lqa ZArith String Ascii List Lia.
From Stdlib Require Import PrimFloat.
From stdpp Require Import gmap strings list fin_maps.

(* ===================================================================== *)
(** * Part I: definitions                                                  *)
(* ===================================================================== *)

(** ** Extended rationals: the float model *)

Module PyFloat.

Local Open Scope Q_scope.

Inductive fval : Type :=
| Fin (q : Q)
| PInf
| NInf
| NaN.

Definition of_Z (z : Z) : fval := Fin (inject_Z z).
Definition of_nat (n : nat) : fval := of_Z (Z.of_nat n).

Definition Qltb (a b : Q) : bool := negb (Qle_bool b a).

Definition fneg (x : fval) : fval :=
  match x with
  | Fin q => Fin (- q)
  | PInf => NInf
  | NInf => PInf
  | NaN => NaN
  end.

Definition fadd (x y : fval) : fval :=
  match x, y with
  | NaN, _ | _, NaN => NaN
  | Fin a, Fin b => Fin (a + b)
  | PInf, NInf | NInf, PInf => NaN
  | PInf, _ | _, PInf => PInf
  | NInf, _ | _, NInf => NInf
  end.

Definition fsub (x y : fval) : fval := fadd x (fneg y).

(** The sign of an infinite product or quotient, decided by a finite
    operand [a]; [0 * inf] is NaN. *)
Definition signed_inf (a : Q) (pos : bool) : fval :=
  match a ?= 0 with
  | Eq => NaN
  | Gt => if pos then PInf else NInf
  | Lt => if pos then NInf else PInf
  end.

Definition fmul (x y : fval) : fval :=
  match x, y with
  | NaN, _ | _, NaN => NaN
  | Fin a, Fin b => Fin (a * b)
  | Fin a, PInf | PInf, Fin a => signed_inf a true
  | Fin a, NInf | NInf, Fin a => signed_inf a false
  | PInf, PInf | NInf, NInf => PInf
  | PInf, NInf | NInf, PInf => NInf
  end.

(** numpy division: [x / 0] is an infinity for [x <> 0], [0 / 0] is NaN,
    and nothing is raised. *)
Definition fdiv (x y : fval) : fval :=
  match x, y with
  | NaN, _ | _, NaN => NaN
  | Fin a, Fin b =>
      match b ?= 0 with
      | Eq => signed_inf a true
      | _ => Fin (a / b)
      end
  | Fin _, PInf | Fin _, NInf => Fin 0
  | PInf, Fin b => if Qltb b 0 then NInf else PInf
  | NInf, Fin b => if Qltb b 0 then PInf else NInf
  | PInf, PInf | PInf, NInf | NInf, PInf | NInf, NInf => NaN
  end.

(** Comparisons; every comparison with NaN is [false]. *)
Definition fltb (x y : fval) : bool :=
  match x, y with
  | NaN, _ | _, NaN => false
  | Fin a, Fin b => Qltb a b
  | NInf, NInf => false
  | NInf, _ => true
  | _, NInf => false
  | PInf, _ => false
  | _, PInf => true
  end.

Definition fleb (x y : fval) : bool :=
  match x, y with
  | NaN, _ | _, NaN => false
  | Fin a, Fin b => Qle_bool a b
  | NInf, _ => true
  | _, NInf => false
  | _, PInf => true
  | PInf, _ => false
  end.

Definition fgtb (x y : fval) : bool := fltb y x.
Definition fgeb (x y : fval) : bool := fleb y x.

Definition is_nan (x : fval) : bool :=
  match x with NaN => true | _ => false end.

End PyFloat.
Export PyFloat.

Declare Scope fval_scope.
Delimit Scope fval_scope with F.
Bind Scope fval_scope with fval.
Infix "+" := fadd : fval_scope.
Infix "-" := fsub : fval_scope.
Infix "*" := fmul : fval_scope.
Infix "/" := fdiv : fval_scope.
Notation "- x" := (fneg x) : fval_scope.
Infix "<?" := fltb : fval_scope.
Infix "<=?" := fleb : fval_scope.
Infix ">?" := fgtb : fval_scope.
Infix ">=?" := fgeb : fval_scope.

(** ** Binary64 arithmetic in the standard model

    Where a label depends on the last bits of a float, the operations are
    taken with their rounding: an operation on numbers returns the exact
    result rounded to a binary64 number, [rnd].  The statements use of
    [rnd] only that it moves a value by at most the relative unit
    [eps] = 2^-53 ([accurate]), which round-to-nearest does on the normal
    range; overflow and gradual underflow are outside the model. *)

Module Rounded.

Local Open Scope Q_scope.

Definition eps : Q := 1 # 9007199254740992.

Definition accurate (rnd : Q -> Q) : Prop :=
  forall x : Q, Qabs (rnd x - x) <= eps * Qabs x.

Definition round (rnd : Q -> Q) (x : fval) : fval :=
  match x with
  | Fin q => Fin (rnd q)
  | _ => x
  end.

Definition add (rnd : Q -> Q) (x y : fval) : fval := round rnd (x + y)%F.
Definition sub (rnd : Q -> Q) (x y : fval) : fval := round rnd (x - y)%F.
Definition mul (rnd : Q -> Q) (x y : fval) : fval := round rnd (x * y)%F.
Definition div (rnd : Q -> Q) (x y : fval) : fval := round rnd (x / y)%F.

Fixpoint pow (q : Q) (n : nat) : Q :=
  match n with
  | O => 1
  | S n' => q * pow q n'
  end.

(** The most that [n] roundings in a row can enlarge a value, and the
    least they can leave of it. *)
Definition up (n : nat) : Q := pow (1 + eps) n.
Definition down (n : nat) : Q := pow (1 - eps) n.

(** A rounding that is accurate without being exact: every result is
    taken towards zero by the full relative unit. *)
Definition chop (x : Q) : Q := x * (1 - eps).

End Rounded.

(** ** Python values, exceptions and the error monad *)

Module Py.

(** The values stored in the dictionaries of the program.  A value that is
    neither a string nor a number ([None], a list, ...) is [VNone]: like
    [None] it raises [TypeError] when ordered against a number. *)
Inductive pyval : Type :=
| VNone
| VStr (s : string)
| VNum (x : fval).

(** [LibraryError] is an exception that comes out of a library call, with
    its text. *)
Inductive pyerr : Type :=
| KeyError (k : string)
| IndexError
| TypeError
| ValueError
| LibraryError (text : string).

Definition py (A : Type) : Type := (pyerr + A)%type.

Definition ret {A} (a : A) : py A := inr a.
Definition raise {A} (e : pyerr) : py A := inl e.
Definition bind {A B} (m : py A) (f : A -> py B) : py B :=
  match m with
  | inl e => inl e
  | inr a => f a
  end.

(** [d[k]] *)
Definition getitem (d : gmap string pyval) (k : string) : py pyval :=
  match d !! k with
  | Some v => ret v
  | None => raise (KeyError k)
  end.

(** [d.get(k, default)] *)
Definition get (d : gmap string pyval) (k : string) (dflt : pyval) : pyval :=
  match d !! k with
  | Some v => v
  | None => dflt
  end.

(** Truth value of a dictionary: non-empty. *)
Definition dict_truthy (d : gmap string pyval) : bool :=
  negb (bool_decide (d = ∅)).

(** [v == s] for a string literal [s]; never raises. *)
Definition eq_str (v : pyval) (s : string) : bool :=
  match v with
  | VStr s' => String.eqb s' s
  | _ => false
  end.

(** A number out of a value, for an ordering comparison. *)
Definition as_num (v : pyval) : py fval :=
  match v with
  | VNum x => ret x
  | _ => raise TypeError
  end.

(** [s[-1]] on a sequence, positional. *)
Definition last_item {A} (s : list A) : py A :=
  match last s with
  | Some a => ret a
  | None => raise IndexError
  end.

End Py.
Export Py.

Notation "'let*' x ':=' m 'in' k" := (Py.bind m (fun x => k))
  (at level 10, x name, m at level 100, k at level 200, only parsing).

(** ** Strings: the [str] methods used on ticker symbols (ASCII range) *)

Module PyStr.

Local Open Scope N_scope.

Definition code (c : ascii) : N := N_of_ascii c.

Definition is_digit (c : ascii) : bool := (48 <=? code c) && (code c <=? 57).
Definition is_upper (c : ascii) : bool := (65 <=? code c) && (code c <=? 90).
Definition is_lower (c : ascii) : bool := (97 <=? code c) && (code c <=? 122).
Definition is_alnum (c : ascii) : bool := is_digit c || is_upper c || is_lower c.

(** The ASCII range, on which the helpers of this module are [str]'s own;
    outside it [str] knows further letters, digits and spaces. *)
Definition is_ascii (c : ascii) : bool := code c <? 128.

(** Whitespace of [str.strip()] on the ASCII range: TAB, LF, VT, FF, CR,
    the separators FS, GS, RS, US and the space. *)
Definition is_space (c : ascii) : bool :=
  ((9 <=? code c) && (code c <=? 13)) || ((28 <=? code c) && (code c <=? 32)).

Definition upper_char (c : ascii) : ascii :=
  if is_lower c then ascii_of_N (code c - 32) else c.

Fixpoint upper (s : string) : string :=
  match s with
  | EmptyString => EmptyString
  | String c s' => String (upper_char c) (upper s')
  end.

Fixpoint lstrip (s : string) : string :=
  match s with
  | EmptyString => EmptyString
  | String c s' => if is_space c then lstrip s' else s
  end.

(** Right strip: a character is kept when something that is not
    whitespace follows it or it is not whitespace itself. *)
Fixpoint rstrip (s : string) : string :=
  match s with
  | EmptyString => EmptyString
  | String c s' =>
      match rstrip s' with
      | EmptyString => if is_space c then EmptyString else String c EmptyString
      | r => String c r
      end
  end.

Definition strip (s : string) : string := rstrip (lstrip s).

(** [s.split(sep)] for a one-character separator: never empty. *)
Fixpoint split (sep : ascii) (s : string) : list string :=
  match s with
  | EmptyString => [EmptyString]
  | String c s' =>
      if Ascii.eqb c sep then EmptyString :: split sep s'
      else match split sep s' with
           | h :: t => String c h :: t
           | [] => [String c EmptyString]
           end
  end.

(** [s.replace(c, '')] for a one-character [c]. *)
Fixpoint remove_char (c : ascii) (s : string) : string :=
  match s with
  | EmptyString => EmptyString
  | String c' s' =>
      if Ascii.eqb c' c then remove_char c s' else String c' (remove_char c s')
  end.

Fixpoint all_chars (p : ascii -> bool) (s : string) : bool :=
  match s with
  | EmptyString => true
  | String c s' => p c && all_chars p s'
  end.

(** [s.isalnum()]: false on the empty string. *)
Definition isalnum (s : string) : bool :=
  match s with
  | EmptyString => false
  | _ => all_chars is_alnum s
  end.

(** [c in s] *)
Fixpoint contains (c : ascii) (s : string) : bool :=
  match s with
  | EmptyString => false
  | String c' s' => Ascii.eqb c' c || contains c s'
  end.

(** [parts[i]], used only at indices that [split] provides. *)
Definition item (parts : list string) (i : nat) : string :=
  nth i parts EmptyString.

End PyStr.

(** ** Market data and the provider interface *)

Module Market.

(** One row of a price table (one trading session). *)
Record bar : Type := mkBar {
  Date : Z;
  Open : fval;
  High : fval;
  Low : fval;
  Close : fval;
  Volume : fval
}.

Abbreviation frame := (list bar).
Abbreviation info_map := (gmap string pyval).

(** An exception raised by the provider library, with its text. *)
Definition exn : Type := string.

(** The market-data provider ([yfinance]): every call either raises or
    answers.  [history_period s p] is [yf.Ticker(s).history(period=p)],
    [history_range s a b] is [history(start=a, end=b, interval='1d')] and
    [ticker_info s] is [yf.Ticker(s).info]. *)
Record Provider : Type := mkProvider {
  new_ticker : string -> exn + unit;
  history_period : string -> string -> exn + frame;
  history_range : string -> Z -> Z -> exn + frame;
  ticker_info : string -> exn + info_map
}.

End Market.
Export Market.

(** ** stock_utils.py: StockDataFetcher *)

Module StockDataFetcher.

(** The texts shown to the user, by the place that emits them. *)
Inductive message : Type :=
| MsgEnterSymbol
| MsgBadCharacters
| MsgInvalidSuffix
| MsgTooLong
| MsgNoData (symbol : string)
| MsgErrorValidating (symbol : string) (e : exn)
| MsgNoHistory (symbol : string)
| MsgLimitedInfo (symbol : string)
| MsgErrorFetching (e : exn)
| MsgFailed (symbol : string) (e : exn).

(** What a call does to the outside: user-interface output and requests
    to the provider, in the order they happen. *)
Inductive event : Type :=
| StError (m : message)
| StWarning (m : message)
| YfTicker (symbol : string)
| YfHistoryPeriod (symbol period : string)
| YfHistoryRange (symbol : string) (start_date end_date : Z)
| YfInfo (symbol : string).

Definition is_provider_request (e : event) : bool :=
  match e with
  | StError _ | StWarning _ => false
  | _ => true
  end.

(** A computation with its trace of events. *)
Definition io (A : Type) : Type := (A * list event)%type.
Definition io_ret {A} (a : A) : io A := (a, []).
Definition io_bind {A B} (m : io A) (f : A -> io B) : io B :=
  let '(a, t1) := m in
  let '(b, t2) := f a in
  (b, t1 ++ t2).
Definition tell (e : event) : io unit := (tt, [e]).

Notation "'do' x <- m ; k" := (io_bind m (fun x => k))
  (at level 10, x name, m at level 100, k at level 200, only parsing).
Notation "m >> k" := (io_bind m (fun _ => k))
  (at level 65, right associativity, only parsing).

Definition st_error (m : message) : io unit := tell (StError m).
Definition st_warning (m : message) : io unit := tell (StWarning m).

Definition valid_suffixes : gset string :=
  {[ ".NS"; ".BO"; ".L"; ".PA"; ".DE"; ".HK" ]}.

Definition validate_ticker (symbol : string) : io bool :=
  if String.eqb symbol "" then
    st_error MsgEnterSymbol >> io_ret false
  else
    let symbol := PyStr.upper (PyStr.strip symbol) in
    let base_symbol := PyStr.item (PyStr.split "." symbol) 0 in
    if negb (PyStr.isalnum (PyStr.remove_char "-" base_symbol)) then
      st_error MsgBadCharacters >> io_ret false
    else if PyStr.contains "." symbol then
      let suffix := "." +:+ PyStr.item (PyStr.split "." symbol) 1 in
      if negb (bool_decide (suffix ∈ valid_suffixes))
         && (6 <? String.length symbol)%nat then
        st_error MsgInvalidSuffix >> io_ret false
      else io_ret true
    else if (5 <? String.length symbol)%nat then
      st_error MsgTooLong >> io_ret false
    else io_ret true.

Definition fetch_result : Type := (option frame * option info_map)%type.

(** Provider calls as traced computations. *)
Definition call_ticker (P : Provider) (symbol : string) : io (exn + unit) :=
  (new_ticker P symbol, [YfTicker symbol]).
Definition call_history_period (P : Provider) (symbol period : string)
  : io (exn + frame) :=
  (history_period P symbol period, [YfHistoryPeriod symbol period]).
Definition call_history_range (P : Provider) (symbol : string) (a b : Z)
  : io (exn + frame) :=
  (history_range P symbol a b, [YfHistoryRange symbol a b]).
Definition call_info (P : Provider) (symbol : string) : io (exn + info_map) :=
  (ticker_info P symbol, [YfInfo symbol]).

(** [data.empty] *)
Definition empty (data : frame) : bool :=
  match data with [] => true | _ => false end.

(** The memoising decorator [st.cache_data] is not part of the model:
    the function below is what runs on a cache miss. *)
Definition fetch_stock_data (P : Provider) (symbol : string)
    (start_date end_date : Z) : io fetch_result :=
  do ok <- validate_ticker symbol;
  if negb ok then io_ret (None, None)
  else
    do stock <- call_ticker P symbol;
    match stock with
    | inl e => st_error (MsgFailed symbol e) >> io_ret (None, None)
    | inr _ =>
      (* a quick quote first *)
      do probe <- call_history_period P symbol "1d";
      match probe with
      | inl e => st_error (MsgErrorValidating symbol e) >> io_ret (None, None)
      | inr data =>
        if empty data then
          st_error (MsgNoData symbol) >> io_ret (None, None)
        else
          (* the full history *)
          do full <- call_history_range P symbol start_date end_date;
          match full with
          | inl e => st_error (MsgErrorFetching e) >> io_ret (None, None)
          | inr data =>
            if empty data then
              st_error (MsgNoHistory symbol) >> io_ret (None, None)
            else
              do i <- call_info P symbol;
              match i with
              | inl _ =>
                  st_warning (MsgLimitedInfo symbol) >>
                  io_ret (Some data, Some ∅)
              | inr info => io_ret (Some data, Some info)
              end
          end
      end
    end.

End StockDataFetcher.

(** ** The pandas operations on a column that the analyzer uses *)

Module Series.

Abbreviation series := (list fval).

(** [s.diff()]: first cell NaN, then the difference to the cell before. *)
Fixpoint diff_from (prev : fval) (s : series) : series :=
  match s with
  | [] => []
  | x :: t => (x - prev)%F :: diff_from x t
  end.

Definition diff (s : series) : series :=
  match s with
  | [] => []
  | x :: t => NaN :: diff_from x t
  end.

(** [s.where(cond, other)] with the condition computed cell by cell. *)
Definition where_ (cond : fval -> bool) (other : fval) (s : series) : series :=
  map (fun d => if cond d then d else other) s.

Definition neg (s : series) : series := map fneg s.

Definition fsum (l : series) : fval := foldr fadd (Fin 0) l.

(** The [w] cells ending at position [i]. *)
Definition window_at (w i : nat) (s : series) : series :=
  take w (drop (S i - w) s).

(** pandas prepares the cells of a rolling window: an infinite cell counts
    as a missing one. *)
Definition prep (x : fval) : fval :=
  match x with
  | PInf | NInf => NaN
  | _ => x
  end.

(** [s.rolling(window=w).mean()] with the mean of the window computed
    exactly: NaN until [w] cells are available and whenever the window
    holds a missing cell, else the mean of the window.  pandas' own cells
    are binary64 numbers and may differ from these in the last bits. *)
Definition rolling_mean (w : nat) (s : series) : series :=
  map (fun i => if (S i <? w)%nat then NaN
                else (fsum (window_at w i (map prep s)) / of_nat w)%F)
      (seq 0 (length s)).

(** What every statement takes from the library's [rolling(window=w).mean()]
    when it does not depend on the numbers: one cell per row, and NaN on the
    rows before the first full window ([min_periods] is the window). *)
Definition rolling_like (rm : nat -> series -> series) : Prop :=
  (forall (w : nat) (s : series), length (rm w s) = length s) /\
  (forall (w : nat) (s : series) (i : nat),
     (S i < w)%nat -> (i < length s)%nat -> rm w s !! i = Some NaN).

(** Cell-wise [a / b]. *)
Definition div (a b : series) : series := zip_with fdiv a b.

(** [s.tail(n)] *)
Definition tail (n : nat) (s : series) : series := drop (length s - n) s.

Definition fmin2 (x y : fval) : fval := if (y <? x)%F then y else x.
Definition fmax2 (x y : fval) : fval := if (x <? y)%F then y else x.

Definition dropna (s : series) : series :=
  List.filter (fun x => negb (is_nan x)) s.

(** [s.min()] and [s.max()]: NaN cells skipped, NaN when nothing is left. *)
Definition min (s : series) : fval :=
  match dropna s with
  | [] => NaN
  | x :: t => foldl fmin2 x t
  end.

Definition max (s : series) : fval :=
  match dropna s with
  | [] => NaN
  | x :: t => foldl fmax2 x t
  end.

End Series.

(** ** stock_analyzer.py: StockAnalyzer *)

Module StockAnalyzer.

(** The fields of the object. *)
Record t : Type := mk {
  symbol : string;
  data : option frame;
  info : option info_map;
  sentiment_score : fval;
  technical_signals : gmap string pyval;
  fundamental_metrics : gmap string pyval
}.

(** The fields as [__init__] leaves them. *)
Definition fresh (sym : string) : t :=
  {| symbol := PyStr.strip (PyStr.upper sym);
     data := None;
     info := None;
     sentiment_score := of_Z 0;
     technical_signals := ∅;
     fundamental_metrics := ∅ |}.

(** [__init__]: the symbol is normalised and [yf.Ticker(self.symbol)] is
    called, outside any [try]: what the provider raises there leaves the
    constructor and no object exists.  The ticker object itself is the
    provider together with [symbol]. *)
Definition init (P : Provider) (sym : string) : exn + t :=
  match new_ticker P (PyStr.strip (PyStr.upper sym)) with
  | inl e => inl e
  | inr _ => inr (fresh sym)
  end.

Definition set_data (self : t) (d : frame) : t :=
  {| symbol := symbol self; data := Some d; info := info self;
     sentiment_score := sentiment_score self;
     technical_signals := technical_signals self;
     fundamental_metrics := fundamental_metrics self |}.

Definition set_info (self : t) (i : info_map) : t :=
  {| symbol := symbol self; data := data self; info := Some i;
     sentiment_score := sentiment_score self;
     technical_signals := technical_signals self;
     fundamental_metrics := fundamental_metrics self |}.

Definition set_technical_signals (self : t) (d : gmap string pyval) : t :=
  {| symbol := symbol self; data := data self; info := info self;
     sentiment_score := sentiment_score self;
     technical_signals := d;
     fundamental_metrics := fundamental_metrics self |}.

Definition set_fundamental_metrics (self : t) (d : gmap string pyval) : t :=
  {| symbol := symbol self; data := data self; info := info self;
     sentiment_score := sentiment_score self;
     technical_signals := technical_signals self;
     fundamental_metrics := d |}.

(** [fetch_data]: [False] when the provider raises or has no rows; the
    empty table is stored all the same. *)
Definition fetch_data (P : Provider) (self : t) (period : string) : bool * t :=
  match history_period P (symbol self) period with
  | inl _ => (false, self)
  | inr d =>
      let self := set_data self d in
      if StockDataFetcher.empty d then (false, self)
      else match ticker_info P (symbol self) with
           | inl _ => (false, self)
           | inr i => (true, set_info self i)
           end
  end.

(** [s.rolling(window=w).mean()] is pandas' own computation on binary64
    cells.  The definitions whose names end in [_with] take it as the
    parameter [rolling_mean]; [Series.rolling_mean], the exact mean of the
    window, is the instance used where a statement depends on the numbers. *)
Definition _calculate_rsi_with
    (rolling_mean : nat -> Series.series -> Series.series)
    (prices : Series.series) (period : nat) : Series.series :=
  let delta := Series.diff prices in
  let gain :=
    rolling_mean period
      (Series.where_ (fun d => (d >? of_Z 0)%F) (of_Z 0) delta) in
  let loss :=
    rolling_mean period
      (Series.neg (Series.where_ (fun d => (d <? of_Z 0)%F) (of_Z 0) delta)) in
  let rs := Series.div gain loss in
  map (fun r => (of_Z 100 - (of_Z 100 / (of_Z 1 + r)))%F) rs.

Definition _calculate_rsi (prices : Series.series) (period : nat)
  : Series.series :=
  _calculate_rsi_with Series.rolling_mean prices period.

Definition _find_support (df : frame) : fval :=
  Series.min (Series.tail 20 (map Low df)).

Definition _find_resistance (df : frame) : fval :=
  Series.max (Series.tail 20 (map High df)).

(** [analyze_technicals]: the signals and the updated object.  Indexing
    [s[-1]] is positional and raises on a column without rows. *)
Definition analyze_technicals_with
    (rolling_mean : nat -> Series.series -> Series.series) (self : t)
  : py (gmap string pyval * t) :=
  match data self with
  | None => ret (∅, self)
  | Some df =>
      let close_prices := map Close df in
      let sma_50 := rolling_mean 50 close_prices in
      let sma_200 := rolling_mean 200 close_prices in
      let rsi := _calculate_rsi_with rolling_mean close_prices 14 in
      let* current_price := last_item close_prices in
      let* sma_50_last := last_item sma_50 in
      let* sma_200_last := last_item sma_200 in
      let* rsi_last := last_item rsi in
      let signals : gmap string pyval :=
        <[ "trend" :=
             VStr (if (sma_50_last >? sma_200_last)%F
                   then "Bullish" else "Bearish") ]>
        (<[ "rsi_signal" :=
             VStr (if (rsi_last <? of_Z 30)%F then "Oversold"
                   else if (rsi_last >? of_Z 70)%F then "Overbought"
                   else "Neutral") ]>
        (<[ "price_trend" :=
             VStr (if (current_price >? sma_50_last)%F
                   then "Up" else "Down") ]>
        (<[ "support_level" := VNum (_find_support df) ]>
        (<[ "resistance_level" := VNum (_find_resistance df) ]> ∅)))) in
      ret (signals, set_technical_signals self signals)
  end.

Definition analyze_technicals (self : t) : py (gmap string pyval * t) :=
  analyze_technicals_with Series.rolling_mean self.

(** Truth value of [self.info]: neither [None] nor empty. *)
Definition info_truthy (i : option info_map) : bool :=
  match i with
  | None => false
  | Some m => dict_truthy m
  end.

Definition analyze_fundamentals (self : t) : gmap string pyval * t :=
  if negb (info_truthy (info self)) then (∅, self)
  else
    let i : info_map := default ∅ (info self) in
    let metrics : gmap string pyval :=
      <[ "pe_ratio" := get i "forwardPE" (VNum (of_Z 0)) ]>
      (<[ "peg_ratio" := get i "pegRatio" (VNum (of_Z 0)) ]>
      (<[ "profit_margin" := get i "profitMargins" (VNum (of_Z 0)) ]>
      (<[ "debt_to_equity" := get i "debtToEquity" (VNum (of_Z 0)) ]>
      (<[ "return_on_equity" := get i "returnOnEquity" (VNum (of_Z 0)) ]>
      (<[ "quick_ratio" := get i "quickRatio" (VNum (of_Z 0)) ]> ∅))))) in
    (metrics, set_fundamental_metrics self metrics).

(** [min(max(score, 0), 100)] *)
Definition clamp (score : Z) : Z := Z.min (Z.max score 0) 100.

Definition _calculate_technical_score (self : t) : py Z :=
  let score := 50%Z in
  let* trend := getitem (technical_signals self) "trend" in
  let score := if eq_str trend "Bullish" then (score + 15)%Z else score in
  let* rsi_signal := getitem (technical_signals self) "rsi_signal" in
  let score := if eq_str rsi_signal "Oversold" then (score + 10)%Z else score in
  let* price_trend := getitem (technical_signals self) "price_trend" in
  let score := if eq_str price_trend "Up" then (score + 15)%Z else score in
  ret (clamp score).

Definition q_02 : fval := Fin (2 # 10).
Definition q_04 : fval := Fin (4 # 10).

Definition _calculate_fundamental_score (self : t) : py Z :=
  let score := 50%Z in
  let* pe_v := getitem (fundamental_metrics self) "pe_ratio" in
  let* pe := as_num pe_v in
  let score :=
    if (of_Z 10 <=? pe)%F && (pe <=? of_Z 25)%F then (score + 10)%Z else score in
  let* pm_v := getitem (fundamental_metrics self) "profit_margin" in
  let* profit_margin := as_num pm_v in
  let score := if (profit_margin >? q_02)%F then (score + 10)%Z else score in
  let* de_v := getitem (fundamental_metrics self) "debt_to_equity" in
  let* debt_ratio := as_num de_v in
  let score := if (debt_ratio <? of_Z 1)%F then (score + 10)%Z else score in
  ret (clamp score).

Definition total_of (technical_score fundamental_score : Z)
    (sentiment : fval) : fval :=
  (of_Z technical_score * q_04 + of_Z fundamental_score * q_04
   + sentiment * q_02)%F.

Definition recommendation : Type := (string * fval * string)%type.

Definition insufficient_data : recommendation :=
  ("Insufficient Data", of_Z 0,
   "Unable to make recommendation due to limited data").

Definition label_of (total_score : fval) : string * string :=
  if (total_score >=? of_Z 70)%F then
    ("Strong Buy", "Strong technical signals and fundamentals support buying")
  else if (total_score >=? of_Z 60)%F then
    ("Buy", "Generally positive indicators with some caution")
  else if (total_score >=? of_Z 40)%F then
    ("Hold", "Mixed signals suggest holding current position")
  else if (total_score >=? of_Z 30)%F then
    ("Sell", "Weak performance indicators suggest selling")
  else
    ("Strong Sell", "Multiple negative indicators suggest immediate selling").

Definition get_investment_recommendation (self : t) : py recommendation :=
  if negb (dict_truthy (technical_signals self)
           && dict_truthy (fundamental_metrics self)) then
    ret insufficient_data
  else
    let* technical_score := _calculate_technical_score self in
    let* fundamental_score := _calculate_fundamental_score self in
    let sentiment_score := sentiment_score self in
    let total_score :=
      total_of technical_score fundamental_score sentiment_score in
    let '(recommendation, explanation) := label_of total_score in
    ret (recommendation, total_score, explanation).

End StockAnalyzer.

(** ** Sentimental.py and Sector_Sentiment.py: classify_sentiment *)

Definition threshold_005 : fval := Fin (5 # 100).

Module Sentimental.

(** Label, CSS class and colour. *)
Definition classify_sentiment (score : fval) : string * string * string :=
  if (score >=? threshold_005)%F then ("Bullish 📈", "bullish", "green")
  else if (score <=? - threshold_005)%F then ("Bearish 📉", "bearish", "red")
  else ("Neutral ➖", "neutral", "gray").

End Sentimental.

Module Sector_Sentiment.

(** Label and CSS class. *)
Definition classify_sentiment (score : fval) : string * string :=
  if (score >=? threshold_005)%F then ("Bullish 📈", "bullish")
  else if (score <=? - threshold_005)%F then ("Bearish 📉", "bearish")
  else ("Neutral ➖", "neutral").

End Sector_Sentiment.

(** ** Prediction.py: the open-loop forecast of [main] *)

Module Prediction.

(** The fitted network, as the function from one input window to the next
    scaled value, and the fitted scaler's inverse on one cell. *)
Record Model : Type := mkModel { predict_window : list fval -> fval }.
Record Scaler : Type := mkScaler { inverse_cell : fval -> fval }.

(** [seq.reshape(1, lookback, 1)]: the cells unchanged when there are
    [lookback] of them, [ValueError] otherwise. *)
Definition reshape (lookback : nat) (current_seq : list fval)
  : py (list fval) :=
  if (length current_seq =? lookback)%nat then ret current_seq
  else raise ValueError.

(** [scaled_data[-lookback:]]; [-0] is [0], so the whole column. *)
Definition last_rows (lookback : nat) (scaled_data : list fval) : list fval :=
  if (lookback =? 0)%nat then scaled_data
  else drop (length scaled_data - lookback) scaled_data.

(** The body of [for _ in range(prediction_periods)], [n] rounds. *)
Fixpoint forecast_loop (model : Model) (lookback n : nat)
    (current_seq future_pred : list fval) : py (list fval) :=
  match n with
  | O => ret future_pred
  | S n' =>
      let* x := reshape lookback current_seq in
      let pred := predict_window model x in
      forecast_loop model lookback n'
        (drop 1 current_seq ++ [pred]) (future_pred ++ [pred])
  end.

(** [scaler.inverse_transform(rows)]: cell by cell; the library refuses an
    array without rows with [ValueError]. *)
Definition inverse_transform (scaler : Scaler) (rows : list fval)
  : py (list fval) :=
  match rows with
  | [] => raise ValueError
  | _ => ret (map (inverse_cell scaler) rows)
  end.

Definition forecast (model : Model) (scaler : Scaler)
    (scaled_data : list fval) (lookback prediction_periods : nat)
  : py (list fval) :=
  let last_sequence := last_rows lookback scaled_data in
  let* future_pred :=
    forecast_loop model lookback prediction_periods last_sequence [] in
  inverse_transform scaler future_pred.

End Prediction.

(** ** The scoring formula on IEEE binary64 numbers *)

Module Binary64.

#[warnings="-inexact-float"] Definition total_of
    (technical_score fundamental_score sentiment_score : float) : float :=
  (technical_score * 0.4 + fundamental_score * 0.4
   + sentiment_score * 0.2)%float.

(** The change in percent of Prediction.py and the mean of six equal
    scores, added one after the other. *)
Definition change (last_pred current_price : float) : float :=
  ((last_pred - current_price) / current_price * 100)%float.

Definition mean_of_six (x : float) : float :=
  ((x + x + x + x + x + x) / 6)%float.

End Binary64.

(** ** Predicates and sample objects used in the statements *)

Module Samples.

Import StockAnalyzer.

(** The scorer finds every key it reads, and the three metrics it orders
    are numbers. *)
Definition scorable (self : t) : Prop :=
  (exists v, technical_signals self !! "trend" = Some v) /\
  (exists v, technical_signals self !! "rsi_signal" = Some v) /\
  (exists v, technical_signals self !! "price_trend" = Some v) /\
  (exists x, fundamental_metrics self !! "pe_ratio" = Some (VNum x)) /\
  (exists x, fundamental_metrics self !! "profit_margin" = Some (VNum x)) /\
  (exists x, fundamental_metrics self !! "debt_to_equity" = Some (VNum x)).

Definition bullish_signals : gmap string pyval :=
  <[ "trend" := VStr "Bullish" ]>
  (<[ "rsi_signal" := VStr "Oversold" ]>
  (<[ "price_trend" := VStr "Up" ]> ∅)).

Definition sound_metrics : gmap string pyval :=
  <[ "pe_ratio" := VNum (of_Z 15) ]>
  (<[ "profit_margin" := VNum (Fin (25 # 100)) ]>
  (<[ "debt_to_equity" := VNum (Fin (5 # 10)) ]> ∅)).

(** An analyzer holding the given signals, metrics and sentiment. *)
Definition analyzer_with (signals metrics : gmap string pyval)
    (sentiment : fval) : t :=
  {| symbol := "AAPL"; data := None; info := None;
     sentiment_score := sentiment;
     technical_signals := signals;
     fundamental_metrics := metrics |}.

(** The symbol as [validate_ticker] examines it, its base part and the
    suffix it compares with the allow-list. *)
Definition normalized (symbol : string) : string :=
  PyStr.upper (PyStr.strip symbol).
Definition base_of (symbol : string) : string :=
  PyStr.item (PyStr.split "." (normalized symbol)) 0.
Definition suffix_of (symbol : string) : string :=
  "." +:+ PyStr.item (PyStr.split "." (normalized symbol)) 1.

(** A provider that has one row and no company information. *)
Definition one_row_provider : Provider :=
  {| new_ticker := fun _ => inr tt;
     history_period := fun _ _ =>
       inr [mkBar 0 (of_Z 1) (of_Z 1) (of_Z 1) (of_Z 1) (of_Z 1)];
     history_range := fun _ _ _ =>
       inr [mkBar 0 (of_Z 1) (of_Z 1) (of_Z 1) (of_Z 1) (of_Z 1)];
     ticker_info := fun _ => inl "no info" |}.

(** A provider that knows every symbol and has no rows for it. *)
Definition no_rows_provider : Provider :=
  {| new_ticker := fun _ => inr tt;
     history_period := fun _ _ => inr [];
     history_range := fun _ _ _ => inr [];
     ticker_info := fun _ => inr ∅ |}.

(** A model that repeats the last cell of its window, and a scaler whose
    range is [100, 200]. *)
Definition sample_model : Prediction.Model :=
  {| Prediction.predict_window := fun w => default NaN (last w) |}.
Definition sample_scaler : Prediction.Scaler :=
  {| Prediction.inverse_cell := fun x => (x * of_Z 100 + of_Z 100)%F |}.

(** The metric keys with the provider field each one is read from. *)
Definition metric_sources : list (string * string) :=
  [ ("pe_ratio", "forwardPE"); ("peg_ratio", "pegRatio");
    ("profit_margin", "profitMargins"); ("debt_to_equity", "debtToEquity");
    ("return_on_equity", "returnOnEquity"); ("quick_ratio", "quickRatio") ].

Definition metric_keys : gset string :=
  {[ "pe_ratio"; "peg_ratio"; "profit_margin"; "debt_to_equity";
     "return_on_equity"; "quick_ratio" ]}.

End Samples.

(** ** The technical indicators in the words of the specification *)

Module TechnicalSpec.

Local Open Scope Q_scope.

Definition Qsum (l : list Q) : Q := foldr Qplus 0 l.

(** The latest [w]-period simple moving average: the mean of the most
    recent [w] closes. *)
Definition sma_latest (w : nat) (closes : list Q) : Q :=
  Qsum (drop (length closes - w) closes) / inject_Z (Z.of_nat w).

(** The deltas of the [period] cells ending at position [i]. *)
Definition delta_window (prices : list Q) (period i : nat) : list fval :=
  Series.window_at period i (Series.diff (map Fin prices)).

Definition nonzero_delta (d : fval) : Prop :=
  match d with Fin q => ~ q == 0 | _ => False end.

Definition positive_delta (d : fval) : Prop :=
  match d with Fin q => 0 < q | _ => False end.

Definition negative_delta (d : fval) : Prop :=
  match d with Fin q => q < 0 | _ => False end.

(** A cell of [diff] on finite prices: a number, or the NaN of the first
    row. *)
Definition delta_cell (d : fval) : Prop :=
  match d with Fin _ | NaN => True | _ => False end.

(** What [_calculate_rsi] makes of one delta before averaging, and of one
    pair of averages. *)
Definition gain_cell (d : fval) : fval :=
  if (d >? of_Z 0)%F then d else of_Z 0.
Definition loss_cell (d : fval) : fval :=
  fneg (if (d <? of_Z 0)%F then d else of_Z 0).
Definition rsi_of (gain loss : fval) : fval :=
  (of_Z 100 - (of_Z 100 / (of_Z 1 + gain / loss)))%F.

(** A price table whose bars all trade at the given closes. *)
Definition frame_of_closes (closes : list Q) : frame :=
  map (fun c => mkBar 0 (Fin c) (Fin c) (Fin c) (Fin c) (of_Z 0)) closes.

(** [n] prices rising by one from [start]. *)
Definition rising_prices (start : Z) (n : nat) : list Q :=
  map (fun k => inject_Z (start + Z.of_nat k)) (seq 0 n).

End TechnicalSpec.

(** ** Home.py: main, and the life of an analyzer *)

Module Home.

Import StockAnalyzer.

(** What one run of the page shows. *)
Inductive outcome : Type :=
| Welcome
| CouldNotFetch
| Analysis (shown : recommendation) (signals metrics : gmap string pyval).

(** [main]: the overview tab asks for the recommendation first, the
    technical and the fundamental tab run their analyses after it. *)
Definition main (P : Provider) (typed : string) : py outcome :=
  let symbol := PyStr.upper typed in
  if String.eqb symbol "" then ret Welcome
  else
    match init P symbol with
    | inl e => raise (LibraryError e)
    | inr analyzer =>
        let '(ok, analyzer) := fetch_data P analyzer "1y" in
        if ok then
          let* shown := get_investment_recommendation analyzer in
          let* technical := analyze_technicals analyzer in
          let '(signals, analyzer) := technical in
          let '(metrics, analyzer) := analyze_fundamentals analyzer in
          ret (Analysis shown signals metrics)
        else ret CouldNotFetch
    end.

(** The objects that the methods of the class can produce from a fresh
    one, the object that a returning constructor leaves. *)
Inductive reachable (P : Provider) : t -> Prop :=
| reach_init (sym : string) : reachable P (fresh sym)
| reach_fetch_data (self : t) (period : string) :
    reachable P self -> reachable P (snd (fetch_data P self period))
| reach_analyze_technicals (self self' : t) (signals : gmap string pyval) :
    reachable P self ->
    analyze_technicals self = inr (signals, self') ->
    reachable P self'
| reach_analyze_fundamentals (self : t) :
    reachable P self -> reachable P (snd (analyze_fundamentals self)).

Definition signal_keys : gset string :=
  {[ "trend"; "rsi_signal"; "price_trend"; "support_level";
     "resistance_level" ]}.

(** What every reachable object satisfies. *)
Definition well_formed (self : t) : Prop :=
  sentiment_score self = of_Z 0 /\
  (technical_signals self = ∅ \/ dom (technical_signals self) = signal_keys) /\
  (fundamental_metrics self = ∅
   \/ dom (fundamental_metrics self) = Samples.metric_keys).

(** A provider whose [yf.Ticker] refuses the empty symbol and that has no
    data otherwise. *)
Definition strict_provider : Provider :=
  {| new_ticker := fun s =>
       if String.eqb s "" then inl "Empty tickername"%string else inr tt;
     history_period := fun _ _ => inr [];
     history_range := fun _ _ _ => inr [];
     ticker_info := fun _ => inr ∅ |}.

(** A provider with three rising rows and a numeric info mapping. *)
Definition three_row_provider : Provider :=
  {| new_ticker := fun _ => inr tt;
     history_period := fun _ _ => inr (TechnicalSpec.frame_of_closes [10; 11; 12]%Q);
     history_range := fun _ _ _ => inr (TechnicalSpec.frame_of_closes [10; 11; 12]%Q);
     ticker_info := fun _ =>
       inr (<[ "forwardPE" := VNum (of_Z 15) ]>
            (<[ "profitMargins" := VNum (Fin (25 # 100)) ]> ∅)) |}.

End Home.

(** ** The pages that call the fetcher *)

Module Pages.

Import StockDataFetcher.

Definition is_st_error (e : event) : bool :=
  match e with StError _ => true | _ => false end.

(** The four requests of a complete fetch, in the order of the code. *)
Definition all_requests (symbol : string) (start_date end_date : Z)
  : list event :=
  [ YfTicker symbol; YfHistoryPeriod symbol "1d";
    YfHistoryRange symbol start_date end_date; YfInfo symbol ].

(** What a page adds to the events of the fetcher. *)
Inductive page_event : Type :=
| Fetcher (e : event)
| InvalidFormat
| Sleep (seconds : Z).

(** Fundamental_Analysis.py, [get_fundamentals]: the info mapping of a
    one-day fetch, or [None]; [today] is [date.today()]. *)
Definition get_fundamentals (P : Provider) (today : Z) (symbol : string)
  : option info_map * list page_event :=
  let '(ok, t1) := validate_ticker symbol in
  if negb ok then (None, map Fetcher t1 ++ [InvalidFormat])
  else
    let '((data, info), t2) := fetch_stock_data P symbol today today in
    (match info with
     | Some i => if dict_truthy i then Some i else None
     | None => None
     end,
     map Fetcher (t1 ++ t2)).

(** Technical_Analysis.py, [load_data]: [last_error] is the presence of the
    key of that name in the session state. *)
Definition load_data (P : Provider) (last_error : bool) (ticker : string)
    (start_date end_date : Z) : fetch_result * bool * list page_event :=
  if String.eqb ticker "" then ((None, None), last_error, [])
  else
    let '(last_error, t0) :=
      if last_error then (false, [Sleep 2]) else (last_error, []) in
    let '((data, info), t1) := fetch_stock_data P ticker start_date end_date in
    match data with
    | Some _ => ((data, info), last_error, t0 ++ map Fetcher t1)
    | None => ((None, None), true, t0 ++ map Fetcher t1)
    end.

End Pages.

(** ** More of [str]: the methods used by the pages *)

Module PyStrMore.

Import PyStr.

Definition is_alpha (c : ascii) : bool := is_upper c || is_lower c.

(** [s.isalpha()]: false on the empty string. *)
Definition isalpha (s : string) : bool :=
  match s with
  | EmptyString => false
  | _ => all_chars is_alpha s
  end.

(** [s.endswith(suffix)] *)
Definition endswith (s suffix : string) : bool :=
  let n := String.length s in
  let k := String.length suffix in
  (k <=? n)%nat && String.eqb (String.substring (n - k) k s) suffix.

(** An upper-case letter, a digit or a hyphen. *)
Definition is_ticker_char (c : ascii) : bool :=
  is_upper c || is_digit c || Ascii.eqb c "-".

End PyStrMore.

(** ** Technical_Analysis.py: the ticker check of the page *)

Module Technical_Analysis.

Import StockDataFetcher.

Definition COMMON_SYMBOLS : gmap string string :=
  <[ "AAPL" := "Apple Inc." ]>
  (<[ "MSFT" := "Microsoft Corporation" ]>
  (<[ "GOOGL" := "Alphabet Inc." ]>
  (<[ "AMZN" := "Amazon.com Inc." ]>
  (<[ "META" := "Meta Platforms Inc." ]>
  (<[ "TSLA" := "Tesla Inc." ]>
  (<[ "NVDA" := "NVIDIA Corporation" ]> ∅)))))).

Inductive stop_reason : Type :=
| OnlyLetters
| TooLong.

Inductive note : Type :=
| DidYouMean (symbol name : string)
| LoadingFor (name : string).

(** [k in COMMON_SYMBOLS] *)
Definition common (k : string) : bool :=
  bool_decide (is_Some (COMMON_SYMBOLS !! k)).

(** The checks on a non-empty ticker: [st.stop()] with an error, or the
    notes shown before the page goes on. *)
Definition check_ticker (ticker : string) : stop_reason + list note :=
  if negb (PyStrMore.isalpha ticker) then inl OnlyLetters
  else if (5 <? String.length ticker)%nat then inl TooLong
  else
    let hint :=
      if negb (common ticker) && common (ticker +:+ "L") then
        [DidYouMean (ticker +:+ "L")
           (default "" (COMMON_SYMBOLS !! (ticker +:+ "L")))]
      else if common (ticker +:+ "A") then
        [DidYouMean (ticker +:+ "A")
           (default "" (COMMON_SYMBOLS !! (ticker +:+ "A")))]
      else [] in
    let loading :=
      if common ticker then [LoadingFor (default "" (COMMON_SYMBOLS !! ticker))]
      else [] in
    inr (hint ++ loading).

Inductive page_out : Type :=
| EnterSymbol
| Stopped (why : stop_reason)
| Loaded (notes : list note) (r : fetch_result)
    (trace : list Pages.page_event).

(** The script of the page from the text typed to the fetch; [last_error]
    is the presence of that key in the session state, removed after the
    sleep. *)
Definition script (P : Provider) (last_error : bool) (typed : string)
    (start_date end_date : Z) : page_out :=
  let ticker := PyStr.strip (PyStr.upper typed) in
  if String.eqb ticker "" then EnterSymbol
  else
    match check_ticker ticker with
    | inl why => Stopped why
    | inr notes =>
        let t0 := if last_error then [Pages.Sleep 2] else [] in
        let '(r, trace) := fetch_stock_data P ticker start_date end_date in
        Loaded notes r (t0 ++ map Pages.Fetcher trace)
    end.

End Technical_Analysis.

(** ** Prediction.py: intervals, loading and the training windows *)

Module PredictionPage.

Import Prediction.

(** The dictionaries of the module; [TIME_INTERVALS] keeps its insertion
    order, which [keys()] exposes. *)
Definition TIME_INTERVALS : list (string * string) :=
  [ ("1 Minute", "1m"); ("5 Minutes", "5m"); ("15 Minutes", "15m");
    ("30 Minutes", "30m"); ("1 Hour", "1h"); ("1 Day", "1d");
    ("1 Week", "1wk"); ("1 Month", "1mo") ].

Definition MAX_PERIODS : list (string * Z) :=
  [ ("1m", 7); ("5m", 60); ("15m", 60); ("30m", 60); ("1h", 730);
    ("1d", 1825); ("1wk", 3650); ("1mo", 3650) ]%Z.

(** [d[k]] on such a dictionary. *)
Fixpoint lookup_key {V} (d : list (string * V)) (k : string) : py V :=
  match d with
  | [] => raise (KeyError k)
  | (k', v) :: rest => if String.eqb k' k then ret v else lookup_key rest k
  end.

Definition MARKET_SPECIFIC_INTERVALS (market : string) : py (list string) :=
  if String.eqb market "US" then ret (map fst TIME_INTERVALS)
  else if String.eqb market "IN" then ret ["1 Day"; "1 Week"; "1 Month"]
  else raise (KeyError market).

Definition is_indian_stock (ticker : string) : bool :=
  PyStrMore.endswith ticker ".NS" || PyStrMore.endswith ticker ".BO".

Definition get_available_intervals (ticker : string) : py (list string) :=
  if is_indian_stock ticker then MARKET_SPECIFIC_INTERVALS "IN"
  else MARKET_SPECIFIC_INTERVALS "US".

Definition intraday : list string := ["1m"; "5m"; "15m"; "30m"; "1h"].

(** [x in l] for a list of strings. *)
Definition in_list (x : string) (l : list string) : bool :=
  existsb (String.eqb x) l.

(** Points in time are counted in microseconds; [timedelta(days=d)]. *)
Definition timedelta_days (d : Z) : Z := (d * 86400000000)%Z.

(** [yf.download]: raises or answers with a table. *)
Record Downloader : Type := mkDownloader {
  download : string -> Z -> Z -> string -> exn + frame
}.

Inductive load_event : Type :=
| Download (ticker : string) (start_date end_date : Z) (interval : string)
| IntradayNotAvailable
| NoDataAvailable
| ErrorFetching.

Definition load_data (D : Downloader) (ticker interval : string)
    (start_date end_date : Z) : option frame * list load_event :=
  if is_indian_stock ticker && in_list interval intraday then
    (None, [IntradayNotAvailable])
  else
    match lookup_key MAX_PERIODS interval with
    | inl _ => (None, [ErrorFetching])
    | inr max_days =>
        let adjusted_start :=
          Z.max start_date (end_date - timedelta_days max_days) in
        match download D ticker adjusted_start end_date interval with
        | inl _ =>
            (None, [Download ticker adjusted_start end_date interval;
                    ErrorFetching])
        | inr df =>
            if StockDataFetcher.empty df then
              (None, [Download ticker adjusted_start end_date interval;
                      NoDataAvailable])
            else (Some df, [Download ticker adjusted_start end_date interval])
        end
    end.

(** The part of [main] from the interval chosen in the select box to the
    loaded table; [now] is [datetime.now()]. *)
Definition main_load (D : Downloader) (ticker interval_key : string) (now : Z)
  : py (option frame * list load_event) :=
  let* interval := lookup_key TIME_INTERVALS interval_key in
  let end_date := now in
  let* max_days := lookup_key MAX_PERIODS interval in
  let start_date := (end_date - timedelta_days max_days)%Z in
  ret (load_data D ticker interval start_date end_date).

(** [l[a:b]] for [a <= b], and [l[i]]. *)
Definition slice (l : list fval) (a b : nat) : list fval :=
  take (b - a) (drop a l).

Definition index (l : list fval) (i : nat) : py fval :=
  match l !! i with
  | Some x => ret x
  | None => raise IndexError
  end.

(** The loop that fills [X] and [y], over the indices it is given. *)
Fixpoint training_loop (scaled_data : list fval) (lookback : nat)
    (indices : list nat) (X : list (list fval)) (y : list fval)
  : py (list (list fval) * list fval) :=
  match indices with
  | [] => ret (X, y)
  | i :: rest =>
      let* yi := index scaled_data i in
      training_loop scaled_data lookback rest
        (X ++ [slice scaled_data (i - lookback) i]) (y ++ [yi])
  end.

(** The training pairs; [X.shape[1]] of the reshape needs a second axis,
    which an [X] without windows does not have. *)
Definition training_set (scaled_data : list fval) (lookback : nat)
  : py (list (list fval) * list fval) :=
  let* Xy :=
    training_loop scaled_data lookback
      (seq lookback (length scaled_data - lookback)) [] [] in
  match fst Xy with
  | [] => raise IndexError
  | _ => ret Xy
  end.

(** Training and forecast of [main]; [fit] is what building, compiling and
    fitting the network makes of the training pairs. *)
Definition train_and_forecast
    (fit : list (list fval) * list fval -> Model) (scaler : Scaler)
    (scaled_data : list fval) (lookback prediction_periods : nat)
  : py (list fval) :=
  let* Xy := training_set scaled_data lookback in
  forecast (fit Xy) scaler scaled_data lookback prediction_periods.

(** A downloader whose table has one row. *)
Definition one_row_downloader : Downloader :=
  {| download := fun _ _ _ _ =>
       inr [mkBar 0 (of_Z 1) (of_Z 1) (of_Z 1) (of_Z 1) (of_Z 1)] |}.

End PredictionPage.

(** ** The sentiment pages: the overall label *)

Module SentimentPages.

(** The additions of [np.mean].  The sum is rounded after every addition,
    and numpy chooses the order in which it adds (one value after the other
    below eight values, partial sums in blocks above).  A [plan] is one such
    order: the leaves hold the values, every node is one rounded
    addition. *)
Inductive plan : Type :=
| One (x : fval)
| Add (a b : plan).

Fixpoint scores (p : plan) : list fval :=
  match p with
  | One x => [x]
  | Add a b => scores a ++ scores b
  end.

Fixpoint total (rnd : Q -> Q) (p : plan) : fval :=
  match p with
  | One x => x
  | Add a b => Rounded.add rnd (total rnd a) (total rnd b)
  end.

(** The number of values of a plan, as a rational. *)
Definition count (p : plan) : Q := inject_Z (Z.of_nat (length (scores p))).

(** What is taken of numpy's order: it adds the values of the list, each
    once. *)
Definition follows (order : list fval -> plan) : Prop :=
  forall l : list fval, l <> [] -> scores (order l) ≡ₚ l.

(** One value after the other, from a sum of zero. *)
Definition in_turn (l : list fval) : plan :=
  match l with
  | [] => One (Fin 0)
  | x :: rest => foldl (fun p y => Add p (One y)) (One x) rest
  end.

(** [np.mean]: the rounded sum over the count, rounded; NaN on no
    values. *)
Definition mean (rnd : Q -> Q) (order : list fval -> plan) (l : list fval)
  : fval :=
  Rounded.div rnd (total rnd (order l)) (of_nat (length l)).

(** Sentimental.py, [main]: the overall label and the label of each
    article, from the compound score [analyze] gives to a title; nothing
    is classified without articles. *)
Definition overall (rnd : Q -> Q) (order : list fval -> plan)
    (analyze : string -> fval) (titles : list string)
  : option (string * string * string) :=
  match titles with
  | [] => None
  | _ =>
      Some (Sentimental.classify_sentiment
              (mean rnd order (map analyze titles)))
  end.

Definition per_article (analyze : string -> fval) (titles : list string)
  : list (string * string * string) :=
  map (fun title => Sentimental.classify_sentiment (analyze title)) titles.

(** The three answers of [classify_sentiment]. *)
Definition bullish : string * string * string :=
  ("Bullish 📈", "bullish", "green")%string.
Definition bearish : string * string * string :=
  ("Bearish 📉", "bearish", "red")%string.
Definition neutral : string * string * string :=
  ("Neutral ➖", "neutral", "gray")%string.

(** A scorer that likes two words. *)
Definition sample_scorer (text : string) : fval :=
  if String.eqb text "surges" then Fin (6 # 10)
  else if String.eqb text "record profit" then Fin (4 # 10)
  else Fin 0.

(** A scorer that puts every title on the threshold. *)
Definition threshold_scorer (text : string) : fval := Fin (5 # 100).

End SentimentPages.

(** ** Fundamental_Analysis.py: search_stocks *)

Module Search.

(** The search service: the request or the decoding raises, or there is
    the decoded answer with its 'quotes' entry, if it has one. *)
Record Service : Type := mkService {
  search : string -> exn + option (list (gmap string pyval))
}.

Inductive search_event : Type := ErrorSearching (e : string).

(** [quote.get('quoteType') == 'EQUITY'] *)
Definition is_equity (quote : gmap string pyval) : bool :=
  match quote !! "quoteType" with
  | Some v => eq_str v "EQUITY"
  | None => false
  end.

(** [quote.get('longname', quote.get('shortname', ''))] *)
Definition name_of (quote : gmap string pyval) : pyval :=
  get quote "longname" (get quote "shortname" (VStr "")).

(** The list comprehension over the quotes. *)
Fixpoint equity_pairs (quotes : list (gmap string pyval))
  : py (list (pyval * pyval)) :=
  match quotes with
  | [] => ret []
  | quote :: rest =>
      if is_equity quote then
        let* symbol := getitem quote "symbol" in
        let* others := equity_pairs rest in
        ret ((symbol, name_of quote) :: others)
      else equity_pairs rest
  end.

(** [str(e)]; the text of a KeyError is the key in quotes. *)
Definition str_of (e : pyerr) : string :=
  match e with
  | KeyError k => "'" +:+ k +:+ "'"
  | IndexError => "IndexError"
  | TypeError => "TypeError"
  | ValueError => "ValueError"
  | LibraryError text => text
  end.

Definition search_stocks (S : Service) (query : string)
  : list (pyval * pyval) * list search_event :=
  match search S query with
  | inl e => ([], [ErrorSearching e])
  | inr (Some (quote :: rest)) =>
      match equity_pairs (quote :: rest) with
      | inl e => ([], [ErrorSearching (str_of e)])
      | inr pairs => (pairs, [])
      end
  | inr _ => ([], [])
  end.

(** The symbol of a quote that has one. *)
Definition symbol_of (quote : gmap string pyval) : pyval :=
  default VNone (quote !! "symbol").

Definition sample_quotes : list (gmap string pyval) :=
  [ <[ "symbol" := VStr "AAPL" ]> (<[ "quoteType" := VStr "EQUITY" ]>
      (<[ "shortname" := VStr "Apple" ]> ∅));
    <[ "quoteType" := VStr "INDEX" ]> ∅;
    <[ "symbol" := VStr "APLE" ]> (<[ "quoteType" := VStr "EQUITY" ]> ∅) ].

End Search.

(** ** Prediction.py: the metrics shown after the forecast *)

Module PredictionMetrics.

(** [abs] on a float. *)
Definition fabs (x : fval) : fval :=
  match x with
  | Fin q => Fin (Qabs.Qabs q)
  | PInf | NInf => PInf
  | NaN => NaN
  end.

(** The change in percent of the last prediction against the current
    price, three rounded operations, and the confidence shown for it. *)
Definition change (rnd : Q -> Q) (last_pred current_price : fval) : fval :=
  Rounded.mul rnd
    (Rounded.div rnd (Rounded.sub rnd last_pred current_price) current_price)
    (of_Z 100).

Definition confidence (change : fval) : string :=
  if (fabs change <? of_Z 10)%F then "High"
  else if (fabs change <? of_Z 20)%F then "Medium"
  else "Low".

End PredictionMetrics.

(** ** Further predicates of the statements *)

Module MoreSamples.

(** The field is absent from the info mapping or holds a number. *)
Definition numeric_or_absent (i : gmap string pyval) (k : string) : Prop :=
  match i !! k with
  | Some (VNum _) | None => True
  | Some _ => False
  end.

End MoreSamples.

(* ===================================================================== *)
(** * Part II: properties                                                  *)
(* ===================================================================== *)

(** Split on every condition of the goal, innermost first. *)
Ltac case_ifs :=
  repeat match goal with
         | |- context [if ?b then _ else _] =>
             lazymatch b with
             | context [if _ then _ else _] => fail
             | _ => destruct b eqn:?
             end
         end.

(** ** Facts about the number model *)

Module PyFloatFacts.

Local Open Scope Q_scope.

Lemma Qltb_lt (a b : Q) : Qltb a b = true <-> a < b.
Proof.
  unfold Qltb. rewrite negb_true_iff.
  split.
  - intros H. apply Qnot_le_lt. intros Hle.
    apply Qle_bool_iff in Hle. congruence.
  - intros H. destruct (Qle_bool b a) eqn:E; [|reflexivity].
    apply Qle_bool_iff in E. lra.
Qed.

Lemma Qltb_ge (a b : Q) : Qltb a b = false <-> b <= a.
Proof.
  unfold Qltb. rewrite negb_false_iff. apply Qle_bool_iff.
Qed.

Lemma Qle_bool_false (a b : Q) : Qle_bool a b = false <-> b < a.
Proof.
  split.
  - intros H. apply Qnot_le_lt. intros Hle.
    apply Qle_bool_iff in Hle. congruence.
  - intros H. destruct (Qle_bool a b) eqn:E; [|reflexivity].
    apply Qle_bool_iff in E. lra.
Qed.

Lemma fleb_Fin (a b : Q) : (Fin a <=? Fin b)%F = true <-> a <= b.
Proof. apply Qle_bool_iff. Qed.

Lemma fltb_Fin (a b : Q) : (Fin a <? Fin b)%F = true <-> a < b.
Proof. apply Qltb_lt. Qed.

Lemma inject_Z_bounds (z lo hi : Z) :
  (lo <= z <= hi)%Z -> inject_Z lo <= inject_Z z /\ inject_Z z <= inject_Z hi.
Proof. intros [H1 H2]. split; rewrite <- Zle_Qle; assumption. Qed.

End PyFloatFacts.

(** ** Facts about rounded arithmetic *)

Module RoundedFacts.

Import Rounded.
Local Open Scope Q_scope.

(** The exact result and the chopped one are both within the unit. *)
Lemma exact_accurate : accurate (fun x => x).
Proof.
  intros x. apply Qabs_Qle_condition.
  pose proof (Qabs_nonneg x) as N. unfold eps.
  set (a := Qabs x) in *. lra.
Qed.

Lemma chop_accurate : accurate chop.
Proof.
  intros x. unfold chop.
  assert (E : x * (1 - eps) - x == - (eps * x)) by ring.
  rewrite E, Qabs_opp, Qabs_Qmult.
  rewrite (Qabs_pos eps) by discriminate. apply Qle_refl.
Qed.

Lemma down_S (n : nat) : down (S n) = (1 - eps) * down n.
Proof. reflexivity. Qed.

Lemma up_S (n : nat) : up (S n) = (1 + eps) * up n.
Proof. reflexivity. Qed.

Lemma down_range (n : nat) : 0 < down n <= 1.
Proof.
  induction n as [|n IH]; [split; [reflexivity | discriminate]|].
  rewrite down_S. unfold eps. set (d := down n) in *. lra.
Qed.

Lemma up_range (n : nat) : 1 <= up n.
Proof.
  induction n as [|n IH]; [discriminate|].
  rewrite up_S. unfold eps. set (d := up n) in *. lra.
Qed.

Lemma down_antitone (n m : nat) : (n <= m)%nat -> down m <= down n.
Proof.
  induction 1 as [|m _ IH]; [apply Qle_refl|].
  rewrite down_S. pose proof (down_range m) as R. unfold eps.
  set (d := down m) in *. set (d' := down n) in *. lra.
Qed.

Lemma up_monotone (n m : nat) : (n <= m)%nat -> up n <= up m.
Proof.
  induction 1 as [|m _ IH]; [apply Qle_refl|].
  rewrite up_S. pose proof (up_range m) as R. unfold eps.
  set (d := up m) in *. set (d' := up n) in *. lra.
Qed.

Section Accurate.

Variable rnd : Q -> Q.
Hypothesis rnd_accurate : accurate rnd.

Lemma rnd_bounds (x : Q) :
  x - eps * Qabs x <= rnd x <= x + eps * Qabs x.
Proof.
  pose proof (rnd_accurate x) as H. apply Qabs_Qle_condition in H.
  set (a := eps * Qabs x) in *. lra.
Qed.

Lemma rnd_nonneg_lower (x : Q) : 0 <= x -> (1 - eps) * x <= rnd x.
Proof.
  intros Hx. pose proof (rnd_bounds x) as H.
  rewrite (Qabs_pos x Hx) in H. unfold eps in *. lra.
Qed.

Lemma rnd_nonpos_upper (x : Q) : x <= 0 -> rnd x <= (1 - eps) * x.
Proof.
  intros Hx. pose proof (rnd_bounds x) as H.
  rewrite (Qabs_neg x Hx) in H. unfold eps in *. lra.
Qed.

Lemma rnd_abs_upper (x : Q) : Qabs (rnd x) <= (1 + eps) * Qabs x.
Proof.
  pose proof (rnd_bounds x) as H. pose proof (Qabs_nonneg x) as N.
  apply Qabs_Qle_condition.
  destruct (Qlt_le_dec x 0) as [Hx|Hx].
  - rewrite (Qabs_neg x) in * by lra. unfold eps in *. lra.
  - rewrite (Qabs_pos x) in * by lra. unfold eps in *. lra.
Qed.

Lemma rnd_abs_lower (x : Q) : (1 - eps) * Qabs x <= Qabs (rnd x).
Proof.
  pose proof (rnd_bounds x) as H.
  destruct (Qlt_le_dec x 0) as [Hx|Hx].
  - rewrite (Qabs_neg x) in * by lra.
    assert (Hr : rnd x <= 0) by (unfold eps in *; lra).
    rewrite (Qabs_neg (rnd x) Hr). unfold eps in *. lra.
  - rewrite (Qabs_pos x) in * by lra.
    assert (Hr : 0 <= rnd x) by (unfold eps in *; lra).
    rewrite (Qabs_pos (rnd x) Hr). unfold eps in *. lra.
Qed.

End Accurate.

End RoundedFacts.

(** ** Facts about dictionaries *)

Module DictFacts.

Lemma dict_truthy_lookup (d : gmap string pyval) (k : string) (v : pyval) :
  d !! k = Some v -> dict_truthy d = true.
Proof.
  intros H. unfold dict_truthy. rewrite negb_true_iff.
  apply bool_decide_eq_false. intros ->. rewrite lookup_empty in H. discriminate.
Qed.

Lemma dict_truthy_empty : dict_truthy ∅ = false.
Proof. reflexivity. Qed.

Lemma dict_falsy (d : gmap string pyval) : dict_truthy d = false <-> d = ∅.
Proof.
  unfold dict_truthy. rewrite negb_false_iff. apply bool_decide_eq_true.
Qed.

Lemma getitem_Some (d : gmap string pyval) (k : string) (v : pyval) :
  d !! k = Some v -> getitem d k = inr v.
Proof. intros H. unfold getitem. rewrite H. reflexivity. Qed.

End DictFacts.

(** ** The recommendation scorer *)

Module ScorerFacts.

Import StockAnalyzer Samples PyFloatFacts DictFacts.
Local Open Scope Q_scope.

Lemma clamp_range (z : Z) : (0 <= clamp z <= 100)%Z.
Proof. unfold clamp. lia. Qed.

Lemma technical_score_range (self : t) (ts : Z) :
  _calculate_technical_score self = inr ts -> (50 <= ts <= 90)%Z.
Proof.
  unfold _calculate_technical_score, getitem, bind, ret, raise.
  destruct (technical_signals self !! "trend") as [v1|]; [|discriminate].
  destruct (technical_signals self !! "rsi_signal") as [v2|]; [|discriminate].
  destruct (technical_signals self !! "price_trend") as [v3|]; [|discriminate].
  intros [= <-]. unfold clamp.
  case_ifs; lia.
Qed.

Lemma fundamental_score_range (self : t) (fs : Z) :
  _calculate_fundamental_score self = inr fs -> (50 <= fs <= 80)%Z.
Proof.
  unfold _calculate_fundamental_score, getitem, as_num, bind, ret, raise.
  destruct (fundamental_metrics self !! "pe_ratio") as [[| |pe]|]; try discriminate.
  destruct (fundamental_metrics self !! "profit_margin") as [[| |pm]|]; try discriminate.
  destruct (fundamental_metrics self !! "debt_to_equity") as [[| |de]|]; try discriminate.
  intros [= <-]. unfold clamp.
  case_ifs; lia.
Qed.

Lemma technical_score_returns (self : t) :
  (exists v, technical_signals self !! "trend" = Some v) ->
  (exists v, technical_signals self !! "rsi_signal" = Some v) ->
  (exists v, technical_signals self !! "price_trend" = Some v) ->
  exists ts, _calculate_technical_score self = inr ts.
Proof.
  intros [v1 H1] [v2 H2] [v3 H3].
  unfold _calculate_technical_score, getitem, bind, ret.
  rewrite H1, H2, H3. eexists. reflexivity.
Qed.

Lemma fundamental_score_returns (self : t) :
  (exists x, fundamental_metrics self !! "pe_ratio" = Some (VNum x)) ->
  (exists x, fundamental_metrics self !! "profit_margin" = Some (VNum x)) ->
  (exists x, fundamental_metrics self !! "debt_to_equity" = Some (VNum x)) ->
  exists fs, _calculate_fundamental_score self = inr fs.
Proof.
  intros [v1 H1] [v2 H2] [v3 H3].
  unfold _calculate_fundamental_score, getitem, as_num, bind, ret.
  rewrite H1, H2, H3. eexists. reflexivity.
Qed.

(** The weighted total of in-range sub-scores and an in-range sentiment
    is in range. *)
Lemma total_of_range (ts fs : Z) (s : Q) :
  (0 <= ts <= 100)%Z -> (0 <= fs <= 100)%Z -> 0 <= s <= 100 ->
  exists total, total_of ts fs (Fin s) = Fin total /\
    total == (4 # 10) * inject_Z ts + (4 # 10) * inject_Z fs + (2 # 10) * s /\
    0 <= total <= 100.
Proof.
  intros Hts Hfs Hs.
  apply (inject_Z_bounds ts 0 100) in Hts.
  apply (inject_Z_bounds fs 0 100) in Hfs.
  change (inject_Z 0) with 0 in *. change (inject_Z 100) with 100 in *.
  unfold total_of, of_Z, q_04, q_02. simpl.
  generalize dependent (inject_Z ts). generalize dependent (inject_Z fs).
  intros b Hb a Ha.
  eexists. split; [reflexivity|]. split; [ring | lra].
Qed.

Lemma label_of_cases (x : fval) :
  fst (label_of x) ∈
    ["Strong Buy"; "Buy"; "Hold"; "Sell"; "Strong Sell"].
Proof.
  unfold label_of.
  case_ifs; simpl; set_solver.
Qed.

(** C1 (as amended): on an object whose signal and metric mappings hold
    the keys the scorer reads, and whose sentiment score lies in [0,100],
    [get_investment_recommendation] returns; both sub-scores are clamped
    into [0,100]; the total is 0.4*technical + 0.4*fundamental +
    0.2*sentiment and lies in [0,100]. *)
Theorem recommendation_total_in_range (self : t) (s : Q) :
  scorable self ->
  sentiment_score self = Fin s ->
  0 <= s <= 100 ->
  exists (ts fs : Z) (label explanation : string) (total : Q),
    _calculate_technical_score self = inr ts /\
    _calculate_fundamental_score self = inr fs /\
    (0 <= ts <= 100)%Z /\ (0 <= fs <= 100)%Z /\
    get_investment_recommendation self = inr (label, Fin total, explanation) /\
    total == (4 # 10) * inject_Z ts + (4 # 10) * inject_Z fs + (2 # 10) * s /\
    0 <= total <= 100.
Proof.
  intros (Ht1 & Ht2 & Ht3 & Hf1 & Hf2 & Hf3) Hsent Hs.
  destruct (technical_score_returns self Ht1 Ht2 Ht3) as [ts Hts].
  destruct (fundamental_score_returns self Hf1 Hf2 Hf3) as [fs Hfs].
  pose proof (technical_score_range self ts Hts) as Rts.
  pose proof (fundamental_score_range self fs Hfs) as Rfs.
  assert (Rts' : (0 <= ts <= 100)%Z) by lia.
  assert (Rfs' : (0 <= fs <= 100)%Z) by lia.
  destruct (total_of_range ts fs s Rts' Rfs' Hs) as (total & Htot & Heq & Hrange).
  destruct Ht1 as [v1 Ht1]. destruct Hf1 as [x1 Hf1].
  exists ts, fs, (fst (label_of (Fin total))), (snd (label_of (Fin total))), total.
  repeat split; try tauto; try lia.
  unfold get_investment_recommendation.
  rewrite (dict_truthy_lookup _ _ _ Ht1), (dict_truthy_lookup _ _ _ Hf1).
  simpl. rewrite Hts, Hfs. simpl. rewrite Hsent, Htot.
  destruct (label_of (Fin total)); reflexivity.
Qed.

(** Witness of [recommendation_total_in_range]: the bullish signals, the
    sound metrics and a sentiment score of 50. *)
Lemma recommendation_total_in_range_witness :
  exists (ts fs : Z) (label explanation : string) (total : Q),
    let self := analyzer_with bullish_signals sound_metrics (of_Z 50) in
    _calculate_technical_score self = inr ts /\
    _calculate_fundamental_score self = inr fs /\
    (0 <= ts <= 100)%Z /\ (0 <= fs <= 100)%Z /\
    get_investment_recommendation self = inr (label, Fin total, explanation) /\
    total == (4 # 10) * inject_Z ts + (4 # 10) * inject_Z fs + (2 # 10) * 50 /\
    0 <= total <= 100.
Proof.
  apply (recommendation_total_in_range
           (analyzer_with bullish_signals sound_metrics (of_Z 50)) 50).
  - unfold scorable. simpl. repeat split; eexists; reflexivity.
  - reflexivity.
  - lra.
Defined.

(** C1 (as stated) fails: nothing clamps the total, so with full signal
    and metric mappings and a sentiment score of 1000 the returned total
    is 268. *)
Lemma total_above_100_counterexample :
  let self := analyzer_with bullish_signals sound_metrics (of_Z 1000) in
  dict_truthy (technical_signals self) = true /\
  dict_truthy (fundamental_metrics self) = true /\
  exists (label explanation : string) (total : Q),
    get_investment_recommendation self = inr (label, Fin total, explanation) /\
    total == 268 /\ ~ (total <= 100).
Proof.
  simpl. split; [reflexivity|]. split; [reflexivity|].
  eexists _, _, _. split; [vm_compute; reflexivity|].
  split; [reflexivity | lra].
Qed.

(** C2: with trend Bullish, rsi_signal Oversold, price_trend Up, a P/E of
    15, a profit margin of 0.25, a debt-to-equity of 0.5 and a sentiment
    score of 100, the technical sub-score is 90, the fundamental sub-score
    is 80, the total is 0.4*90 + 0.4*80 + 0.2*100 = 88 and the label is
    "Strong Buy". *)
Theorem strong_buy_example (self : t) (pe pm de s : Q) :
  technical_signals self !! "trend" = Some (VStr "Bullish") ->
  technical_signals self !! "rsi_signal" = Some (VStr "Oversold") ->
  technical_signals self !! "price_trend" = Some (VStr "Up") ->
  fundamental_metrics self !! "pe_ratio" = Some (VNum (Fin pe)) ->
  fundamental_metrics self !! "profit_margin" = Some (VNum (Fin pm)) ->
  fundamental_metrics self !! "debt_to_equity" = Some (VNum (Fin de)) ->
  sentiment_score self = Fin s ->
  pe == 15 -> pm == 25 # 100 -> de == 5 # 10 -> s == 100 ->
  _calculate_technical_score self = inr 90%Z /\
  _calculate_fundamental_score self = inr 80%Z /\
  exists total : Q,
    get_investment_recommendation self
      = inr ("Strong Buy", Fin total,
             "Strong technical signals and fundamentals support buying") /\
    total == (4 # 10) * 90 + (4 # 10) * 80 + (2 # 10) * 100 /\
    total == 88.
Proof.
  intros Ht1 Ht2 Ht3 Hf1 Hf2 Hf3 Hsent Hpe Hpm Hde Hs.
  assert (Hts : _calculate_technical_score self = inr 90%Z).
  { unfold _calculate_technical_score, getitem, bind, ret.
    rewrite Ht1, Ht2, Ht3. reflexivity. }
  assert (Hfs : _calculate_fundamental_score self = inr 80%Z).
  { unfold _calculate_fundamental_score, getitem, as_num, bind, ret.
    rewrite Hf1, Hf2, Hf3.
    assert (E1 : (of_Z 10 <=? Fin pe)%F = true)
      by (apply fleb_Fin; change (inject_Z 10) with 10; lra).
    assert (E2 : (Fin pe <=? of_Z 25)%F = true)
      by (apply fleb_Fin; change (inject_Z 25) with 25; lra).
    assert (E3 : (Fin pm >? q_02)%F = true)
      by (apply fltb_Fin; lra).
    assert (E4 : (Fin de <? of_Z 1)%F = true)
      by (apply fltb_Fin; change (inject_Z 1) with 1; lra).
    rewrite E1, E2, E3, E4. reflexivity. }
  split; [exact Hts|]. split; [exact Hfs|].
  exists (inject_Z 90 * (4 # 10) + inject_Z 80 * (4 # 10) + s * (2 # 10)).
  assert (H88 : inject_Z 90 * (4 # 10) + inject_Z 80 * (4 # 10) + s * (2 # 10)
                == 88).
  { change (inject_Z 90) with 90. change (inject_Z 80) with 80. lra. }
  split; [|split; [rewrite H88; reflexivity | exact H88]].
  unfold get_investment_recommendation.
  rewrite (dict_truthy_lookup _ _ _ Ht1), (dict_truthy_lookup _ _ _ Hf1).
  simpl. rewrite Hts, Hfs. simpl. rewrite Hsent.
  unfold total_of, label_of, q_04, q_02, of_Z. simpl fmul. simpl fadd.
  assert (E : (Fin (inject_Z 90 * (4 # 10) + inject_Z 80 * (4 # 10)
                    + s * (2 # 10)) >=? Fin (inject_Z 70))%F = true).
  { apply fleb_Fin. rewrite H88. change (inject_Z 70) with 70. lra. }
  rewrite E. reflexivity.
Qed.

Lemma strong_buy_example_witness :
  let self := analyzer_with bullish_signals sound_metrics (of_Z 100) in
  _calculate_technical_score self = inr 90%Z /\
  _calculate_fundamental_score self = inr 80%Z /\
  exists total : Q,
    get_investment_recommendation self
      = inr ("Strong Buy", Fin total,
             "Strong technical signals and fundamentals support buying") /\
    total == (4 # 10) * 90 + (4 # 10) * 80 + (2 # 10) * 100 /\
    total == 88.
Proof.
  apply (strong_buy_example
           (analyzer_with bullish_signals sound_metrics (of_Z 100))
           15 (25 # 100) (5 # 10) 100);
    reflexivity.
Defined.

(** The same total on IEEE binary64 numbers: the three products and the
    two sums are exact, so Python prints 88.0. *)
Example strong_buy_total_binary64 :
  Binary64.total_of 90 80 100 = 88%float /\
  PrimFloat.leb 70 (Binary64.total_of 90 80 100) = true.
Proof. split; vm_compute; reflexivity. Qed.

(** C5: when the technical signals or the fundamental metrics are empty,
    [get_investment_recommendation] returns the sentinel ("Insufficient
    Data", 0, explanation) whatever else the object holds; no sub-score is
    looked up, so nothing can raise. *)
Theorem insufficient_data_sentinel (self : t) :
  technical_signals self = ∅ \/ fundamental_metrics self = ∅ ->
  get_investment_recommendation self
    = inr ("Insufficient Data", of_Z 0,
           "Unable to make recommendation due to limited data").
Proof.
  intros H. unfold get_investment_recommendation.
  assert (E : dict_truthy (technical_signals self)
              && dict_truthy (fundamental_metrics self) = false).
  { destruct H as [-> | ->]; rewrite dict_truthy_empty;
      [reflexivity | apply andb_false_r]. }
  rewrite E. reflexivity.
Qed.

(** Witness of [insufficient_data_sentinel]: the signals are empty and the
    metrics lack the keys of the fundamental sub-score, which would raise
    if it were computed. *)
Lemma insufficient_data_sentinel_witness :
  let self := analyzer_with ∅ {[ "peg_ratio" := VNum (of_Z 1) ]} (of_Z 50) in
  _calculate_fundamental_score self = inl (KeyError "pe_ratio") /\
  get_investment_recommendation self
    = inr ("Insufficient Data", of_Z 0,
           "Unable to make recommendation due to limited data").
Proof.
  split; [reflexivity|].
  apply (insufficient_data_sentinel
           (analyzer_with ∅ {[ "peg_ratio" := VNum (of_Z 1) ]} (of_Z 50))).
  left. reflexivity.
Defined.

End ScorerFacts.

(** ** The fundamental evaluator *)

Module FundamentalFacts.

Import StockAnalyzer Samples DictFacts.

Lemma info_truthy_Some (i : info_map) :
  i <> ∅ -> info_truthy (Some i) = true.
Proof.
  intros H. simpl. unfold dict_truthy. rewrite negb_true_iff.
  apply bool_decide_eq_false. exact H.
Qed.

Lemma get_default (i : info_map) (k : string) (d : pyval) :
  get i k d = default d (i !! k).
Proof. unfold get. destruct (i !! k); reflexivity. Qed.

(** C10: run on a non-empty info mapping, [analyze_fundamentals] stores
    and returns a mapping whose keys are exactly pe_ratio, peg_ratio,
    profit_margin, debt_to_equity, return_on_equity and quick_ratio; each
    holds the provider field it is read from, or 0 when that field is
    absent; hence no key lookup of [_calculate_fundamental_score] fails on
    the resulting object. *)
Theorem fundamentals_have_six_keys (self : t) (i : info_map) :
  info self = Some i ->
  i <> ∅ ->
  let '(metrics, self') := analyze_fundamentals self in
  fundamental_metrics self' = metrics /\
  dom metrics = metric_keys /\
  Forall (fun '(k, src) =>
            metrics !! k = Some (default (VNum (of_Z 0)) (i !! src)))
         metric_sources /\
  (forall k, getitem metrics k = inl (KeyError k) -> k ∉ metric_keys) /\
  (forall k, _calculate_fundamental_score self' <> inl (KeyError k)).
Proof.
  intros Hinfo Hne. unfold analyze_fundamentals.
  rewrite Hinfo, (info_truthy_Some i Hne). simpl negb. cbv iota. simpl default.
  set (metrics := <[ "pe_ratio" := _ ]> _).
  assert (Hdom : dom metrics = metric_keys).
  { unfold metrics, metric_keys. rewrite !dom_insert_L, dom_empty_L. set_solver. }
  assert (Hpe : metrics !! "pe_ratio"
                = Some (get i "forwardPE" (VNum (of_Z 0)))) by reflexivity.
  assert (Hpm : metrics !! "profit_margin"
                = Some (get i "profitMargins" (VNum (of_Z 0)))) by reflexivity.
  assert (Hde : metrics !! "debt_to_equity"
                = Some (get i "debtToEquity" (VNum (of_Z 0)))) by reflexivity.
  split; [reflexivity|]. split; [exact Hdom|]. split; [|split].
  - unfold metric_sources.
    repeat (apply Forall_cons; split; [rewrite <- get_default; reflexivity|]).
    apply Forall_nil. trivial.
  - intros k Hk Hin. rewrite <- Hdom in Hin.
    apply elem_of_dom in Hin as [v Hv].
    unfold getitem in Hk. rewrite Hv in Hk. discriminate.
  - intros k. unfold _calculate_fundamental_score, getitem, as_num, bind, ret, raise.
    cbn [fundamental_metrics set_fundamental_metrics].
    rewrite Hpe, Hpm, Hde.
    destruct (get i "forwardPE" _); try discriminate.
    destruct (get i "profitMargins" _); try discriminate.
    destruct (get i "debtToEquity" _); discriminate.
Qed.

(** Witness of [fundamentals_have_six_keys]: an info mapping that has a
    forward P/E and nothing else the evaluator reads. *)
Lemma fundamentals_have_six_keys_witness :
  let i : info_map := {[ "forwardPE" := VNum (of_Z 15) ]} in
  let self := set_info (fresh "aapl") i in
  let '(metrics, self') := analyze_fundamentals self in
  fundamental_metrics self' = metrics /\
  dom metrics = metric_keys /\
  Forall (fun '(k, src) =>
            metrics !! k = Some (default (VNum (of_Z 0)) (i !! src)))
         metric_sources /\
  (forall k, getitem metrics k = inl (KeyError k) -> k ∉ metric_keys) /\
  (forall k, _calculate_fundamental_score self' <> inl (KeyError k)).
Proof.
  apply (fundamentals_have_six_keys
           (set_info (fresh "aapl") {[ "forwardPE" := VNum (of_Z 15) ]})
           {[ "forwardPE" := VNum (of_Z 15) ]}).
  - reflexivity.
  - intros H. apply (f_equal (fun m => m !! "forwardPE")) in H.
    vm_compute in H. discriminate.
Defined.

(** With no info, or an empty one, nothing is stored and the empty
    mapping is returned. *)
Lemma fundamentals_fail_soft (self : t) :
  info self = None \/ info self = Some ∅ ->
  analyze_fundamentals self = (∅, self).
Proof.
  intros [H | H]; unfold analyze_fundamentals; rewrite H; reflexivity.
Qed.

End FundamentalFacts.

(** ** The data fetcher: validation before any provider request *)

Module FetcherFacts.

Import StockDataFetcher Samples.

Lemma eqb_empty (s : string) : String.eqb s "" = true <-> s = "".
Proof. apply String.eqb_eq. Qed.

(** [split] gives at least one part, and at least two when the separator
    occurs: the indices 0 and 1 used by [validate_ticker] exist. *)
Lemma split_length (sep : ascii) (s : string) :
  (1 <= length (PyStr.split sep s))%nat.
Proof.
  induction s as [|c s IH]; simpl; [lia|].
  destruct (Ascii.eqb c sep); simpl; [lia|].
  destruct (PyStr.split sep s); simpl in *; lia.
Qed.

Lemma split_length_contains (sep : ascii) (s : string) :
  PyStr.contains sep s = true -> (2 <= length (PyStr.split sep s))%nat.
Proof.
  induction s as [|c s IH]; simpl; [discriminate|].
  destruct (Ascii.eqb c sep) eqn:E; simpl.
  - intros _. pose proof (split_length sep s). lia.
  - intros H. specialize (IH H).
    destruct (PyStr.split sep s); simpl in *; lia.
Qed.

(** Which symbols are rejected. *)
Lemma validate_ticker_false_iff (symbol : string) :
  fst (validate_ticker symbol) = false <->
  symbol = ""
  \/ PyStr.isalnum (PyStr.remove_char "-" (base_of symbol)) = false
  \/ (PyStr.contains "." (normalized symbol) = true /\
      (suffix_of symbol ∉ valid_suffixes) /\
      (6 < String.length (normalized symbol))%nat)
  \/ (PyStr.contains "." (normalized symbol) = false /\
      (5 < String.length (normalized symbol))%nat).
Proof.
  unfold validate_ticker, base_of, suffix_of, normalized.
  destruct (String.eqb symbol "") eqn:E0.
  { apply eqb_empty in E0. simpl. tauto. }
  assert (symbol <> "") by (intros ->; discriminate).
  destruct (PyStr.isalnum _) eqn:E1; simpl; [|tauto].
  destruct (PyStr.contains _ _) eqn:E2.
  - destruct (bool_decide _) eqn:E3; simpl.
    + apply bool_decide_eq_true in E3.
      split; [discriminate|]. intros [?|[?|[(_ & ? & _)|[? _]]]]; try done.
    + apply bool_decide_eq_false in E3.
      destruct (6 <? _)%nat eqn:E4; simpl.
      * apply Nat.ltb_lt in E4. tauto.
      * apply Nat.ltb_ge in E4.
        split; [discriminate|].
        intros [?|[?|[(_ & _ & ?)|[? _]]]]; try done. lia.
  - destruct (5 <? _)%nat eqn:E4; simpl.
    + apply Nat.ltb_lt in E4. tauto.
    + apply Nat.ltb_ge in E4.
      split; [discriminate|].
      intros [?|[?|[(? & _)|[_ ?]]]]; try done. lia.
Qed.

Lemma not_in_suffixes (s : string) :
  bool_decide (s ∈ valid_suffixes) = false -> s ∉ valid_suffixes.
Proof. apply bool_decide_eq_false. Qed.

Lemma io_bind_snd {A B} (m : io A) (f : A -> io B) :
  snd (io_bind m f) = snd m ++ snd (f (fst m)).
Proof. destruct m as [a t1]. simpl. destruct (f a). reflexivity. Qed.

(** The four kinds of rejected symbol: empty, a base part with other
    characters, over-long without suffix, over-long with an unknown suffix. *)
Example rejected_symbols :
  validate_ticker "" = (false, [StError MsgEnterSymbol]) /\
  validate_ticker "AB$" = (false, [StError MsgBadCharacters]) /\
  validate_ticker "GOOGLE" = (false, [StError MsgTooLong]) /\
  validate_ticker "RELIANCE.XX" = (false, [StError MsgInvalidSuffix]).
Proof. repeat split. Qed.

Example accepted_symbols :
  validate_ticker "AAPL" = (true, []) /\
  validate_ticker " tcs.ns " = (true, []) /\
  validate_ticker "BRK-B" = (true, []) /\
  validate_ticker "RELIANCE.NS" = (true, []).
Proof. repeat split. Qed.

(** Validation talks to the user only. *)
Lemma validate_ticker_no_request (symbol : string) :
  Forall (fun e => is_provider_request e = false) (snd (validate_ticker symbol)).
Proof.
  unfold validate_ticker. case_ifs; simpl; repeat constructor.
Qed.

(** C4: for every symbol that fails [validate_ticker], [fetch_stock_data]
    returns (None, None) and its trace is that of the validation alone:
    it holds no request to the provider. *)
Theorem invalid_symbol_no_request (P : Provider) (symbol : string)
    (start_date end_date : Z) :
  fst (validate_ticker symbol) = false ->
  fst (fetch_stock_data P symbol start_date end_date) = (None, None) /\
  snd (fetch_stock_data P symbol start_date end_date)
    = snd (validate_ticker symbol) /\
  Forall (fun e => is_provider_request e = false)
         (snd (fetch_stock_data P symbol start_date end_date)).
Proof.
  intros H.
  assert (E : fetch_stock_data P symbol start_date end_date
              = ((None, None), snd (validate_ticker symbol))).
  { unfold fetch_stock_data, io_bind.
    destruct (validate_ticker symbol) as [ok tr]. simpl in H. subst ok.
    simpl. rewrite app_nil_r. reflexivity. }
  rewrite E. simpl. split; [reflexivity|]. split; [reflexivity|].
  apply validate_ticker_no_request.
Qed.

(** Witness of [invalid_symbol_no_request]: a six-letter symbol without
    suffix is over-long. *)
Lemma invalid_symbol_no_request_witness :
  fst (fetch_stock_data one_row_provider "GOOGLE" 0 10) = (None, None) /\
  snd (fetch_stock_data one_row_provider "GOOGLE" 0 10)
    = snd (validate_ticker "GOOGLE") /\
  Forall (fun e => is_provider_request e = false)
         (snd (fetch_stock_data one_row_provider "GOOGLE" 0 10)).
Proof.
  apply (invalid_symbol_no_request one_row_provider "GOOGLE" 0 10).
  reflexivity.
Defined.

(** A symbol that passes validation does reach the provider: the first
    event after the validation is the construction of the ticker. *)
Lemma valid_symbol_requests (P : Provider) (symbol : string)
    (start_date end_date : Z) :
  fst (validate_ticker symbol) = true ->
  exists rest,
    snd (fetch_stock_data P symbol start_date end_date)
      = snd (validate_ticker symbol) ++ YfTicker symbol :: rest.
Proof.
  intros H. unfold fetch_stock_data.
  rewrite io_bind_snd, H. simpl negb. cbv iota.
  rewrite io_bind_snd. simpl (snd (call_ticker _ _)).
  eexists. reflexivity.
Qed.

Example fetch_valid_symbol :
  fetch_stock_data one_row_provider "TCS.NS" 0 10
  = ((Some [mkBar 0 (of_Z 1) (of_Z 1) (of_Z 1) (of_Z 1) (of_Z 1)], Some ∅),
     [YfTicker "TCS.NS"; YfHistoryPeriod "TCS.NS" "1d";
      YfHistoryRange "TCS.NS" 0 10; YfInfo "TCS.NS";
      StWarning (MsgLimitedInfo "TCS.NS")]).
Proof. reflexivity. Qed.

(** C7 (as stated) fails: "AB.XY" contains a dot, its suffix ".XY" is not
    in the allow-list, and [validate_ticker] accepts it, because the
    suffix is only checked on symbols longer than six characters. *)
Lemma short_unknown_suffix_accepted_counterexample :
  PyStr.contains "." (normalized "AB.XY") = true /\
  suffix_of "AB.XY" = ".XY" /\
  (suffix_of "AB.XY" ∉ valid_suffixes) /\
  validate_ticker "AB.XY" = (true, []).
Proof.
  split; [reflexivity|]. split; [reflexivity|]. split; [|reflexivity].
  apply not_in_suffixes. reflexivity.
Qed.

(** C7 (as amended): a symbol that contains a dot and whose suffix is not
    in the allow-list {.NS, .BO, .L, .PA, .DE, .HK} is rejected whenever
    the stripped symbol is longer than six characters; at six characters
    or fewer it is accepted as soon as its base part is alphanumeric with
    hyphens. *)
Theorem unknown_suffix_rejected_when_long (symbol : string) :
  PyStr.contains "." (normalized symbol) = true ->
  suffix_of symbol ∉ valid_suffixes ->
  ((6 < String.length (normalized symbol))%nat ->
     fst (validate_ticker symbol) = false) /\
  ((String.length (normalized symbol) <= 6)%nat ->
     PyStr.isalnum (PyStr.remove_char "-" (base_of symbol)) = true ->
     fst (validate_ticker symbol) = true).
Proof.
  intros Hdot Hsuf. split.
  - intros Hlen. apply validate_ticker_false_iff.
    right. right. left. auto.
  - intros Hlen Hbase.
    destruct (fst (validate_ticker symbol)) eqn:E; [reflexivity|].
    apply validate_ticker_false_iff in E.
    destruct E as [->|[E|[(_ & _ & E)|[E _]]]].
    + discriminate Hdot.
    + congruence.
    + lia.
    + congruence.
Qed.

Lemma unknown_suffix_rejected_when_long_witness :
  fst (validate_ticker "RELIANCE.XX") = false.
Proof.
  apply (unknown_suffix_rejected_when_long "RELIANCE.XX").
  - reflexivity.
  - apply not_in_suffixes. reflexivity.
  - simpl. lia.
Defined.

End FetcherFacts.

(** ** Sentiment classification *)

Module SentimentFacts.

Import PyFloatFacts.
Local Open Scope Q_scope.

Lemma classify_finite (q : Q) :
  Sentimental.classify_sentiment (Fin q)
  = if Qle_bool (5 # 100) q then ("Bullish 📈", "bullish", "green")%string
    else if Qle_bool q (- (5 # 100)) then ("Bearish 📉", "bearish", "red")%string
    else ("Neutral ➖", "neutral", "gray")%string.
Proof. reflexivity. Qed.

(** C8: a polarity score of at least 0.05 is Bullish, one of at most -0.05
    is Bearish, anything in between is Neutral; so 0.05 is Bullish, -0.05
    is Bearish and 0.0 is Neutral; and the classifiers of the two
    sentiment pages give the same label and class for every score, NaN
    and the infinities included. *)
Theorem classify_sentiment_thresholds (score : fval) :
  (forall q : Q, score = Fin q ->
     (5 # 100 <= q ->
        Sentimental.classify_sentiment score
        = ("Bullish 📈", "bullish", "green")%string) /\
     (q <= - (5 # 100) ->
        Sentimental.classify_sentiment score
        = ("Bearish 📉", "bearish", "red")%string) /\
     (- (5 # 100) < q /\ q < 5 # 100 ->
        Sentimental.classify_sentiment score
        = ("Neutral ➖", "neutral", "gray")%string)) /\
  Sentimental.classify_sentiment (Fin (5 # 100))
    = ("Bullish 📈", "bullish", "green")%string /\
  Sentimental.classify_sentiment (Fin (- (5 # 100)))
    = ("Bearish 📉", "bearish", "red")%string /\
  Sentimental.classify_sentiment (Fin 0)
    = ("Neutral ➖", "neutral", "gray")%string /\
  Sector_Sentiment.classify_sentiment score
    = fst (Sentimental.classify_sentiment score).
Proof.
  split; [|split; [reflexivity|split; [reflexivity|split; [reflexivity|]]]].
  - intros q ->. rewrite classify_finite. repeat split.
    + intros H. apply Qle_bool_iff in H. rewrite H. reflexivity.
    + intros H.
      assert (E1 : Qle_bool (5 # 100) q = false) by (apply Qle_bool_false; lra).
      apply Qle_bool_iff in H. rewrite E1, H. reflexivity.
    + intros [H1 H2].
      assert (E1 : Qle_bool (5 # 100) q = false) by (apply Qle_bool_false; lra).
      assert (E2 : Qle_bool q (- (5 # 100)) = false)
        by (apply Qle_bool_false; lra).
      rewrite E1, E2. reflexivity.
  - unfold Sector_Sentiment.classify_sentiment, Sentimental.classify_sentiment.
    case_ifs; reflexivity.
Qed.

Lemma classify_sentiment_thresholds_witness :
  Sentimental.classify_sentiment (Fin (1 # 2))
  = ("Bullish 📈", "bullish", "green")%string.
Proof.
  apply (proj1 (classify_sentiment_thresholds (Fin (1 # 2))) (1 # 2)).
  - reflexivity.
  - lra.
Defined.

(** Scores that are not numbers of the model's finite range. *)
Example classify_special :
  Sentimental.classify_sentiment NaN = ("Neutral ➖", "neutral", "gray")%string /\
  Sentimental.classify_sentiment PInf = ("Bullish 📈", "bullish", "green")%string /\
  Sentimental.classify_sentiment NInf = ("Bearish 📉", "bearish", "red")%string.
Proof. repeat split. Qed.

End SentimentFacts.

(** ** The open-loop forecast *)

Module ForecastFacts.

Import Prediction Samples.

Lemma last_rows_length (lookback : nat) (scaled_data : list fval) :
  (0 < lookback <= length scaled_data)%nat ->
  length (last_rows lookback scaled_data) = lookback.
Proof.
  intros [H1 H2]. unfold last_rows.
  destruct (Nat.eqb_spec lookback 0) as [->|_]; [lia|].
  rewrite length_drop. lia.
Qed.

(** Every round keeps the window at [lookback] cells and adds one
    prediction, made on the window of that round: the last rows followed by
    the predictions so far, without as many cells at the front. *)
Lemma forecast_loop_values (model : Model) (lookback n : nat) :
  (0 < lookback)%nat ->
  forall current_seq future_pred : list fval,
    length current_seq = lookback ->
    exists preds,
      forecast_loop model lookback n current_seq future_pred
        = inr (future_pred ++ preds) /\
      length preds = n /\
      forall k, (k < n)%nat ->
        preds !! k
        = Some (predict_window model (drop k (current_seq ++ take k preds))).
Proof.
  intros Hpos. induction n as [|n IH]; intros current_seq future_pred Hlen.
  - exists []. split; [cbn [forecast_loop]; rewrite app_nil_r; reflexivity|].
    split; [reflexivity|]. intros k Hk. lia.
  - cbn [forecast_loop]. unfold reshape.
    rewrite Hlen, Nat.eqb_refl. cbn [bind ret].
    set (pred0 := predict_window model current_seq).
    destruct (IH (drop 1 current_seq ++ [pred0]) (future_pred ++ [pred0]))
      as (preds & Hrun & Hl & Hk).
    { rewrite length_app, length_drop. simpl. lia. }
    exists (pred0 :: preds). split; [|split].
    + rewrite Hrun, <- app_assoc. reflexivity.
    + simpl. rewrite Hl. reflexivity.
    + intros [|k] Hlt.
      * cbn [take lookup list_lookup]. rewrite app_nil_r. reflexivity.
      * cbn [lookup list_lookup]. change (preds !! k = Some (predict_window model
            (drop (S k) (current_seq ++ pred0 :: take k preds)))).
        rewrite (Hk k) by lia. do 2 f_equal.
        destruct current_seq as [|c rest]; [simpl in Hlen; lia|].
        cbn [drop app]. rewrite drop_0, <- app_assoc. reflexivity.
Qed.

(** The forecast of at least one period returns the predictions of the
    rounds, each taken back to the price scale. *)
Lemma forecast_returns (model : Model) (scaler : Scaler)
    (scaled_data : list fval) (lookback horizon : nat) :
  (0 < lookback <= length scaled_data)%nat -> (0 < horizon)%nat ->
  exists preds,
    forecast model scaler scaled_data lookback horizon
      = inr (map (inverse_cell scaler) preds) /\
    length preds = horizon /\
    forall k, (k < horizon)%nat ->
      preds !! k
      = Some (predict_window model
                (drop k (last_rows lookback scaled_data ++ take k preds))).
Proof.
  intros H Hh. unfold forecast.
  destruct (forecast_loop_values model lookback horizon (proj1 H)
              (last_rows lookback scaled_data) [] (last_rows_length _ _ H))
    as (preds & Hrun & Hl & Hk).
  rewrite Hrun. cbn [bind app]. exists preds.
  split; [|split; assumption].
  unfold inverse_transform. destruct preds; [simpl in Hl; lia | reflexivity].
Qed.

(** Without a period to predict the loop does not run and the scaler
    refuses the empty list. *)
Lemma forecast_no_period (model : Model) (scaler : Scaler)
    (scaled_data : list fval) (lookback : nat) :
  forecast model scaler scaled_data lookback 0 = inl ValueError.
Proof. reflexivity. Qed.

(** C9: for every horizon of at least one period (the least the slider
    gives) and every lookback window taken from the scaled data (of
    positive width), the forecast returns, and it returns exactly [horizon]
    values: the value of round [k] is the model's prediction on the window
    of that round (the last [lookback] rows followed by the earlier
    predictions, the oldest [k] cells dropped), taken back to the price
    scale. *)
Theorem forecast_length (model : Model) (scaler : Scaler)
    (scaled_data : list fval) (lookback horizon : nat) :
  (0 < lookback <= length scaled_data)%nat -> (0 < horizon)%nat ->
  exists out preds,
    forecast model scaler scaled_data lookback horizon = inr out /\
    length out = horizon /\
    out = map (inverse_cell scaler) preds /\
    forall k, (k < horizon)%nat ->
      preds !! k
      = Some (predict_window model
                (drop k (last_rows lookback scaled_data ++ take k preds))).
Proof.
  intros H Hh.
  destruct (forecast_returns model scaler scaled_data lookback horizon H Hh)
    as (preds & Hrun & Hl & Hk).
  exists (map (inverse_cell scaler) preds), preds.
  split; [exact Hrun|]. split; [rewrite length_map; exact Hl|].
  split; [reflexivity | exact Hk].
Qed.

Lemma forecast_length_witness :
  exists out preds,
    forecast sample_model sample_scaler
             [Fin 0; Fin (1 # 4); Fin (1 # 2); Fin 1] 2 3 = inr out /\
    length out = 3%nat /\
    out = map (inverse_cell sample_scaler) preds /\
    forall k, (k < 3)%nat ->
      preds !! k
      = Some (predict_window sample_model
                (drop k (last_rows 2 [Fin 0; Fin (1 # 4); Fin (1 # 2); Fin 1]
                         ++ take k preds))).
Proof.
  apply (forecast_length sample_model sample_scaler
           [Fin 0; Fin (1 # 4); Fin (1 # 2); Fin 1] 2 3).
  - simpl. lia.
  - lia.
Defined.

(** The three values of that run: each prediction enters the window of
    the next round. *)
Example forecast_run :
  forecast_loop sample_model 2 3 [Fin (1 # 2); Fin 1] []
  = inr [Fin 1; Fin 1; Fin 1].
Proof. reflexivity. Qed.

(** A window of another width than [lookback] cannot be reshaped. *)
Example forecast_bad_window :
  forecast_loop sample_model 3 1 [Fin (1 # 2); Fin 1] [] = inl ValueError.
Proof. reflexivity. Qed.

End ForecastFacts.

(** ** Columns: sums, windows and rolling means *)

Module SeriesFacts.

Import Series TechnicalSpec PyFloatFacts.
Local Open Scope Q_scope.

Lemma fsum_Fin (l : list Q) : fsum (map Fin l) = Fin (Qsum l).
Proof.
  unfold fsum, Qsum.
  induction l as [|a l IH]; [reflexivity|].
  cbn [map foldr]. rewrite IH. reflexivity.
Qed.

Lemma inject_nat_pos (w : nat) : (0 < w)%nat -> 0 < inject_Z (Z.of_nat w).
Proof.
  intros H. change 0 with (inject_Z 0). rewrite <- Zlt_Qlt. lia.
Qed.

Lemma fdiv_of_nat (q : Q) (w : nat) :
  (0 < w)%nat -> (Fin q / of_nat w)%F = Fin (q / inject_Z (Z.of_nat w)).
Proof.
  intros H. apply inject_nat_pos in H.
  unfold fdiv, of_nat, of_Z.
  apply Qgt_alt in H. rewrite H. reflexivity.
Qed.

Lemma length_diff_from (prev : fval) (s : series) :
  length (diff_from prev s) = length s.
Proof.
  revert prev. induction s as [|x s IH]; intros prev; simpl; [|rewrite IH]; reflexivity.
Qed.

Lemma length_diff (s : series) : length (diff s) = length s.
Proof. destruct s; simpl; [|rewrite length_diff_from]; reflexivity. Qed.

Lemma length_rolling_mean (w : nat) (s : series) :
  length (rolling_mean w s) = length s.
Proof. unfold rolling_mean. rewrite length_map, length_seq. reflexivity. Qed.

Lemma lookup_rolling_mean (w : nat) (s : series) (i : nat) :
  (i < length s)%nat ->
  rolling_mean w s !! i
  = Some (if (S i <? w)%nat then NaN
          else (fsum (window_at w i (map prep s)) / of_nat w)%F).
Proof.
  intros H. unfold rolling_mean.
  change (map ?f (seq 0 (length s))) with (f <$> seq 0 (length s)).
  rewrite list_lookup_fmap.
  assert (E : seq 0 (length s) !! i = Some i) by (apply lookup_seq; lia).
  rewrite E. reflexivity.
Qed.

(** Cells that are numbers or missing pass the preparation unchanged. *)
Lemma prep_delta_cells (s : series) :
  Forall TechnicalSpec.delta_cell s -> map prep s = s.
Proof.
  induction 1 as [|x s Hx _ IH]; [reflexivity|].
  simpl. rewrite IH. destruct x; try contradiction; reflexivity.
Qed.

Lemma Fin_delta_cells (l : list Q) : Forall TechnicalSpec.delta_cell (map Fin l).
Proof. apply Forall_map. apply Forall_forall. intros q _. exact I. Qed.

Lemma lookup_rolling_mean_cells (w : nat) (s : series) (i : nat) :
  Forall TechnicalSpec.delta_cell s -> (i < length s)%nat ->
  rolling_mean w s !! i
  = Some (if (S i <? w)%nat then NaN
          else (fsum (window_at w i s) / of_nat w)%F).
Proof.
  intros Hs H. rewrite (lookup_rolling_mean w s i H), (prep_delta_cells s Hs).
  reflexivity.
Qed.

Lemma window_at_map (f : fval -> fval) (w i : nat) (s : series) :
  window_at w i (map f s) = map f (window_at w i s).
Proof. unfold window_at. rewrite skipn_map, firstn_map. reflexivity. Qed.

Lemma window_at_Fin (w i : nat) (l : list Q) :
  window_at w i (map Fin l) = map Fin (take w (drop (S i - w) l)).
Proof. unfold window_at. rewrite skipn_map, firstn_map. reflexivity. Qed.

(** The window that ends at the last row holds the last [w] cells. *)
Lemma last_window (w : nat) (l : list Q) :
  (w <= length l)%nat ->
  take w (drop (S (pred (length l)) - w) l) = drop (length l - w) l.
Proof.
  intros H.
  destruct l as [|a l]; [rewrite !drop_nil, take_nil; reflexivity|].
  replace (S (pred (length (a :: l))) - w)%nat with (length (a :: l) - w)%nat
    by (simpl; lia).
  apply take_ge. rewrite length_drop. lia.
Qed.

Lemma last_item_lookup {A} (l : list A) :
  l <> [] -> exists a, l !! pred (length l) = Some a /\ last_item l = inr a.
Proof.
  intros H. unfold last_item. rewrite last_lookup.
  destruct (l !! pred (length l)) as [a|] eqn:E.
  - exists a. split; reflexivity.
  - apply lookup_ge_None in E. destruct l; [congruence | simpl in E; lia].
Qed.

(** The latest rolling mean of a column of finite prices. *)
Lemma rolling_mean_latest (w : nat) (closes : list Q) :
  closes <> [] -> (0 < w)%nat ->
  rolling_mean w (map Fin closes) !! pred (length closes)
  = Some (if (length closes <? w)%nat then NaN
          else Fin (sma_latest w closes)).
Proof.
  intros Hne Hw.
  assert (Hlen : (0 < length closes)%nat)
    by (destruct closes; [congruence | simpl; lia]).
  rewrite lookup_rolling_mean_cells
    by (apply Fin_delta_cells || (rewrite length_map; lia)).
  replace (S (pred (length closes))) with (length closes) by lia.
  destruct (Nat.ltb_spec (length closes) w) as [Hlt|Hge]; [reflexivity|].
  rewrite window_at_Fin, fsum_Fin, fdiv_of_nat by exact Hw.
  replace (S (pred (length closes))) with (length closes) by lia.
  unfold sma_latest.
  pose proof (last_window w closes Hge) as E.
  replace (S (pred (length closes))) with (length closes) in E by lia.
  rewrite E. reflexivity.
Qed.

End SeriesFacts.

(** ** The relative strength index *)

Module RsiFacts.

Import Series StockAnalyzer TechnicalSpec PyFloatFacts SeriesFacts.
Local Open Scope Q_scope.

Lemma diff_from_cells (p : Q) (l : list Q) :
  Forall delta_cell (diff_from (Fin p) (map Fin l)).
Proof.
  revert p. induction l as [|x l IH]; intros p; simpl; constructor.
  - exact I.
  - apply IH.
Qed.

Lemma diff_cells (prices : list Q) :
  Forall delta_cell (diff (map Fin prices)).
Proof.
  destruct prices as [|p l]; simpl; constructor.
  - exact I.
  - apply diff_from_cells.
Qed.

(** The cells of [diff] in terms of the prices: NaN in the first row, then
    each price minus the one before. *)
Lemma lookup_diff_from (p : Q) (l : list Q) (j : nat) :
  (j < length l)%nat ->
  diff_from (Fin p) (map Fin l) !! j
  = Some (Fin (nth j l 0 - nth j (p :: l) 0)).
Proof.
  revert p j. induction l as [|x l IH]; intros p j Hj; [simpl in Hj; lia|].
  destruct j as [|j]; [reflexivity|].
  cbn [map diff_from]. rewrite lookup_cons.
  rewrite IH by (simpl in Hj; lia). reflexivity.
Qed.

Lemma lookup_diff (prices : list Q) (j : nat) :
  (S j < length prices)%nat ->
  diff (map Fin prices) !! 0%nat = Some NaN /\
  diff (map Fin prices) !! S j
  = Some (Fin (nth (S j) prices 0 - nth j prices 0)).
Proof.
  destruct prices as [|p l]; intros Hj; [simpl in Hj; lia|].
  split; [reflexivity|].
  cbn [map diff]. rewrite lookup_cons.
  rewrite lookup_diff_from by (simpl in Hj; lia). reflexivity.
Qed.

Lemma delta_window_cells (prices : list Q) (period i : nat) :
  Forall delta_cell (delta_window prices period i).
Proof.
  unfold delta_window, window_at.
  apply Forall_take, Forall_drop, diff_cells.
Qed.

Lemma gain_cell_Fin (q : Q) :
  gain_cell (Fin q) = Fin (if Qltb 0 q then q else 0).
Proof. unfold gain_cell. simpl. destruct (Qltb _ q); reflexivity. Qed.

Lemma loss_cell_Fin (q : Q) :
  loss_cell (Fin q) = Fin (- (if Qltb q 0 then q else 0)).
Proof. unfold loss_cell. simpl. destruct (Qltb q _); reflexivity. Qed.

(** The gains of a window add up to a non-negative number, positive as
    soon as one delta is. *)
Lemma gain_sum (W : list fval) :
  Forall delta_cell W ->
  exists G, fsum (map gain_cell W) = Fin G /\ 0 <= G /\
            (Exists positive_delta W -> 0 < G).
Proof.
  induction 1 as [|d W Hd _ IH].
  - exists 0. split; [reflexivity|]. split; [lra|].
    intros H. inversion H.
  - destruct IH as (G & HG & Hpos & Hex).
    unfold fsum in *. cbn [map foldr]. rewrite HG.
    destruct d as [q| | |]; try contradiction.
    + rewrite gain_cell_Fin. cbn [fadd].
      destruct (Qltb 0 q) eqn:E.
      * apply Qltb_lt in E. eexists. split; [reflexivity|]. split; [lra|].
        intros _. lra.
      * apply Qltb_ge in E. eexists. split; [reflexivity|]. split; [lra|].
        intros H. apply Exists_cons in H as [H|H]; [simpl in H; lra|].
        specialize (Hex H). lra.
    + exists (0 + G). split; [reflexivity|]. split; [lra|].
      intros H. apply Exists_cons in H as [H|H]; [contradiction|].
      specialize (Hex H). lra.
Qed.

(** The losses of a window add up to a non-negative number, positive as
    soon as one delta is negative and zero when none is. *)
Lemma loss_sum (W : list fval) :
  Forall delta_cell W ->
  exists L, fsum (map loss_cell W) = Fin L /\ 0 <= L /\
            (Exists negative_delta W -> 0 < L) /\
            (Forall (fun d => ~ negative_delta d) W -> L == 0).
Proof.
  induction 1 as [|d W Hd _ IH].
  - exists 0. split; [reflexivity|]. split; [lra|]. split.
    + intros H. inversion H.
    + intros _. reflexivity.
  - destruct IH as (L & HL & Hpos & Hex & Hall).
    unfold fsum in *. cbn [map foldr]. rewrite HL.
    destruct d as [q| | |]; try contradiction.
    + rewrite loss_cell_Fin. cbn [fadd].
      destruct (Qltb q 0) eqn:E.
      * apply Qltb_lt in E. eexists. split; [reflexivity|]. split; [lra|].
        split; [intros _; lra|].
        intros H. apply Forall_cons in H as [H _]. simpl in H. lra.
      * apply Qltb_ge in E. eexists. split; [reflexivity|]. split; [lra|].
        split.
        -- intros H. apply Exists_cons in H as [H|H]; [simpl in H; lra|].
           specialize (Hex H). lra.
        -- intros H. apply Forall_cons in H as [_ H].
           specialize (Hall H). lra.
    + exists (- 0 + L). split; [reflexivity|]. split; [lra|]. split.
      * intros H. apply Exists_cons in H as [H|H]; [contradiction|].
        specialize (Hex H). lra.
      * intros H. apply Forall_cons in H as [_ H].
        specialize (Hall H). lra.
Qed.

Lemma nonzero_positive_or_negative (W : list fval) :
  Exists nonzero_delta W -> Exists positive_delta W \/ Exists negative_delta W.
Proof.
  induction 1 as [d W Hd | d W _ IH].
  - destruct d as [q| | |]; try contradiction. simpl in Hd.
    destruct (Qlt_le_dec 0 q) as [Hq|Hq].
    + left. constructor. exact Hq.
    + right. constructor. simpl.
      destruct (Qlt_le_dec q 0) as [Hq'|Hq']; [exact Hq'|].
      exfalso. apply Hd. lra.
  - destruct IH as [IH|IH]; [left|right]; apply Exists_cons; right; exact IH.
Qed.

(** The index of a non-negative average gain [g] and average loss [l]
    that are not both zero: a number within [0, 100], and 100 when the
    average loss is zero. Dividing by the zero loss yields an infinity,
    not an error. *)
Lemma rsi_of_range (g l : Q) :
  0 <= g -> 0 <= l -> 0 < g + l ->
  exists r, rsi_of (Fin g) (Fin l) = Fin r /\ 0 <= r <= 100 /\
            (l == 0 -> r == 100).
Proof.
  intros Hg Hl Hgl. unfold rsi_of, of_Z, fsub.
  cbn [fdiv].
  destruct (Qcompare_spec l 0) as [E|E|E].
  - assert (Hg' : 0 < g) by lra.
    unfold signed_inf. apply Qgt_alt in Hg'. rewrite Hg'.
    cbn [fadd fdiv fneg].
    eexists. split; [reflexivity|].
    change (inject_Z 100) with 100. split; [lra|]. intros _. lra.
  - lra.
  - assert (Hrs : 0 <= g / l) by (apply Qle_shift_div_l; lra).
    cbn [fadd].
    change (inject_Z 1) with 1. change (inject_Z 100) with 100.
    assert (Hden : 0 < 1 + g / l) by lra.
    cbn [fdiv].
    pose proof Hden as Hcmp. apply Qgt_alt in Hcmp. rewrite Hcmp.
    cbn [fneg fadd].
    assert (H1 : 100 / (1 + g / l) <= 100)
      by (apply Qle_shift_div_r; [exact Hden | lra]).
    assert (H2 : 0 <= 100 / (1 + g / l))
      by (apply Qle_shift_div_l; [exact Hden | lra]).
    eexists. split; [reflexivity|]. split; [lra|].
    intros H0. lra.
Qed.

Lemma rsi_of_degenerate : rsi_of (Fin 0) (Fin 0) = NaN.
Proof. reflexivity. Qed.

(** The cell [i] of the index, from the averages over the window that
    ends there. *)
(** The gains and the losses of such deltas are numbers. *)
Lemma gain_series_cells (l : series) :
  Forall delta_cell l ->
  Forall delta_cell (where_ (fun d => (d >? of_Z 0)%F) (of_Z 0) l).
Proof.
  intros H. unfold where_. apply Forall_map.
  eapply Forall_impl; [exact H|].
  intros [q| | |] Hd; try contradiction; cbn; [destruct (Qltb _ _)|]; exact I.
Qed.

Lemma loss_series_cells (l : series) :
  Forall delta_cell l ->
  Forall delta_cell (neg (where_ (fun d => (d <? of_Z 0)%F) (of_Z 0) l)).
Proof.
  intros H. unfold neg, where_. rewrite map_map. apply Forall_map.
  eapply Forall_impl; [exact H|].
  intros [q| | |] Hd; try contradiction; cbn; [destruct (Qltb _ _)|]; exact I.
Qed.

Lemma lookup_rsi (prices : list Q) (period i : nat) :
  (i < length prices)%nat -> (period <= S i)%nat ->
  _calculate_rsi (map Fin prices) period !! i
  = Some (rsi_of
            (fsum (map gain_cell (delta_window prices period i)) / of_nat period)%F
            (fsum (map loss_cell (delta_window prices period i)) / of_nat period)%F).
Proof.
  intros Hi Hp. unfold _calculate_rsi, _calculate_rsi_with, div.
  change (map ?f ?l) with (f <$> l) at 1.
  rewrite list_lookup_fmap, lookup_zip_with.
  assert (Hlen : (i < length (diff (map Fin prices)))%nat)
    by (rewrite length_diff, length_map; exact Hi).
  rewrite !lookup_rolling_mean_cells
    by first [ apply gain_series_cells, diff_cells
             | apply loss_series_cells, diff_cells
             | (unfold where_, neg; rewrite ?length_map; exact Hlen) ].
  assert (E : (S i <? period)%nat = false) by (apply Nat.ltb_ge; exact Hp).
  rewrite E. simpl.
  unfold neg, where_. rewrite map_map, !window_at_map.
  reflexivity.
Qed.

Lemma length_rsi (prices : series) (period : nat) :
  length (_calculate_rsi prices period) = length prices.
Proof.
  unfold _calculate_rsi, _calculate_rsi_with, div, neg, where_.
  rewrite length_map, length_zip_with, !length_rolling_mean, !length_map,
    length_diff.
  lia.
Qed.

(** C3: on a series of finite prices, at every row [i] that has a full
    window of [period] cells (14 in the program), the index is a number
    within [0, 100] as soon as the deltas of the window are not all zero;
    when no delta of the window is negative and one is positive (all
    deltas positive in particular) the average loss is zero, the division
    by it raises nothing and the index is 100. *)
Theorem rsi_bounded (prices : list Q) (period i : nat) :
  (0 < period)%nat -> (period <= S i)%nat -> (i < length prices)%nat ->
  (Exists nonzero_delta (delta_window prices period i) ->
     exists r, _calculate_rsi (map Fin prices) period !! i = Some (Fin r)
               /\ 0 <= r <= 100) /\
  (Exists positive_delta (delta_window prices period i) ->
   Forall (fun d => ~ negative_delta d) (delta_window prices period i) ->
     exists r, _calculate_rsi (map Fin prices) period !! i = Some (Fin r)
               /\ r == 100).
Proof.
  intros Hperiod Hfull Hi.
  rewrite (lookup_rsi prices period i Hi Hfull).
  pose proof (delta_window_cells prices period i) as Hcells.
  destruct (gain_sum _ Hcells) as (G & HG & HG0 & HGpos).
  destruct (loss_sum _ Hcells) as (L & HL & HL0 & HLpos & HLzero).
  rewrite HG, HL, !fdiv_of_nat by exact Hperiod.
  pose proof (inject_nat_pos period Hperiod) as Hw.
  set (w := inject_Z (Z.of_nat period)) in *.
  assert (Hg : 0 <= G / w) by (apply Qle_shift_div_l; lra).
  assert (Hl : 0 <= L / w) by (apply Qle_shift_div_l; lra).
  assert (Hgpos : 0 < G -> 0 < G / w)
    by (intros ?; apply Qlt_shift_div_l; lra).
  assert (Hlpos : 0 < L -> 0 < L / w)
    by (intros ?; apply Qlt_shift_div_l; lra).
  split.
  - intros Hnz.
    assert (Hsum : 0 < G / w + L / w).
    { destruct (nonzero_positive_or_negative _ Hnz) as [H|H].
      - specialize (Hgpos (HGpos H)). lra.
      - specialize (Hlpos (HLpos H)). lra. }
    destruct (rsi_of_range (G / w) (L / w) Hg Hl Hsum) as (r & Hr & Hrange & _).
    exists r. rewrite Hr. split; [reflexivity | exact Hrange].
  - intros Hpos Hnoneg.
    specialize (Hgpos (HGpos Hpos)).
    assert (HL0' : L / w == 0) by (rewrite (HLzero Hnoneg); field; lra).
    assert (Hsum : 0 < G / w + L / w) by lra.
    destruct (rsi_of_range (G / w) (L / w) Hg Hl Hsum) as (r & Hr & _ & H100).
    exists r. rewrite Hr. split; [reflexivity | exact (H100 HL0')].
Qed.

(** Witness of [rsi_bounded]: fifteen prices rising by one; the window of
    the last row holds fourteen deltas equal to one. *)
Lemma rsi_bounded_witness :
  (exists r, _calculate_rsi (map Fin (rising_prices 100 15)) 14 !! 14%nat
             = Some (Fin r) /\ 0 <= r <= 100) /\
  (exists r, _calculate_rsi (map Fin (rising_prices 100 15)) 14 !! 14%nat
             = Some (Fin r) /\ r == 100).
Proof.
  assert (Hpos : Exists positive_delta (delta_window (rising_prices 100 15) 14 14)).
  { vm_compute. constructor. reflexivity. }
  assert (Hnz : Exists nonzero_delta (delta_window (rising_prices 100 15) 14 14)).
  { vm_compute. constructor. discriminate. }
  assert (Hnoneg : Forall (fun d => ~ negative_delta d)
                     (delta_window (rising_prices 100 15) 14 14)).
  { vm_compute. repeat constructor; discriminate. }
  destruct (rsi_bounded (rising_prices 100 15) 14 14) as [H1 H2];
    [lia | lia | simpl; lia |].
  split; [exact (H1 Hnz) | exact (H2 Hpos Hnoneg)].
Defined.

(** The value of that run, and two runs outside the hypotheses: flat
    prices give NaN, and the rows before the first full window are NaN. *)
Example rsi_rising_run :
  exists r, last (_calculate_rsi (map Fin (rising_prices 100 15)) 14)
            = Some (Fin r) /\ r == 100.
Proof. eexists. split; [vm_compute; reflexivity | reflexivity]. Qed.

Example rsi_flat_run :
  last (_calculate_rsi (map Fin (repeat 100 15)) 14) = Some NaN.
Proof. vm_compute. reflexivity. Qed.

Example rsi_short_run :
  _calculate_rsi (map Fin (rising_prices 100 5)) 14
  = [NaN; NaN; NaN; NaN; NaN].
Proof. vm_compute. reflexivity. Qed.

End RsiFacts.

(** ** The technical evaluator: the trend signal *)

Module TechnicalFacts.

Import Series StockAnalyzer TechnicalSpec PyFloatFacts SeriesFacts RsiFacts.
Local Open Scope Q_scope.

(** The exact mean is one rolling mean of the kind the library computes. *)
Lemma rolling_mean_rolling_like : rolling_like rolling_mean.
Proof.
  split.
  - apply length_rolling_mean.
  - intros w s i Hw Hi. rewrite lookup_rolling_mean by exact Hi.
    apply Nat.ltb_lt in Hw. rewrite Hw. reflexivity.
Qed.

Section Library.

Variable rm : nat -> series -> series.
Hypothesis rm_like : rolling_like rm.

Lemma last_item_rolling (w : nat) (s : series) :
  s <> [] ->
  exists m, rm w s !! pred (length s) = Some m /\ last_item (rm w s) = inr m.
Proof.
  intros Hne.
  assert (Hne' : rm w s <> []).
  { intros E. apply (f_equal length) in E.
    rewrite (proj1 rm_like) in E. destruct s; [congruence | discriminate]. }
  destruct (last_item_lookup _ Hne') as (m & Hm & Hlast).
  rewrite (proj1 rm_like) in Hm. exists m. split; assumption.
Qed.

Lemma length_rsi_with (prices : series) (period : nat) :
  length (_calculate_rsi_with rm prices period) = length prices.
Proof.
  unfold _calculate_rsi_with, div, neg, where_.
  rewrite length_map, length_zip_with, !(proj1 rm_like), !length_map,
    length_diff.
  lia.
Qed.

Lemma last_item_rsi_with (s : series) (period : nat) :
  s <> [] -> exists r, last_item (_calculate_rsi_with rm s period) = inr r.
Proof.
  intros Hne.
  assert (Hne' : _calculate_rsi_with rm s period <> []).
  { intros E. apply (f_equal length) in E.
    rewrite length_rsi_with in E. destruct s; [congruence | discriminate]. }
  destruct (last_item_lookup _ Hne') as (r & _ & Hlast).
  exists r. exact Hlast.
Qed.

(** On a table with at least one row the evaluator returns, stores what it
    returns, and the trend compares the latest cells of the two rolling
    means. *)
Lemma analyze_technicals_with_returns (self : t) (df : frame) :
  data self = Some df -> df <> [] ->
  exists (signals : gmap string pyval) (sma_50_last sma_200_last : fval),
    analyze_technicals_with rm self
      = inr (signals, set_technical_signals self signals) /\
    rm 50%nat (map Close df) !! pred (length df) = Some sma_50_last /\
    rm 200%nat (map Close df) !! pred (length df) = Some sma_200_last /\
    signals !! "trend"
      = Some (VStr (if (sma_50_last >? sma_200_last)%F
                    then "Bullish" else "Bearish")).
Proof.
  intros Hdata Hne.
  assert (Hcl : map Close df <> [])
    by (destruct df; [congruence | discriminate]).
  destruct (last_item_lookup _ Hcl) as (c & _ & Hc).
  destruct (last_item_rolling 50 _ Hcl) as (m50 & Hl50 & H50).
  destruct (last_item_rolling 200 _ Hcl) as (m200 & Hl200 & H200).
  destruct (last_item_rsi_with _ 14 Hcl) as (r & Hr).
  rewrite length_map in Hl50, Hl200.
  unfold analyze_technicals_with. rewrite Hdata.
  cbv zeta. rewrite Hc, H50, H200, Hr. cbn [bind ret].
  eexists _, m50, m200. split; [reflexivity|].
  split; [exact Hl50|]. split; [exact Hl200|].
  apply lookup_insert_eq.
Qed.

End Library.

Lemma last_item_rolling_mean (w : nat) (s : series) :
  s <> [] ->
  exists m, rolling_mean w s !! pred (length s) = Some m /\
            last_item (rolling_mean w s) = inr m.
Proof. apply (last_item_rolling rolling_mean rolling_mean_rolling_like). Qed.

Lemma last_item_rsi (s : series) (period : nat) :
  s <> [] -> exists r, last_item (_calculate_rsi s period) = inr r.
Proof. apply (last_item_rsi_with rolling_mean rolling_mean_rolling_like). Qed.

(** The evaluator on the exact means. *)
Lemma analyze_technicals_returns (self : t) (df : frame) :
  data self = Some df -> df <> [] ->
  exists (signals : gmap string pyval) (sma_50_last sma_200_last : fval),
    analyze_technicals self = inr (signals, set_technical_signals self signals) /\
    rolling_mean 50 (map Close df) !! pred (length df) = Some sma_50_last /\
    rolling_mean 200 (map Close df) !! pred (length df) = Some sma_200_last /\
    signals !! "trend"
      = Some (VStr (if (sma_50_last >? sma_200_last)%F
                    then "Bullish" else "Bearish")).
Proof.
  apply (analyze_technicals_with_returns rolling_mean rolling_mean_rolling_like).
Qed.

(** C6, the failing input: an analyzer whose provider has no rows for the
    symbol.  [fetch_data] answers False but has stored the table without
    rows, which is shorter than 200; [analyze_technicals] on it raises
    IndexError at [close_prices[-1]], whatever the rolling mean computes.
    The guards next to it fail soft: without a table the same method
    returns the empty mapping, and so does [analyze_fundamentals] on this
    object. *)
Theorem empty_table_raises :
  exists a : t,
    init Samples.no_rows_provider "ZZZZ" = inr a /\
    fetch_data Samples.no_rows_provider a "1y" = (false, set_data a []) /\
    (length (@nil bar) < 200)%nat /\
    (forall rm, analyze_technicals_with rm (set_data a []) = inl IndexError) /\
    analyze_technicals a = inr (∅, a) /\
    analyze_fundamentals (set_data a []) = (∅, set_data a []).
Proof.
  exists (fresh "ZZZZ").
  split; [reflexivity|]. split; [reflexivity|]. split; [simpl; lia|].
  split; [intros rm; reflexivity|]. split; reflexivity.
Qed.

(** X25: the trend signal of [analyze_technicals], for every rolling mean
    of the library's kind (one cell per row, NaN before the first full
    window).  On a price table with at least one row the evaluator returns
    and stores its signals.  With fewer than 200 rows the 200-period
    average is NaN, the comparison is false and the trend is Bearish
    whatever the prices.  In general the trend is Bullish exactly when the
    latest cell of the 50-period average is strictly greater than the
    latest cell of the 200-period average, else Bearish.  Where the closes
    are numbers and the two cells are numbers within [e] of the means of
    the latest 50 and 200 closes, the trend is Bullish when the 50-close
    mean is greater by more than [2 e] and Bearish when it is smaller by
    [2 e] or more. *)
Theorem trend_signal (rm : nat -> series -> series) (self : t) (df : frame) :
  rolling_like rm ->
  data self = Some df -> df <> [] ->
  exists (signals : gmap string pyval) (m50 m200 : fval),
    analyze_technicals_with rm self
      = inr (signals, set_technical_signals self signals) /\
    rm 50%nat (map Close df) !! pred (length df) = Some m50 /\
    rm 200%nat (map Close df) !! pred (length df) = Some m200 /\
    ((length df < 200)%nat -> signals !! "trend" = Some (VStr "Bearish")) /\
    ((m50 >? m200)%F = true -> signals !! "trend" = Some (VStr "Bullish")) /\
    ((m50 >? m200)%F = false -> signals !! "trend" = Some (VStr "Bearish")) /\
    (forall (closes : list Q) (q50 q200 e : Q),
       map Close df = map Fin closes ->
       m50 = Fin q50 -> m200 = Fin q200 ->
       Qabs (q50 - sma_latest 50 closes) <= e ->
       Qabs (q200 - sma_latest 200 closes) <= e ->
       (sma_latest 200 closes + 2 * e < sma_latest 50 closes ->
          signals !! "trend" = Some (VStr "Bullish")) /\
       (sma_latest 50 closes + 2 * e <= sma_latest 200 closes ->
          signals !! "trend" = Some (VStr "Bearish"))).
Proof.
  intros Hlike Hdata Hne.
  destruct (analyze_technicals_with_returns rm Hlike self df Hdata Hne)
    as (signals & m50 & m200 & Hrun & H50 & H200 & Htrend).
  exists signals, m50, m200.
  split; [exact Hrun|]. split; [exact H50|]. split; [exact H200|].
  split; [|split; [|split]].
  - intros Hshort.
    assert (Hlen : (0 < length df)%nat)
      by (destruct df; [congruence | simpl; lia]).
    rewrite (proj2 Hlike) in H200 by (rewrite ?length_map; lia).
    injection H200 as <-.
    rewrite Htrend. destruct m50; reflexivity.
  - intros E. rewrite Htrend, E. reflexivity.
  - intros E. rewrite Htrend, E. reflexivity.
  - intros closes q50 q200 e _ -> -> He50 He200.
    rewrite Htrend. unfold fgtb. cbn [fltb].
    apply Qabs_Qle_condition in He50, He200.
    split; intros H.
    + assert (L : q200 < q50) by lra.
      apply Qltb_lt in L. rewrite L. reflexivity.
    + assert (L : q50 <= q200) by lra.
      apply Qltb_ge in L. rewrite L. reflexivity.
Qed.

(** Witness of [trend_signal]: the exact means on three rows, 10, 11 and
    12. *)
Lemma trend_signal_witness :
  exists signals : gmap string pyval,
    analyze_technicals (set_data (fresh "AAPL") (frame_of_closes [10; 11; 12]))
      = inr (signals,
             set_technical_signals
               (set_data (fresh "AAPL") (frame_of_closes [10; 11; 12])) signals) /\
    signals !! "trend" = Some (VStr "Bearish").
Proof.
  destruct (trend_signal rolling_mean
              (set_data (fresh "AAPL") (frame_of_closes [10; 11; 12]))
              (frame_of_closes [10; 11; 12]))
    as (signals & m50 & m200 & Hrun & _ & _ & Hshort & _).
  - exact rolling_mean_rolling_like.
  - reflexivity.
  - discriminate.
  - exists signals. split; [exact Hrun|]. apply Hshort. simpl. lia.
Defined.

(** On the exact means the latest cells are the means of the latest 50 and
    200 closes, so the comparison of [trend_signal] holds with [e = 0]. *)
Lemma exact_latest_cells (closes : list Q) :
  (200 <= length closes)%nat ->
  rolling_mean 50 (map Fin closes) !! pred (length closes)
    = Some (Fin (sma_latest 50 closes)) /\
  rolling_mean 200 (map Fin closes) !! pred (length closes)
    = Some (Fin (sma_latest 200 closes)).
Proof.
  intros Hlong.
  assert (Hcne : closes <> []) by (intros ->; simpl in Hlong; lia).
  rewrite !rolling_mean_latest by (assumption || lia).
  assert (E50 : (length closes <? 50)%nat = false) by (apply Nat.ltb_ge; lia).
  assert (E200 : (length closes <? 200)%nat = false) by (apply Nat.ltb_ge; lia).
  rewrite E50, E200. split; reflexivity.
Qed.

(** A run with 200 rows rising by one: both averages are defined, the
    50-period one is the greater. *)
Example trend_bullish_run :
  match analyze_technicals
          (set_data (fresh "AAPL") (frame_of_closes (rising_prices 1 200))) with
  | inr (signals, _) =>
      signals !! "trend" = Some (VStr "Bullish") /\
      signals !! "rsi_signal" = Some (VStr "Overbought") /\
      signals !! "price_trend" = Some (VStr "Up")
  | inl _ => False
  end.
Proof. vm_compute. repeat split. Qed.

(** The gate in front of the evaluator: [fetch_data] answers [True] only
    after it stored a table with at least one row. *)
Lemma fetch_data_true_nonempty (P : Provider) (self self' : t) (period : string) :
  fetch_data P self period = (true, self') ->
  exists df, data self' = Some df /\ df <> [].
Proof.
  unfold fetch_data.
  destruct (history_period P (symbol self) period) as [e|d]; [discriminate|].
  destruct d as [|b d]; [discriminate|].
  cbn [StockDataFetcher.empty].
  destruct (ticker_info P _) as [e|i]; [discriminate|].
  intros [= <-]. exists (b :: d). split; [reflexivity | discriminate].
Qed.

(** Without a table the evaluator fails soft. *)
Lemma analyze_technicals_no_data (self : t) :
  data self = None -> analyze_technicals self = inr (∅, self).
Proof. intros H. unfold analyze_technicals, analyze_technicals_with. rewrite H. reflexivity. Qed.

End TechnicalFacts.

(** ** The analyzer over its life, and the home page *)

Module LifecycleFacts.

Import StockAnalyzer Home Samples PyFloatFacts DictFacts ScorerFacts.
Local Open Scope Q_scope.

Lemma fetch_data_frame (P : Provider) (self : t) (period : string) :
  let self' := snd (fetch_data P self period) in
  symbol self' = symbol self /\
  sentiment_score self' = sentiment_score self /\
  technical_signals self' = technical_signals self /\
  fundamental_metrics self' = fundamental_metrics self.
Proof.
  unfold fetch_data.
  destruct (history_period P (symbol self) period) as [e|d]; [simpl; tauto|].
  destruct (StockDataFetcher.empty d); [simpl; tauto|].
  cbn [symbol set_data].
  destruct (ticker_info P (symbol self)); simpl; tauto.
Qed.

Lemma analyze_technicals_frame (self self' : t) (signals : gmap string pyval) :
  analyze_technicals self = inr (signals, self') ->
  sentiment_score self' = sentiment_score self /\
  fundamental_metrics self' = fundamental_metrics self /\
  data self' = data self /\ info self' = info self /\
  ((signals = ∅ /\ self' = self)
   \/ (technical_signals self' = signals /\ dom signals = signal_keys)).
Proof.
  unfold analyze_technicals, analyze_technicals_with.
  destruct (data self) as [df|] eqn:Hdata.
  - destruct (last_item (map Close df)) as [e|c]; [discriminate|].
    destruct (last_item (Series.rolling_mean 50 (map Close df))) as [e|m50];
      [discriminate|].
    destruct (last_item (Series.rolling_mean 200 (map Close df))) as [e|m200];
      [discriminate|].
    destruct (last_item (_calculate_rsi_with _ (map Close df) 14)) as [e|r];
      [discriminate|].
    cbn [bind ret]. intros [= <- <-]. cbn [set_technical_signals
      sentiment_score fundamental_metrics data info technical_signals].
    split; [reflexivity|]. split; [reflexivity|]. split; [assumption|].
    split; [reflexivity|]. right. split; [reflexivity|].
    unfold signal_keys. rewrite !dom_insert_L, dom_empty_L. set_solver.
  - intros [= <- <-].
    split; [reflexivity|]. split; [reflexivity|]. split; [assumption|].
    split; [reflexivity|]. left. split; reflexivity.
Qed.

Lemma analyze_fundamentals_frame (self : t) :
  let self' := snd (analyze_fundamentals self) in
  sentiment_score self' = sentiment_score self /\
  technical_signals self' = technical_signals self /\
  data self' = data self /\ info self' = info self /\
  (self' = self \/ dom (fundamental_metrics self') = metric_keys).
Proof.
  unfold analyze_fundamentals.
  destruct (info_truthy (info self)); simpl.
  - repeat split. right.
    unfold metric_keys. rewrite !dom_insert_L, dom_empty_L. set_solver.
  - repeat split. left. reflexivity.
Qed.

(** A constructor that returns has set the fields and nothing else; it
    returns exactly when the provider builds the ticker object. *)
Lemma init_fresh (P : Provider) (sym : string) (self : t) :
  init P sym = inr self -> self = fresh sym.
Proof.
  unfold init. destruct (new_ticker P _); [discriminate|]. congruence.
Qed.

Lemma init_reachable (P : Provider) (sym : string) (self : t) :
  init P sym = inr self -> reachable P self.
Proof. intros H. apply init_fresh in H. subst self. apply reach_init. Qed.

Lemma init_outcome (P : Provider) (sym : string) :
  match new_ticker P (PyStr.strip (PyStr.upper sym)) with
  | inl e => init P sym = inl e
  | inr _ => init P sym = inr (fresh sym)
  end.
Proof. unfold init. destruct (new_ticker P _); reflexivity. Qed.

(** The invariant of the class: no method touches the sentiment score, and
    each of the two mappings is empty or complete. *)
Lemma reachable_well_formed (P : Provider) (self : t) :
  reachable P self -> well_formed self.
Proof.
  induction 1 as [sym | self period _ IH | self self' signals _ IH Hrun
                 | self _ IH].
  - split; [reflexivity|]. split; left; reflexivity.
  - destruct (fetch_data_frame P self period) as (_ & Hs & Ht & Hf).
    destruct IH as (IH1 & IH2 & IH3).
    unfold well_formed. rewrite Hs, Ht, Hf. auto.
  - destruct (analyze_technicals_frame _ _ _ Hrun) as (Hs & Hf & _ & _ & Hd).
    destruct IH as (IH1 & IH2 & IH3).
    unfold well_formed. rewrite Hs, Hf. split; [exact IH1|]. split; [|exact IH3].
    destruct Hd as [[_ ->] | [-> Hd]]; [exact IH2 | right; exact Hd].
  - destruct (analyze_fundamentals_frame self) as (Hs & Ht & _ & _ & Hd).
    destruct IH as (IH1 & IH2 & IH3).
    unfold well_formed. rewrite Hs, Ht. split; [exact IH1|]. split; [exact IH2|].
    destruct Hd as [-> | Hd]; [exact IH3 | right; exact Hd].
Qed.

(** Membership in a set of literal keys, by evaluation. *)
Ltac in_keys := apply (bool_decide_unpack _); vm_compute; exact I.

Lemma dom_lookup (d : gmap string pyval) (keys : gset string) (k : string) :
  dom d = keys -> k ∈ keys -> exists v, d !! k = Some v.
Proof.
  intros Hd Hk. rewrite <- Hd in Hk. apply elem_of_dom in Hk.
  destruct Hk as [v Hv]. exists v. exact Hv.
Qed.

(** With a sentiment score of zero the total is 0.4 * (technical +
    fundamental), between 40 and 68: only Hold and Buy are in reach. *)
Lemma label_without_sentiment (ts fs : Z) :
  (50 <= ts <= 90)%Z -> (50 <= fs <= 80)%Z ->
  fst (label_of (total_of ts fs (of_Z 0))) = "Hold"%string
  \/ fst (label_of (total_of ts fs (of_Z 0))) = "Buy"%string.
Proof.
  intros Hts Hfs.
  apply (inject_Z_bounds ts 50 90) in Hts.
  apply (inject_Z_bounds fs 50 80) in Hfs.
  change (inject_Z 50) with 50 in *. change (inject_Z 90) with 90 in *.
  change (inject_Z 80) with 80 in *.
  unfold total_of, label_of, of_Z, q_04, q_02, fgeb. cbn [fmul fadd fleb].
  change (inject_Z 0) with 0. change (inject_Z 70) with 70.
  change (inject_Z 60) with 60. change (inject_Z 40) with 40.
  generalize dependent (inject_Z ts). generalize dependent (inject_Z fs).
  intros b Hb a Ha.
  set (total := a * (4 # 10) + b * (4 # 10) + 0 * (2 # 10)).
  assert (Htot : 40 <= total <= 68) by (unfold total; lra).
  assert (E70 : Qle_bool 70 total = false) by (apply Qle_bool_false; lra).
  assert (E40 : Qle_bool 40 total = true) by (apply Qle_bool_iff; lra).
  rewrite E70. destruct (Qle_bool 60 total); [right; reflexivity|].
  rewrite E40. left. reflexivity.
Qed.

(** X1: on every object that the methods of the class can produce, the
    sentiment score is still 0 and [get_investment_recommendation] never
    raises KeyError; whatever it returns is labelled "Insufficient Data",
    "Hold" or "Buy", never "Strong Buy", "Sell" or "Strong Sell". *)
Theorem reachable_recommendation (P : Provider) (self : t) :
  reachable P self ->
  sentiment_score self = of_Z 0 /\
  (forall k, get_investment_recommendation self <> inl (KeyError k)) /\
  (forall label total explanation,
     get_investment_recommendation self = inr (label, total, explanation) ->
     label ∈ ["Insufficient Data"; "Hold"; "Buy"]).
Proof.
  intros Hreach.
  destruct (reachable_well_formed P self Hreach) as (Hsent & Htech & Hfund).
  split; [exact Hsent|].
  unfold get_investment_recommendation.
  destruct (dict_truthy (technical_signals self)
            && dict_truthy (fundamental_metrics self)) eqn:Etruthy; cbn [negb].
  2:{ split; [intros k; discriminate|].
      intros label total explanation [= <- _ _]. repeat constructor. }
  apply andb_true_iff in Etruthy as [Et Ef].
  destruct Htech as [Htech | Htech];
    [rewrite Htech, dict_truthy_empty in Et; discriminate|].
  destruct Hfund as [Hfund | Hfund];
    [rewrite Hfund, dict_truthy_empty in Ef; discriminate|].
  destruct (technical_score_returns self) as [ts Hts];
    try (apply (dom_lookup _ _ _ Htech); in_keys).
  pose proof (technical_score_range self ts Hts) as Rts.
  rewrite Hts. cbn [bind].
  destruct (_calculate_fundamental_score self) as [e|fs] eqn:Hfs.
  - split.
    + intros k Hk. injection Hk as ->.
      revert Hfs.
      unfold _calculate_fundamental_score, getitem, as_num, bind, ret, raise.
      destruct (dom_lookup _ _ "pe_ratio" Hfund) as [v1 ->]; [in_keys|].
      destruct (dom_lookup _ _ "profit_margin" Hfund) as [v2 ->]; [in_keys|].
      destruct (dom_lookup _ _ "debt_to_equity" Hfund) as [v3 ->]; [in_keys|].
      destruct v1, v2, v3; discriminate.
    + intros label total explanation H. discriminate.
  - pose proof (fundamental_score_range self fs Hfs) as Rfs.
    cbn [bind]. rewrite Hsent. split; [intros k; destruct (label_of _); discriminate|].
    intros label total explanation.
    destruct (label_without_sentiment ts fs Rts Rfs) as [E|E];
      destruct (label_of (total_of ts fs (of_Z 0))) as [l x]; simpl in E;
      subst l; intros [= <- _ _]; repeat constructor.
Qed.

Lemma reachable_recommendation_witness :
  sentiment_score
    (snd (analyze_fundamentals
            (snd (fetch_data three_row_provider (fresh "AAPL") "1y"))))
  = of_Z 0 /\
  get_investment_recommendation
    (snd (analyze_fundamentals
            (snd (fetch_data three_row_provider (fresh "AAPL") "1y"))))
  = inr insufficient_data.
Proof.
  split; [|reflexivity].
  apply (reachable_recommendation three_row_provider).
  apply reach_analyze_fundamentals, reach_fetch_data, reach_init.
Defined.

(** X2: the home page never shows a computed recommendation.  Nothing typed
    gives the welcome text.  Otherwise the analyzer is built first: when
    [yf.Ticker] raises on the normalised symbol, the exception leaves
    [main], which catches nothing; when it answers, the run does not raise,
    and where the data could be fetched the recommendation it shows is the
    sentinel ("Insufficient Data", 0, ...), because it is asked for before
    either analysis has run; the signals shown next have the five keys of
    the technical evaluator. *)
Theorem home_shows_insufficient_data (P : Provider) (typed : string) :
  let symbol := PyStr.upper typed in
  if String.eqb symbol "" then main P typed = inr Welcome
  else
    match new_ticker P (PyStr.strip (PyStr.upper symbol)) with
    | inl e => main P typed = inl (LibraryError e)
    | inr _ =>
        main P typed = inr CouldNotFetch \/
        exists signals metrics : gmap string pyval,
          main P typed = inr (Analysis insufficient_data signals metrics) /\
          dom signals = signal_keys
    end.
Proof.
  cbv zeta. unfold main.
  destruct (String.eqb (PyStr.upper typed) "") eqn:E0; [reflexivity|].
  pose proof (init_outcome P (PyStr.upper typed)) as Hinit.
  destruct (new_ticker P (PyStr.strip (PyStr.upper (PyStr.upper typed))))
    as [e|u]; rewrite Hinit; [reflexivity|].
  destruct (fetch_data P (fresh (PyStr.upper typed)) "1y") as [ok a] eqn:Ef.
  destruct ok; [|left; reflexivity].
  right.
  destruct (fetch_data_frame P (fresh (PyStr.upper typed)) "1y")
    as (_ & _ & Ht & _).
  rewrite Ef in Ht. cbn [snd fresh technical_signals] in Ht.
  assert (Hrec : get_investment_recommendation a = inr insufficient_data).
  { unfold get_investment_recommendation. rewrite Ht, dict_truthy_empty.
    reflexivity. }
  destruct (TechnicalFacts.fetch_data_true_nonempty P _ _ _ Ef)
    as (df & Hdata & Hdf).
  destruct (TechnicalFacts.analyze_technicals_returns a df Hdata Hdf)
    as (signals & m50 & m200 & Hrun & _ & _ & Htrend).
  rewrite Hrec, Hrun. cbn [bind].
  destruct (analyze_fundamentals (set_technical_signals a signals))
    as [metrics a'].
  exists signals, metrics. split; [reflexivity|].
  destruct (analyze_technicals_frame _ _ _ Hrun) as (_ & _ & _ & _ & Hd).
  destruct Hd as [[Hempty _] | [_ Hd]]; [|exact Hd].
  rewrite Hempty, lookup_empty in Htrend. discriminate.
Qed.

(** A symbol of blanks reaches the constructor as the empty string; a
    provider that refuses it ends the run with its exception. *)
Example home_blank_symbol :
  main strict_provider "  " = inl (LibraryError "Empty tickername") /\
  main strict_provider "" = inr Welcome.
Proof. split; reflexivity. Qed.

(** X3: [fetch_data] answers True exactly when the provider has a table
    with at least one row and an info mapping, and then both are stored; an
    answer without rows replaces the stored table all the same; a failed
    call leaves the stored info as it was. *)
Theorem fetch_data_outcome (P : Provider) (self : t) (period : string) :
  let '(ok, self') := fetch_data P self period in
  (ok = true <->
     exists d i, history_period P (symbol self) period = inr d /\ d <> [] /\
                 ticker_info P (symbol self) = inr i /\
                 data self' = Some d /\ info self' = Some i) /\
  (history_period P (symbol self) period = inr [] -> data self' = Some []) /\
  (ok = false -> info self' = info self).
Proof.
  unfold fetch_data.
  destruct (history_period P (symbol self) period) as [e|d] eqn:Eh.
  - split; [|split; [discriminate | reflexivity]].
    split; [discriminate|]. intros (d & i & H & _). discriminate.
  - destruct d as [|b d]; cbn [StockDataFetcher.empty].
    + split; [|split; reflexivity].
      split; [discriminate|]. intros (d & i & [= <-] & Hd & _). congruence.
    + cbn [symbol set_data].
      destruct (ticker_info P (symbol self)) as [e|i] eqn:Ei.
      * split; [|split; [discriminate | reflexivity]].
        split; [discriminate|]. intros (d' & i & _ & _ & H & _). discriminate.
      * split; [|split; [discriminate | discriminate]].
        split; [|reflexivity]. intros _.
        exists (b :: d), i. repeat split; try reflexivity. discriminate.
Qed.

End LifecycleFacts.

(** ** The fetcher: outcomes and requests *)

Module FetchOutcomeFacts.

Import StockDataFetcher Pages Samples FetcherFacts DictFacts.

Lemma validate_ticker_true_silent (symbol : string) :
  fst (validate_ticker symbol) = true -> snd (validate_ticker symbol) = [].
Proof.
  unfold validate_ticker. case_ifs; simpl; (discriminate || reflexivity).
Qed.

Lemma validate_ticker_false_error (symbol : string) :
  fst (validate_ticker symbol) = false ->
  exists m, snd (validate_ticker symbol) = [StError m].
Proof.
  unfold validate_ticker. case_ifs; simpl; try discriminate;
    intros _; eexists; reflexivity.
Qed.

Lemma invalid_symbol_trace (P : Provider) (symbol : string)
    (start_date end_date : Z) :
  fst (validate_ticker symbol) = false ->
  exists m, fetch_stock_data P symbol start_date end_date
            = ((None, None), [StError m]).
Proof.
  intros Hok. destruct (validate_ticker_false_error symbol Hok) as [m Hm].
  exists m. unfold fetch_stock_data, io_bind.
  destruct (validate_ticker symbol) as [ok tr]. simpl in Hok, Hm. subst.
  reflexivity.
Qed.

(** The run of [fetch_stock_data] behind a symbol that passed validation,
    by the answers of the provider. *)
Lemma fetch_stock_data_valid (P : Provider) (symbol : string)
    (start_date end_date : Z) :
  fst (validate_ticker symbol) = true ->
  fetch_stock_data P symbol start_date end_date
  = match new_ticker P symbol with
    | inl e => ((None, None), [YfTicker symbol; StError (MsgFailed symbol e)])
    | inr _ =>
      match history_period P symbol "1d" with
      | inl e => ((None, None),
                  [YfTicker symbol; YfHistoryPeriod symbol "1d";
                   StError (MsgErrorValidating symbol e)])
      | inr [] => ((None, None),
                   [YfTicker symbol; YfHistoryPeriod symbol "1d";
                    StError (MsgNoData symbol)])
      | inr (_ :: _) =>
        match history_range P symbol start_date end_date with
        | inl e => ((None, None),
                    [YfTicker symbol; YfHistoryPeriod symbol "1d";
                     YfHistoryRange symbol start_date end_date;
                     StError (MsgErrorFetching e)])
        | inr [] => ((None, None),
                     [YfTicker symbol; YfHistoryPeriod symbol "1d";
                      YfHistoryRange symbol start_date end_date;
                      StError (MsgNoHistory symbol)])
        | inr (b :: d) =>
          match ticker_info P symbol with
          | inl _ => ((Some (b :: d), Some ∅),
                      all_requests symbol start_date end_date
                      ++ [StWarning (MsgLimitedInfo symbol)])
          | inr i => ((Some (b :: d), Some i),
                      all_requests symbol start_date end_date)
          end
        end
      end
    end.
Proof.
  intros Hok. pose proof (validate_ticker_true_silent symbol Hok) as Hsilent.
  unfold fetch_stock_data, io_bind.
  destruct (validate_ticker symbol) as [ok tr]. simpl in Hok, Hsilent. subst.
  cbn [negb]. unfold call_ticker.
  destruct (new_ticker P symbol) as [e|u]; [reflexivity|].
  unfold call_history_period.
  destruct (history_period P symbol "1d") as [e|[|b0 d0]]; [reflexivity..|].
  cbn [empty]. unfold call_history_range.
  destruct (history_range P symbol start_date end_date) as [e|[|b d]];
    [reflexivity..|].
  cbn [empty]. unfold call_info.
  destruct (ticker_info P symbol) as [e|i]; reflexivity.
Qed.

(** The two shapes of the result. *)
Lemma fetch_result_shape (P : Provider) (symbol : string)
    (start_date end_date : Z) :
  fst (fetch_stock_data P symbol start_date end_date) = (None, None)
  \/ exists data info,
       fst (fetch_stock_data P symbol start_date end_date)
       = (Some data, Some info).
Proof.
  destruct (fst (validate_ticker symbol)) eqn:Hok.
  - rewrite (fetch_stock_data_valid P symbol start_date end_date Hok).
    destruct (new_ticker P symbol) as [e|u]; [left; reflexivity|].
    destruct (history_period P symbol "1d") as [e|[|b0 d0]];
      [left; reflexivity..|].
    destruct (history_range P symbol start_date end_date) as [e|[|b d]];
      [left; reflexivity..|].
    right. destruct (ticker_info P symbol) as [e|i];
      eexists _, _; reflexivity.
  - destruct (invalid_symbol_trace P symbol start_date end_date Hok) as [m E].
    rewrite E. left. reflexivity.
Qed.

(** X4: [fetch_stock_data] returns either (None, None), and then exactly
    one error is shown to the user, or a table with at least one row
    together with an info mapping, and then no error is shown; the table is
    the provider's answer for the requested range, and the info mapping is
    the provider's or the empty one when the provider raised. *)
Theorem fetch_stock_data_outcome (P : Provider) (symbol : string)
    (start_date end_date : Z) :
  let '(r, tr) := fetch_stock_data P symbol start_date end_date in
  (r = (None, None) /\ length (List.filter is_st_error tr) = 1%nat)
  \/ (exists data info,
        r = (Some data, Some info) /\ data <> [] /\
        List.filter is_st_error tr = [] /\
        history_range P symbol start_date end_date = inr data /\
        (ticker_info P symbol = inr info
         \/ (info = ∅ /\ exists e, ticker_info P symbol = inl e))).
Proof.
  destruct (fst (validate_ticker symbol)) eqn:Hok.
  - rewrite (fetch_stock_data_valid P symbol start_date end_date Hok).
    destruct (new_ticker P symbol) as [e|u]; [left; split; reflexivity|].
    destruct (history_period P symbol "1d") as [e|[|b0 d0]];
      [left; split; reflexivity..|].
    destruct (history_range P symbol start_date end_date) as [e|[|b d]];
      [left; split; reflexivity..|].
    destruct (ticker_info P symbol) as [e|i]; right.
    + exists (b :: d), ∅.
      split; [reflexivity|]. split; [discriminate|]. split; [reflexivity|].
      split; [reflexivity|]. right. split; [reflexivity|]. exists e. reflexivity.
    + exists (b :: d), i.
      split; [reflexivity|]. split; [discriminate|]. split; [reflexivity|].
      split; [reflexivity|]. left. reflexivity.
  - destruct (invalid_symbol_trace P symbol start_date end_date Hok) as [m E].
    rewrite E. left. split; reflexivity.
Qed.

(** X5: the provider requests of one [fetch_stock_data] are an initial part
    of: ticker, one-day probe, requested range, info; none is made for a
    symbol that fails validation, the range is requested only after the
    probe came back with rows, and all four are made exactly when a table
    is returned. *)
Theorem fetch_stock_data_requests (P : Provider) (symbol : string)
    (start_date end_date : Z) :
  let '(r, tr) := fetch_stock_data P symbol start_date end_date in
  exists k : nat,
    List.filter is_provider_request tr
      = take k (all_requests symbol start_date end_date) /\
    (k <= 4)%nat /\
    (k = 0%nat <-> fst (validate_ticker symbol) = false) /\
    ((3 <= k)%nat ->
       exists b d, history_period P symbol "1d" = inr (b :: d)) /\
    (k = 4%nat <-> exists data info, r = (Some data, Some info)).
Proof.
  destruct (fst (validate_ticker symbol)) eqn:Hok.
  - rewrite (fetch_stock_data_valid P symbol start_date end_date Hok).
    destruct (new_ticker P symbol) as [e|u].
    { exists 1%nat. repeat split; try (reflexivity || lia || discriminate).
      intros (? & ? & H). discriminate. }
    destruct (history_period P symbol "1d") as [e|[|b0 d0]].
    1,2: exists 2%nat; repeat split; try (reflexivity || lia || discriminate);
         intros (? & ? & H); discriminate.
    destruct (history_range P symbol start_date end_date) as [e|[|b d]].
    1,2: exists 3%nat; repeat split; try (reflexivity || lia || discriminate);
         try (intros _; eexists _, _; reflexivity);
         intros (? & ? & H); discriminate.
    destruct (ticker_info P symbol) as [e|i];
      exists 4%nat; repeat split; try (reflexivity || lia || discriminate);
      intros _; eexists _, _; reflexivity.
  - destruct (invalid_symbol_trace P symbol start_date end_date Hok) as [m E].
    rewrite E. exists 0%nat.
    repeat split; try (reflexivity || lia || discriminate).
    intros (? & ? & H). discriminate.
Qed.

Ltac none_case :=
  cbn; split; [left; reflexivity | split; [discriminate | intros _; reflexivity]].

(** X6: [get_fundamentals] never hands out an empty mapping: its result is
    [None] or the provider's non-empty info; it is [None] without any
    provider request when the symbol fails validation, and [None] as well
    when the provider raises on the company info although the price table
    was fetched. *)
Theorem get_fundamentals_result (P : Provider) (today : Z) (symbol : string) :
  let '(r, tr) := get_fundamentals P today symbol in
  (r = None \/ exists i, r = Some i /\ i <> ∅ /\ ticker_info P symbol = inr i) /\
  (fst (validate_ticker symbol) = false ->
     r = None /\ last tr = Some InvalidFormat /\
     Forall (fun e => match e with
                      | Fetcher e => is_provider_request e = false
                      | _ => True
                      end) tr) /\
  ((exists e, ticker_info P symbol = inl e) -> r = None).
Proof.
  unfold get_fundamentals.
  destruct (validate_ticker symbol) as [ok t1] eqn:Ev.
  destruct ok; cbn [negb].
  - assert (Hok : fst (validate_ticker symbol) = true) by (rewrite Ev; reflexivity).
    rewrite (fetch_stock_data_valid P symbol today today Hok).
    destruct (new_ticker P symbol); [none_case|].
    destruct (history_period P symbol "1d") as [?|[|? ?]]; [none_case..|].
    destruct (history_range P symbol today today) as [?|[|? ?]]; [none_case..|].
    destruct (ticker_info P symbol) as [e|i]; [none_case|].
    cbn -[all_requests dict_truthy].
    destruct (dict_truthy i) eqn:Ei; [|none_case].
    split; [|split; [discriminate | intros [e He]; discriminate]].
    right. exists i. split; [reflexivity|]. split; [|reflexivity].
    intros ->. rewrite dict_truthy_empty in Ei. discriminate.
  - split; [left; reflexivity|]. split.
    + intros _. split; [reflexivity|]. split.
      * rewrite last_snoc. reflexivity.
      * apply Forall_app. split; [|repeat constructor].
        pose proof (validate_ticker_no_request symbol) as H.
        rewrite Ev in H. simpl in H.
        apply Forall_map. exact H.
    + intros _. reflexivity.
Qed.

(** X7: [load_data] of the technical page keeps the retry flag in step with
    its result: for a non-empty ticker the flag is set afterwards exactly
    when (None, None) is returned, a returned table is the fetcher's
    result unchanged, and a flag found set costs one sleep of two seconds
    before anything is fetched. *)
Theorem load_data_retry_flag (P : Provider) (last_error : bool)
    (ticker : string) (start_date end_date : Z) :
  ticker <> ""%string ->
  let '(r, flag, tr) := load_data P last_error ticker start_date end_date in
  (flag = true <-> r = (None, None)) /\
  (r <> (None, None) ->
     r = fst (fetch_stock_data P ticker start_date end_date)) /\
  tr = (if last_error then [Sleep 2] else [])
       ++ map Fetcher (snd (fetch_stock_data P ticker start_date end_date)).
Proof.
  intros Hne. unfold load_data.
  assert (E : String.eqb ticker "" = false)
    by (apply String.eqb_neq; exact Hne).
  rewrite E.
  pose proof (fetch_result_shape P ticker start_date end_date) as Hout.
  destruct (fetch_stock_data P ticker start_date end_date) as [[data info] t1].
  cbn [fst] in Hout.
  destruct Hout as [[= -> ->] | (d & i & [= -> ->])].
  - destruct last_error; cbn [fst snd];
      (split; [tauto|]); (split; [congruence | reflexivity]).
  - destruct last_error; cbn [fst snd];
      (split; [split; discriminate|]); (split; [reflexivity | reflexivity]).
Qed.

Lemma load_data_retry_flag_witness :
  let '(r, flag, tr) := load_data one_row_provider true "GOOGLE" 0 10 in
  (flag = true <-> r = (None, None)) /\
  (r <> (None, None) ->
     r = fst (fetch_stock_data one_row_provider "GOOGLE" 0 10)) /\
  tr = [Sleep 2]
       ++ map Fetcher (snd (fetch_stock_data one_row_provider "GOOGLE" 0 10)).
Proof.
  apply (load_data_retry_flag one_row_provider true "GOOGLE" 0 10).
  discriminate.
Defined.

End FetchOutcomeFacts.

(** ** Strings *)

Module StrFacts.

Import PyStr PyStrMore.

(** A fact about every character, by going through the 256 of them. *)
Ltac each_char c :=
  destruct c as [[] [] [] [] [] [] [] []]; vm_compute; try reflexivity;
  try discriminate; try tauto.

Lemma alpha_not_space (c : ascii) : is_alpha c = true -> is_space c = false.
Proof. each_char c. Qed.

Lemma alpha_alnum (c : ascii) : is_alpha c = true -> is_alnum c = true.
Proof. each_char c. Qed.

Lemma alnum_not_space (c : ascii) : is_alnum c = true -> is_space c = false.
Proof. each_char c. Qed.

Lemma alnum_not_dot (c : ascii) : is_alnum c = true -> Ascii.eqb c "." = false.
Proof. each_char c. Qed.

Lemma alnum_not_hyphen (c : ascii) : is_alnum c = true -> Ascii.eqb c "-" = false.
Proof. each_char c. Qed.

Lemma upper_char_space (c : ascii) : is_space (upper_char c) = is_space c.
Proof. each_char c. Qed.

Lemma upper_char_alnum (c : ascii) : is_alnum (upper_char c) = is_alnum c.
Proof. each_char c. Qed.

Lemma upper_char_alpha (c : ascii) : is_alpha (upper_char c) = is_alpha c.
Proof. each_char c. Qed.

Lemma upper_char_idem (c : ascii) : upper_char (upper_char c) = upper_char c.
Proof. each_char c. Qed.

Lemma upper_char_dot (c : ascii) :
  Ascii.eqb (upper_char c) "." = Ascii.eqb c ".".
Proof. each_char c. Qed.

Lemma upper_char_hyphen (c : ascii) :
  Ascii.eqb (upper_char c) "-" = Ascii.eqb c "-".
Proof. each_char c. Qed.

Lemma upper_char_ticker (c : ascii) :
  is_alnum c || Ascii.eqb c "-" = true -> is_ticker_char (upper_char c) = true.
Proof. each_char c. Qed.

Lemma all_chars_impl (p q : ascii -> bool) (s : string) :
  (forall c, p c = true -> q c = true) ->
  all_chars p s = true -> all_chars q s = true.
Proof.
  intros Hpq. induction s as [|c s IH]; [reflexivity|].
  simpl. intros H. apply andb_true_iff in H as [H1 H2].
  rewrite (Hpq c H1), (IH H2). reflexivity.
Qed.

Lemma all_chars_app (p : ascii -> bool) (s t : string) :
  all_chars p (s +:+ t) = all_chars p s && all_chars p t.
Proof.
  induction s as [|c s IH]; [reflexivity|].
  simpl. rewrite IH. apply andb_assoc.
Qed.

Lemma length_upper (s : string) : String.length (upper s) = String.length s.
Proof. induction s as [|c s IH]; simpl; [|rewrite IH]; reflexivity. Qed.

Lemma upper_idem (s : string) : upper (upper s) = upper s.
Proof.
  induction s as [|c s IH]; [reflexivity|].
  simpl. rewrite upper_char_idem, IH. reflexivity.
Qed.

Lemma upper_app (s t : string) : upper (s +:+ t) = upper s +:+ upper t.
Proof. induction s as [|c s IH]; simpl; [|rewrite IH]; reflexivity. Qed.

Lemma all_chars_upper (p : ascii -> bool) (s : string) :
  (forall c, p (upper_char c) = p c) ->
  all_chars p (upper s) = all_chars p s.
Proof.
  intros Hp. induction s as [|c s IH]; [reflexivity|].
  simpl. rewrite Hp, IH. reflexivity.
Qed.

Lemma upper_empty (s : string) : upper s = EmptyString <-> s = EmptyString.
Proof. destruct s; simpl; split; (reflexivity || discriminate). Qed.

(** [upper] and [strip] commute. *)
Lemma lstrip_upper (s : string) : lstrip (upper s) = upper (lstrip s).
Proof.
  induction s as [|c s IH]; [reflexivity|].
  simpl. rewrite upper_char_space.
  destruct (is_space c); [exact IH | reflexivity].
Qed.

Lemma rstrip_upper (s : string) : rstrip (upper s) = upper (rstrip s).
Proof.
  induction s as [|c s IH]; [reflexivity|].
  simpl. rewrite IH, upper_char_space.
  destruct (rstrip s) as [|c' r]; simpl;
    [destruct (is_space c); reflexivity | reflexivity].
Qed.

Lemma strip_upper (s : string) : strip (upper s) = upper (strip s).
Proof. unfold strip. rewrite lstrip_upper, rstrip_upper. reflexivity. Qed.

(** Strings without whitespace are left alone by [strip]. *)
Lemma lstrip_no_space (s : string) :
  all_chars (fun c => negb (is_space c)) s = true -> lstrip s = s.
Proof.
  destruct s as [|c s]; [reflexivity|].
  simpl. intros H. apply andb_true_iff in H as [H _].
  apply negb_true_iff in H. rewrite H. reflexivity.
Qed.

Lemma rstrip_no_space (s : string) :
  all_chars (fun c => negb (is_space c)) s = true -> rstrip s = s.
Proof.
  induction s as [|c s IH]; [reflexivity|].
  simpl. intros H. apply andb_true_iff in H as [H1 H2].
  apply negb_true_iff in H1. rewrite (IH H2), H1.
  destruct s; reflexivity.
Qed.

Lemma strip_no_space (s : string) :
  all_chars (fun c => negb (is_space c)) s = true -> strip s = s.
Proof.
  intros H. unfold strip. rewrite (lstrip_no_space s H).
  apply rstrip_no_space. exact H.
Qed.

(** [strip] is idempotent. *)
Lemma rstrip_idem (s : string) : rstrip (rstrip s) = rstrip s.
Proof.
  induction s as [|c s IH]; [reflexivity|].
  simpl. destruct (rstrip s) as [|c' r] eqn:E.
  - destruct (is_space c) eqn:Ec; [reflexivity|].
    simpl. rewrite Ec. reflexivity.
  - change (rstrip (String c (String c' r)))
      with (match rstrip (String c' r) with
            | EmptyString =>
                if is_space c then EmptyString else String c EmptyString
            | r0 => String c r0
            end).
    rewrite IH. reflexivity.
Qed.

Lemma lstrip_head (s : string) :
  lstrip s = EmptyString
  \/ exists c u, lstrip s = String c u /\ is_space c = false.
Proof.
  induction s as [|c s IH]; [left; reflexivity|].
  simpl. destruct (is_space c) eqn:E; [exact IH|].
  right. exists c, s. split; [reflexivity | exact E].
Qed.

Lemma rstrip_head (c : ascii) (u : string) :
  is_space c = false -> rstrip (String c u) = String c (rstrip u).
Proof.
  intros H. simpl. rewrite H. destruct (rstrip u); reflexivity.
Qed.

Lemma strip_idem (s : string) : strip (strip s) = strip s.
Proof.
  unfold strip.
  destruct (lstrip_head s) as [E | (c & u & E & Hc)]; rewrite E.
  - reflexivity.
  - rewrite (rstrip_head c u Hc). simpl lstrip. rewrite Hc.
    rewrite <- (rstrip_head c u Hc). apply rstrip_idem.
Qed.

(** A string without the separator is its own single part. *)
Lemma split_no_sep (sep : ascii) (s : string) :
  contains sep s = false -> split sep s = [s].
Proof.
  induction s as [|c s IH]; [reflexivity|].
  simpl. intros H. apply orb_false_iff in H as [H1 H2].
  rewrite H1, (IH H2). reflexivity.
Qed.

Lemma split_app_sep (sep : ascii) (s t : string) :
  contains sep s = false ->
  split sep (s +:+ String sep t) = s :: split sep t.
Proof.
  induction s as [|c s IH]; simpl.
  - intros _. rewrite Ascii.eqb_refl. reflexivity.
  - intros H. apply orb_false_iff in H as [H1 H2].
    rewrite H1, (IH H2). reflexivity.
Qed.

Lemma contains_app (c : ascii) (s t : string) :
  contains c (s +:+ t) = contains c s || contains c t.
Proof.
  induction s as [|c' s IH]; [reflexivity|].
  simpl. rewrite IH. apply orb_assoc.
Qed.

Lemma remove_char_absent (c : ascii) (s : string) :
  contains c s = false -> remove_char c s = s.
Proof.
  induction s as [|c' s IH]; [reflexivity|].
  simpl. intros H. apply orb_false_iff in H as [H1 H2].
  rewrite H1, (IH H2). reflexivity.
Qed.

Lemma all_chars_not_contains (p : ascii -> bool) (c : ascii) (s : string) :
  (forall c', p c' = true -> Ascii.eqb c' c = false) ->
  all_chars p s = true -> contains c s = false.
Proof.
  intros Hp. induction s as [|c' s IH]; [reflexivity|].
  simpl. intros H. apply andb_true_iff in H as [H1 H2].
  rewrite (Hp c' H1), (IH H2). reflexivity.
Qed.

(** What is left after removing the hyphens is alphanumeric exactly when
    the string is made of alphanumerics and hyphens. *)
Lemma all_alnum_remove_hyphen (s : string) :
  all_chars is_alnum (remove_char "-" s)
  = all_chars (fun c => is_alnum c || Ascii.eqb c "-") s.
Proof.
  induction s as [|c s IH]; [reflexivity|].
  simpl. destruct (Ascii.eqb c "-") eqn:E.
  - rewrite orb_true_r. exact IH.
  - simpl. rewrite orb_false_r, IH. reflexivity.
Qed.

Lemma length_app (s t : string) :
  String.length (s +:+ t) = (String.length s + String.length t)%nat.
Proof. induction s as [|c s IH]; simpl; [|rewrite IH]; reflexivity. Qed.

End StrFacts.

(** ** Ticker validation: what gets through *)

Module ValidationFacts.

Import PyStr PyStrMore StockDataFetcher Samples FetcherFacts StrFacts
  Technical_Analysis.

Lemma normalized_idem (s : string) : normalized (normalized s) = normalized s.
Proof.
  unfold normalized. rewrite strip_upper, upper_idem, strip_idem. reflexivity.
Qed.

Lemma normalized_upper (s : string) : normalized (upper s) = normalized s.
Proof. unfold normalized. rewrite strip_upper, upper_idem. reflexivity. Qed.

Lemma normalized_strip (s : string) : normalized (strip s) = normalized s.
Proof. unfold normalized. rewrite strip_idem. reflexivity. Qed.

Lemma normalized_empty (s : string) : s = EmptyString -> normalized s = EmptyString.
Proof. intros ->. reflexivity. Qed.

(** The verdict is a function of the normalized symbol alone. *)
Lemma validate_by_normalized (s s' : string) :
  normalized s = normalized s' ->
  fst (validate_ticker s) = fst (validate_ticker s').
Proof.
  intros E.
  assert (H : forall a b, normalized a = normalized b ->
                fst (validate_ticker a) = false -> fst (validate_ticker b) = false).
  { intros a b Eab Ha. apply validate_ticker_false_iff.
    apply validate_ticker_false_iff in Ha.
    unfold base_of, suffix_of in *. rewrite <- Eab.
    destruct Ha as [-> | Ha]; [|right; exact Ha].
    right. left. reflexivity. }
  destruct (fst (validate_ticker s)) eqn:E1, (fst (validate_ticker s')) eqn:E2;
    try reflexivity.
  - rewrite (H s' s (eq_sym E) E2) in E1. discriminate.
  - rewrite (H s s' E E1) in E2. discriminate.
Qed.

(** X8: validation ignores the case of the letters and the whitespace
    around the symbol: a symbol, its upper-case form, its stripped form and
    its normalized form all get the same verdict. *)
Theorem validate_ticker_case_and_space (s : string) :
  fst (validate_ticker (upper s)) = fst (validate_ticker s) /\
  fst (validate_ticker (strip s)) = fst (validate_ticker s) /\
  fst (validate_ticker (normalized s)) = fst (validate_ticker s).
Proof.
  split; [|split]; apply validate_by_normalized.
  - apply normalized_upper.
  - apply normalized_strip.
  - apply normalized_idem.
Qed.

Lemma normalized_no_space (s : string) :
  all_chars (fun c => negb (is_space c)) s = true -> normalized s = upper s.
Proof. intros H. unfold normalized. rewrite (strip_no_space s H). reflexivity. Qed.

Lemma alnum_no_space (s : string) :
  all_chars is_alnum s = true ->
  all_chars (fun c => negb (is_space c)) s = true.
Proof.
  apply all_chars_impl. intros c H. rewrite (alnum_not_space c H). reflexivity.
Qed.

Lemma isalnum_upper_alnum (s : string) :
  all_chars is_alnum s = true -> s <> EmptyString ->
  isalnum (remove_char "-" (upper s)) = true.
Proof.
  intros H Hne.
  assert (Hu : all_chars is_alnum (upper s) = true)
    by (rewrite (all_chars_upper is_alnum s upper_char_alnum); exact H).
  rewrite remove_char_absent
    by (apply (all_chars_not_contains is_alnum); [apply alnum_not_hyphen | exact Hu]).
  unfold isalnum. destruct (upper s) eqn:E; [|exact Hu].
  apply (proj1 (upper_empty s)) in E. congruence.
Qed.

Lemma plain_symbol_accepted (s : string) :
  all_chars is_alnum s = true -> s <> EmptyString ->
  (String.length s <= 5)%nat ->
  validate_ticker s = (true, []).
Proof.
  intros H Hne Hlen.
  assert (Hn : upper (strip s) = upper s)
    by (apply (normalized_no_space s), alnum_no_space, H).
  assert (Hdot : contains "." (upper s) = false).
  { apply (all_chars_not_contains is_alnum); [apply alnum_not_dot|].
    rewrite (all_chars_upper is_alnum s upper_char_alnum). exact H. }
  unfold validate_ticker.
  assert (E0 : String.eqb s "" = false) by (apply String.eqb_neq; exact Hne).
  rewrite E0, Hn, (split_no_sep "." (upper s) Hdot). cbn [item nth].
  rewrite (isalnum_upper_alnum s H Hne), Hdot. cbn [negb].
  rewrite length_upper.
  assert (E5 : (5 <? String.length s)%nat = false) by (apply Nat.ltb_ge; exact Hlen).
  rewrite E5. reflexivity.
Qed.

(** X9: every symbol of one to five letters and digits is accepted, without
    any message. *)
Theorem short_alnum_accepted (s : string) :
  all_chars is_alnum s = true -> s <> EmptyString ->
  (String.length s <= 5)%nat ->
  validate_ticker s = (true, []).
Proof. apply plain_symbol_accepted. Qed.

Lemma short_alnum_accepted_witness : validate_ticker "abc1" = (true, []).
Proof.
  apply (short_alnum_accepted "abc1"); [reflexivity | discriminate | simpl; lia].
Defined.

(** A suffix of the allow-list after an alphanumeric base. *)
Lemma known_suffix_accepted (base x : string) :
  all_chars is_alnum base = true -> base <> EmptyString ->
  all_chars (fun c => negb (is_space c)) x = true ->
  upper x = x -> contains "." x = false ->
  bool_decide ("." +:+ x ∈ valid_suffixes) = true ->
  validate_ticker (base +:+ String "." x) = (true, []).
Proof.
  intros H Hne Hsp Hup Hdot Hin.
  set (s := base +:+ String "." x).
  assert (Hs : all_chars (fun c => negb (is_space c)) s = true).
  { unfold s. rewrite all_chars_app, (alnum_no_space base H). simpl. exact Hsp. }
  assert (Hn : upper (strip s) = upper base +:+ String "." x).
  { rewrite (strip_no_space s Hs). unfold s. rewrite upper_app. simpl.
    rewrite Hup. reflexivity. }
  assert (Hbdot : contains "." (upper base) = false).
  { apply (all_chars_not_contains is_alnum); [apply alnum_not_dot|].
    rewrite (all_chars_upper is_alnum base upper_char_alnum). exact H. }
  unfold validate_ticker.
  assert (E0 : String.eqb s "" = false).
  { apply String.eqb_neq. unfold s. destruct base; [contradiction | discriminate]. }
  rewrite E0, Hn, (split_app_sep "." (upper base) x Hbdot),
    (split_no_sep "." x Hdot).
  cbn [item nth].
  rewrite (isalnum_upper_alnum base H Hne). cbn [negb].
  assert (Hc : contains "." (upper base +:+ String "." x) = true)
    by (rewrite contains_app; simpl; apply orb_true_r).
  rewrite Hc, Hin. reflexivity.
Qed.

(** X10: a symbol made of an alphanumeric base and a suffix of the
    allow-list is accepted whatever its length: the bounds of five and six
    characters only concern symbols without a dot or with an unknown
    suffix. *)
Theorem known_suffix_any_length (base suffix : string) :
  all_chars is_alnum base = true -> base <> EmptyString ->
  suffix ∈ valid_suffixes ->
  validate_ticker (base +:+ suffix) = (true, []).
Proof.
  intros H Hne Hin. unfold valid_suffixes in Hin.
  repeat (apply elem_of_union in Hin as [Hin | Hin]);
    apply elem_of_singleton in Hin; subst suffix;
    apply known_suffix_accepted; try assumption; reflexivity.
Qed.

Lemma known_suffix_any_length_witness :
  validate_ticker "AVERYLONGCOMPANYNAME2024.NS" = (true, []).
Proof.
  apply (known_suffix_any_length "AVERYLONGCOMPANYNAME2024" ".NS");
    [reflexivity | discriminate |].
  apply (bool_decide_unpack _). vm_compute. exact I.
Defined.

Lemma ticker_chars_upper (u : string) :
  all_chars (fun c => is_alnum c || Ascii.eqb c "-") (upper u) = true ->
  all_chars is_ticker_char (upper u) = true.
Proof.
  induction u as [|c u IH]; [reflexivity|].
  simpl. intros H. apply andb_true_iff in H as [H1 H2].
  rewrite (IH H2), andb_true_r.
  rewrite <- upper_char_idem. apply upper_char_ticker. exact H1.
Qed.

(** X11: what gets through without a dot, among the symbols typed in
    ASCII: an accepted symbol that has no dot is, once normalized, one to
    five characters long and made of upper-case letters, digits and hyphens
    only. *)
Theorem accepted_plain_symbol (s : string) :
  all_chars is_ascii s = true ->
  fst (validate_ticker s) = true ->
  contains "." (normalized s) = false ->
  (1 <= String.length (normalized s) <= 5)%nat /\
  all_chars is_ticker_char (normalized s) = true.
Proof.
  intros _ Hok Hdot.
  assert (Hbase : base_of s = normalized s)
    by (unfold base_of; rewrite (split_no_sep "." _ Hdot); reflexivity).
  assert (Halnum : isalnum (remove_char "-" (normalized s)) = true).
  { destruct (isalnum (remove_char "-" (normalized s))) eqn:E; [reflexivity|].
    assert (Hf : fst (validate_ticker s) = false)
      by (apply validate_ticker_false_iff; right; left; rewrite Hbase; exact E).
    congruence. }
  assert (Hlen : (String.length (normalized s) <= 5)%nat).
  { destruct (Nat.le_gt_cases (String.length (normalized s)) 5) as [H|H];
      [exact H|].
    assert (Hf : fst (validate_ticker s) = false)
      by (apply validate_ticker_false_iff; right; right; right; split; assumption).
    congruence. }
  split.
  - split; [|exact Hlen].
    destruct (normalized s) eqn:E; [discriminate Halnum | simpl; lia].
  - assert (Hall : all_chars is_alnum (remove_char "-" (normalized s)) = true).
    { unfold isalnum in Halnum.
      destruct (remove_char "-" (normalized s)); [discriminate | exact Halnum]. }
    rewrite all_alnum_remove_hyphen in Hall.
    unfold normalized in *. apply ticker_chars_upper. exact Hall.
Qed.

Lemma accepted_plain_symbol_witness :
  (1 <= String.length (normalized " brk-b ") <= 5)%nat /\
  all_chars is_ticker_char (normalized " brk-b ") = true.
Proof.
  apply (accepted_plain_symbol " brk-b "); reflexivity.
Defined.

Lemma alpha_upper_is_upper (u : string) :
  all_chars is_alpha (upper u) = true -> all_chars is_upper (upper u) = true.
Proof.
  induction u as [|c u IH]; [reflexivity|].
  simpl. intros H. apply andb_true_iff in H as [H1 H2].
  rewrite (IH H2), andb_true_r.
  revert H1. clear. each_char c.
Qed.

Lemma check_ticker_passed (t : string) (notes : list note) :
  check_ticker t = inr notes ->
  all_chars is_alpha t = true /\ t <> EmptyString /\
  (String.length t <= 5)%nat.
Proof.
  unfold check_ticker.
  destruct (isalpha t) eqn:Ea; cbn [negb]; [|discriminate].
  destruct (5 <? String.length t)%nat eqn:El; [discriminate|].
  intros _. apply Nat.ltb_ge in El.
  unfold isalpha in Ea. destruct t; [discriminate|].
  split; [exact Ea|]. split; [discriminate | exact El].
Qed.

(** X12: the check of the technical page is stricter than the validation
    of the fetcher.  Whatever is typed in ASCII, the page asks for a
    symbol, stops, or fetches; it stops on every ticker that holds anything
    but letters (a digit, a hyphen or the dot of an exchange suffix) and on
    every ticker of more than five letters; a ticker that it lets through
    is one to five upper-case letters, passes [validate_ticker], and the
    fetch starts with the provider request for it, after the sleep of a
    pending retry. *)
Theorem technical_page_check (P : Provider) (last_error : bool)
    (typed : string) (start_date end_date : Z) :
  all_chars is_ascii typed = true ->
  let ticker := strip (upper typed) in
  match script P last_error typed start_date end_date with
  | EnterSymbol => ticker = EmptyString
  | Stopped OnlyLetters => all_chars is_alpha ticker = false
  | Stopped TooLong => (5 < String.length ticker)%nat
  | Loaded notes r trace =>
      all_chars is_upper ticker = true /\
      (1 <= String.length ticker <= 5)%nat /\
      validate_ticker ticker = (true, []) /\
      exists rest,
        trace = (if last_error then [Pages.Sleep 2] else [])
                ++ Pages.Fetcher (YfTicker ticker) :: rest
  end.
Proof.
  intros _. cbv zeta. unfold script.
  destruct (String.eqb (strip (upper typed)) "") eqn:E0.
  { apply String.eqb_eq. exact E0. }
  apply String.eqb_neq in E0.
  destruct (check_ticker (strip (upper typed))) as [why | notes] eqn:Ec.
  - revert Ec. unfold check_ticker.
    destruct (isalpha (strip (upper typed))) eqn:Ea; cbn [negb].
    + destruct (5 <? String.length (strip (upper typed)))%nat eqn:El;
        [|discriminate].
      intros [= <-]. apply Nat.ltb_lt. exact El.
    + intros [= <-]. unfold isalpha in Ea.
      destruct (strip (upper typed)); [contradiction | exact Ea].
  - destruct (check_ticker_passed _ _ Ec) as (Ha & Hne & Hlen).
    assert (Hok : validate_ticker (strip (upper typed)) = (true, [])).
    { apply plain_symbol_accepted; try assumption.
      revert Ha. apply all_chars_impl, alpha_alnum. }
    destruct (fetch_stock_data P (strip (upper typed)) start_date end_date)
      as [r trace] eqn:Ef.
    split; [|split; [|split; [exact Hok|]]].
    + rewrite strip_upper in *. apply alpha_upper_is_upper. exact Ha.
    + split; [|exact Hlen].
      destruct (strip (upper typed)); [contradiction | simpl; lia].
    + destruct (valid_symbol_requests P (strip (upper typed)) start_date end_date)
        as [rest Hrest]; [rewrite Hok; reflexivity|].
      rewrite Ef, Hok in Hrest. simpl in Hrest. exists (map Pages.Fetcher rest).
      rewrite Hrest. reflexivity.
Qed.

Lemma technical_page_check_witness :
  exists notes r rest,
    script one_row_provider true " aapl" 0 10
    = Loaded notes r (Pages.Sleep 2 :: Pages.Fetcher (YfTicker "AAPL") :: rest) /\
    validate_ticker "AAPL" = (true, []).
Proof.
  pose proof (technical_page_check one_row_provider true " aapl" 0 10) as H.
  cbv zeta in H.
  destruct (script one_row_provider true " aapl" 0 10) as [|why|notes r trace]
    eqn:E; [discriminate E | discriminate E |].
  destruct H as (_ & _ & Hok & rest & Hrest); [reflexivity|].
  exists notes, r, rest. split; [rewrite Hrest; reflexivity | exact Hok].
Defined.

(** The page stops on a symbol that the fetcher would accept. *)
Example technical_page_stops_suffix :
  script one_row_provider false "tcs.ns" 0 10 = Stopped OnlyLetters /\
  validate_ticker "TCS.NS" = (true, []).
Proof. split; reflexivity. Qed.

Example technical_page_hint :
  check_ticker "GOOG" = inr [DidYouMean "GOOGL" "Alphabet Inc."] /\
  check_ticker "AAPL" = inr [LoadingFor "Apple Inc."].
Proof. split; vm_compute; reflexivity. Qed.

End ValidationFacts.

(** ** The prediction page *)

Module PredictionPageFacts.

Import Prediction PredictionPage Samples ForecastFacts.

Lemma in_list_true (x : string) (l : list string) :
  in_list x l = true <-> x ∈ l.
Proof.
  unfold in_list. rewrite existsb_exists. split.
  - intros (y & Hy & E). apply String.eqb_eq in E. subst.
    apply list_elem_of_In. exact Hy.
  - intros H. exists x. split; [apply list_elem_of_In; exact H|].
    apply String.eqb_refl.
Qed.

Example indian_tickers :
  is_indian_stock "TCS.NS" = true /\ is_indian_stock "RELIANCE.BO" = true /\
  is_indian_stock ".NS" = true /\ is_indian_stock "NS" = false /\
  is_indian_stock "AAPL" = false /\ is_indian_stock "TCS.NSE" = false.
Proof. repeat split. Qed.

Example offered_intervals :
  get_available_intervals "TCS.NS" = inr ["1 Day"; "1 Week"; "1 Month"] /\
  get_available_intervals "AAPL"
  = inr ["1 Minute"; "5 Minutes"; "15 Minutes"; "30 Minutes"; "1 Hour";
         "1 Day"; "1 Week"; "1 Month"].
Proof. split; reflexivity. Qed.

(** X13: whatever the ticker, every interval offered in the select box can
    be used: [main] finds it in TIME_INTERVALS and in MAX_PERIODS (no
    KeyError), [load_data] never answers an Indian ticker with the
    intraday error, and exactly one download is requested, for the full
    MAX_PERIODS days of that interval up to now. *)
Theorem offered_interval_loads (D : Downloader) (ticker interval_key : string)
    (now : Z) (offered : list string) :
  get_available_intervals ticker = inr offered ->
  interval_key ∈ offered ->
  exists interval max_days r tail,
    lookup_key TIME_INTERVALS interval_key = inr interval /\
    lookup_key MAX_PERIODS interval = inr max_days /\
    main_load D ticker interval_key now
      = inr (r, Download ticker (now - timedelta_days max_days) now interval
                :: tail) /\
    (tail = [] \/ tail = [NoDataAvailable] \/ tail = [ErrorFetching]) /\
    (is_indian_stock ticker = true -> in_list interval intraday = false).
Proof.
  unfold get_available_intervals, main_load, load_data.
  destruct (is_indian_stock ticker) eqn:Eind; intros [= <-] Hin;
    repeat (apply elem_of_cons in Hin as [-> | Hin]);
    try (apply elem_of_nil in Hin; contradiction);
    cbn -[Z.max Z.sub timedelta_days download];
    rewrite Z.max_l by lia;
    destruct (download D ticker _ now _) as [e|[|b d]];
    cbn [StockDataFetcher.empty];
    (eexists _, _, _, _; split; [reflexivity|]; split; [reflexivity|];
     (split; [reflexivity|]); (split; [tauto | reflexivity || discriminate])).
Qed.

Lemma offered_interval_loads_witness :
  exists interval max_days r tail,
    lookup_key TIME_INTERVALS "1 Week" = inr interval /\
    lookup_key MAX_PERIODS interval = inr max_days /\
    main_load one_row_downloader "TCS.NS" "1 Week" 0
      = inr (r, Download "TCS.NS" (0 - timedelta_days max_days) 0 interval
                :: tail) /\
    (tail = [] \/ tail = [NoDataAvailable] \/ tail = [ErrorFetching]) /\
    (is_indian_stock "TCS.NS" = true -> in_list interval intraday = false).
Proof.
  apply (offered_interval_loads one_row_downloader "TCS.NS" "1 Week" 0
           ["1 Day"; "1 Week"; "1 Month"]).
  - reflexivity.
  - repeat constructor.
Defined.


Lemma training_loop_spec (scaled_data : list fval) (lookback : nat)
    (indices : list nat) (X : list (list fval)) (y : list fval) :
  Forall (fun i => (i < length scaled_data)%nat) indices ->
  exists y', 
    training_loop scaled_data lookback indices X y
    = inr (X ++ map (fun i => slice scaled_data (i - lookback) i) indices,
           y ++ y') /\
    Forall2 (fun i v => scaled_data !! i = Some v) indices y'.
Proof.
  revert X y. induction indices as [|i rest IH]; intros X y Hall.
  - exists []. rewrite !app_nil_r. split; [reflexivity | constructor].
  - apply Forall_cons in Hall as [Hi Hrest].
    cbn [training_loop]. unfold index.
    destruct (scaled_data !! i) as [v|] eqn:Ev;
      [|apply lookup_ge_None in Ev; lia].
    cbn [bind ret].
    destruct (IH (X ++ [slice scaled_data (i - lookback) i]) (y ++ [v]) Hrest)
      as (y' & Hrun & Hy').
    exists (v :: y'). rewrite Hrun. cbn [map].
    rewrite <- !app_assoc. split; [reflexivity|].
    constructor; assumption.
Qed.

Lemma training_set_cases (scaled_data : list fval) (lookback : nat) :
  ((length scaled_data <= lookback)%nat ->
     training_set scaled_data lookback = inl IndexError) /\
  ((lookback < length scaled_data)%nat ->
     exists X y,
       training_set scaled_data lookback = inr (X, y) /\
       length X = (length scaled_data - lookback)%nat /\
       length y = (length scaled_data - lookback)%nat /\
       forall k, (k < length scaled_data - lookback)%nat ->
         X !! k = Some (take lookback (drop k scaled_data)) /\
         length (take lookback (drop k scaled_data)) = lookback /\
         y !! k = scaled_data !! (lookback + k)%nat).
Proof.
  unfold training_set. split.
  - intros H. replace (length scaled_data - lookback)%nat with 0%nat by lia.
    reflexivity.
  - intros H.
    set (n := (length scaled_data - lookback)%nat).
    destruct (training_loop_spec scaled_data lookback (seq lookback n) [] [])
      as (y & Hrun & Hy).
    { apply Forall_forall. intros i Hi. apply elem_of_seq in Hi. lia. }
    rewrite Hrun. cbn [bind fst app].
    set (Xs := map (fun i => slice scaled_data (i - lookback) i) (seq lookback n)).
    assert (HlenX : length Xs = n)
      by (unfold Xs; rewrite length_map, length_seq; reflexivity).
    assert (Hleny : length y = n).
    { apply Forall2_length in Hy. rewrite length_seq in Hy. lia. }
    exists Xs, y.
    split; [destruct Xs; [simpl in HlenX; lia | reflexivity]|].
    split; [exact HlenX|].
    split; [exact Hleny|]. unfold Xs.
    intros k Hk. split; [|split].
    + change (map ?f ?l) with (f <$> l). rewrite list_lookup_fmap.
      assert (E : seq lookback n !! k = Some (lookback + k)%nat)
        by (apply lookup_seq; lia).
      rewrite E. cbn [fmap option_fmap option_map]. unfold slice.
      replace (lookback + k - lookback)%nat with k by lia.
      replace (lookback + k - k)%nat with lookback by lia. reflexivity.
    + rewrite length_take, length_drop. lia.
    + destruct (y !! k) as [v|] eqn:Ev;
        [|apply lookup_ge_None in Ev; lia].
      assert (E : seq lookback n !! k = Some (lookback + k)%nat)
        by (apply lookup_seq; lia).
      symmetry. exact (Forall2_lookup_lr _ _ _ _ _ _ Hy E Ev).
Qed.

(** X15: with no more rows than [lookback] the preparation of the training
    data raises IndexError (nothing is trained, nothing is forecast); with
    more rows it returns one pair for each row from [lookback] on: the
    window [k] holds the [lookback] values starting at row [k] and its
    target is the value of row [lookback + k]. *)
Theorem training_set_pairs (scaled_data : list fval) (lookback : nat) :
  ((length scaled_data <= lookback)%nat ->
     training_set scaled_data lookback = inl IndexError) /\
  ((lookback < length scaled_data)%nat ->
     exists X y,
       training_set scaled_data lookback = inr (X, y) /\
       length X = (length scaled_data - lookback)%nat /\
       length y = (length scaled_data - lookback)%nat /\
       forall k, (k < length scaled_data - lookback)%nat ->
         X !! k = Some (take lookback (drop k scaled_data)) /\
         length (take lookback (drop k scaled_data)) = lookback /\
         y !! k = scaled_data !! (lookback + k)%nat).
Proof. apply training_set_cases. Qed.

Lemma training_set_pairs_witness :
  training_set [Fin 0; Fin (1 # 2)] 2 = inl IndexError.
Proof.
  apply (proj1 (training_set_pairs [Fin 0; Fin (1 # 2)] 2)). simpl. lia.
Defined.

(** X16: the forecast starts where the training data end: the first window
    fed to the model is the last training window moved on by one row, that
    is without its first value and with its target appended. *)
Theorem forecast_continues_training (scaled_data : list fval) (lookback : nat) :
  (0 < lookback < length scaled_data)%nat ->
  exists X y window target,
    training_set scaled_data lookback = inr (X, y) /\
    last X = Some window /\ last y = Some target /\
    last_rows lookback scaled_data = drop 1 window ++ [target].
Proof.
  intros [Hpos Hlt].
  destruct (proj2 (training_set_cases scaled_data lookback) Hlt)
    as (X & y & Hrun & HlX & Hly & Hk).
  set (n := (length scaled_data - lookback)%nat) in *.
  destruct (Hk (pred n)) as (HX & _ & Hy); [lia|].
  destruct (scaled_data !! (lookback + pred n)%nat) as [target|] eqn:Et;
    [|apply lookup_ge_None in Et; lia].
  exists X, y, (take lookback (drop (pred n) scaled_data)), target.
  split; [exact Hrun|].
  split; [rewrite last_lookup, HlX; exact HX|].
  split; [rewrite last_lookup, Hly; exact Hy|].
  unfold last_rows.
  destruct (Nat.eqb_spec lookback 0) as [E|_]; [lia|].
  fold n.
  apply list_eq. intros i.
  rewrite lookup_drop.
  destruct (Nat.lt_ge_cases i (pred lookback)) as [Hi|Hi].
  - rewrite lookup_app_l by (rewrite length_drop, length_take, length_drop; lia).
    rewrite lookup_drop, lookup_take.
    destruct (decide (1 + i < lookback)%nat) as [_|Hc]; [|lia].
    rewrite lookup_drop. f_equal. lia.
  - rewrite lookup_app_r by (rewrite length_drop, length_take, length_drop; lia).
    rewrite length_drop, length_take, length_drop.
    replace (lookback `min` (length scaled_data - pred n) - 1)%nat
      with (pred lookback) by lia.
    destruct (Nat.eq_dec i (pred lookback)) as [->|Hne].
    + replace (pred lookback - pred lookback)%nat with 0%nat by lia.
      cbn [lookup list_lookup]. rewrite <- Et. f_equal. lia.
    + rewrite (lookup_ge_None_2 scaled_data) by lia.
      symmetry. apply lookup_ge_None_2. simpl. lia.
Qed.

Lemma forecast_continues_training_witness :
  exists X y window target,
    training_set [Fin 0; Fin (1 # 4); Fin (1 # 2); Fin 1] 2 = inr (X, y) /\
    last X = Some window /\ last y = Some target /\
    last_rows 2 [Fin 0; Fin (1 # 4); Fin (1 # 2); Fin 1]
    = drop 1 window ++ [target].
Proof.
  apply (forecast_continues_training [Fin 0; Fin (1 # 4); Fin (1 # 2); Fin 1] 2).
  simpl. lia.
Defined.

(** X17: training followed by the forecast, for a positive [lookback] as
    the slider gives.  When the data have no more rows than [lookback] it
    raises IndexError before any prediction.  When they have more, it
    returns exactly [prediction_periods] values for at least one period (the
    least the slider gives), and with no period the scaler raises
    ValueError on the empty list of predictions; all this whatever the
    network makes of the training pairs. *)
Theorem train_and_forecast_outcome
    (fit : list (list fval) * list fval -> Model) (scaler : Scaler)
    (scaled_data : list fval) (lookback prediction_periods : nat) :
  (0 < lookback)%nat ->
  ((length scaled_data <= lookback)%nat ->
     train_and_forecast fit scaler scaled_data lookback prediction_periods
     = inl IndexError) /\
  ((lookback < length scaled_data)%nat ->
     ((0 < prediction_periods)%nat ->
        exists out,
          train_and_forecast fit scaler scaled_data lookback prediction_periods
          = inr out /\ length out = prediction_periods) /\
     (prediction_periods = 0%nat ->
        train_and_forecast fit scaler scaled_data lookback prediction_periods
        = inl ValueError)).
Proof.
  intros Hpos. unfold train_and_forecast. split.
  - intros H. rewrite (proj1 (training_set_cases scaled_data lookback) H).
    reflexivity.
  - intros H.
    destruct (proj2 (training_set_cases scaled_data lookback) H)
      as (X & y & Hrun & _).
    rewrite Hrun. cbn [bind]. split.
    + intros Hp.
      destruct (forecast_returns (fit (X, y)) scaler scaled_data lookback
                  prediction_periods) as (preds & Hout & Hl & _); [lia..|].
      rewrite Hout. eexists. split; [reflexivity|].
      rewrite length_map. exact Hl.
    + intros ->. apply forecast_no_period.
Qed.

Lemma train_and_forecast_outcome_witness :
  exists out,
    train_and_forecast (fun _ => sample_model) sample_scaler
      [Fin 0; Fin (1 # 4); Fin (1 # 2); Fin 1] 2 5 = inr out /\
    length out = 5%nat.
Proof.
  apply (train_and_forecast_outcome (fun _ => sample_model) sample_scaler
           [Fin 0; Fin (1 # 4); Fin (1 # 2); Fin 1] 2 5); simpl; lia.
Defined.

End PredictionPageFacts.

(** ** The overall sentiment *)

Module SentimentPageFacts.

Import Rounded RoundedFacts SentimentPages PyFloatFacts SeriesFacts SentimentFacts.
Local Open Scope Q_scope.

Lemma scores_length_pos (p : plan) : (0 < length (scores p))%nat.
Proof.
  induction p as [x | a IHa b IHb]; simpl; [lia|].
  rewrite length_app. lia.
Qed.

Lemma count_Add (a b : plan) : count (Add a b) == count a + count b.
Proof.
  unfold count. cbn [scores]. rewrite length_app, Nat2Z.inj_add, inject_Z_plus.
  reflexivity.
Qed.

Lemma count_pos (p : plan) : 1 <= count p.
Proof.
  unfold count. pose proof (scores_length_pos p) as H.
  change 1 with (inject_Z 1). rewrite <- Zle_Qle. lia.
Qed.

Lemma in_turn_scores (l : list fval) : l <> [] -> scores (in_turn l) = l.
Proof.
  destruct l as [|x rest]; [congruence|]. intros _. unfold in_turn.
  assert (G : forall (rest : list fval) (p : plan),
            scores (foldl (fun p y => Add p (One y)) p rest) = scores p ++ rest).
  { clear. induction rest as [|y rest IH]; intros p; simpl.
    - rewrite app_nil_r. reflexivity.
    - rewrite IH. simpl. rewrite <- app_assoc. reflexivity. }
  rewrite G. reflexivity.
Qed.

Lemma in_turn_follows : follows in_turn.
Proof. intros l Hl. rewrite (in_turn_scores l Hl). reflexivity. Qed.

Section Accurate.

Variable rnd : Q -> Q.
Hypothesis rnd_accurate : accurate rnd.

(** Scores that are all at least [lo >= 0]: the rounded total keeps
    [lo] per score, up to one rounding per score. *)
Lemma total_lower (lo : Q) (p : plan) :
  0 <= lo ->
  Forall (fun x => exists q, x = Fin q /\ lo <= q) (scores p) ->
  exists s, total rnd p = Fin s /\
            lo * count p * down (length (scores p)) <= s.
Proof.
  intros Hlo. induction p as [x | a IHa b IHb]; intros Hall.
  - cbn [scores] in Hall. apply Forall_cons in Hall as [(q & -> & Hq) _].
    exists q. split; [reflexivity|].
    unfold count. cbn [scores length]. change (inject_Z (Z.of_nat 1)) with 1.
    unfold down, pow, eps. lra.
  - cbn [scores] in Hall. apply Forall_app in Hall as [Ha Hb].
    destruct (IHa Ha) as (sa & Ea & La). destruct (IHb Hb) as (sb & Eb & Lb).
    cbn [total]. rewrite Ea, Eb. unfold add. cbn [fadd round].
    eexists. split; [reflexivity|].
    rewrite count_Add. cbn [scores]. rewrite length_app.
    pose proof (scores_length_pos a) as Pa.
    pose proof (scores_length_pos b) as Pb.
    pose proof (count_pos a) as Ca. pose proof (count_pos b) as Cb.
    set (ka := length (scores a)) in *. set (kb := length (scores b)) in *.
    replace (ka + kb)%nat with (S (ka + pred kb)) by lia.
    rewrite down_S.
    pose proof (down_antitone ka (ka + pred kb) ltac:(lia)) as Da.
    pose proof (down_antitone kb (ka + pred kb) ltac:(lia)) as Db.
    pose proof (down_range (ka + pred kb)) as Dm.
    set (dm := down (ka + pred kb)) in *.
    set (da := down ka) in *. set (db := down kb) in *.
    assert (Na : 0 <= lo * count a) by (apply Qmult_le_0_compat; lra).
    assert (Nb : 0 <= lo * count b) by (apply Qmult_le_0_compat; lra).
    set (A := lo * count a) in *. set (B := lo * count b) in *.
    assert (Ma : A * dm <= A * da).
    { rewrite !(Qmult_comm A). apply Qmult_le_compat_r; assumption. }
    assert (Mb : B * dm <= B * db).
    { rewrite !(Qmult_comm B). apply Qmult_le_compat_r; assumption. }
    assert (Pa' : 0 <= A * dm) by (apply Qmult_le_0_compat; lra).
    assert (Pb' : 0 <= B * dm) by (apply Qmult_le_0_compat; lra).
    assert (Hsum : 0 <= sa + sb) by lra.
    pose proof (rnd_nonneg_lower rnd rnd_accurate (sa + sb) Hsum) as R.
    assert (E : lo * (count a + count b) * ((1 - eps) * dm)
                == (1 - eps) * (A * dm + B * dm)) by (unfold A, B; ring).
    rewrite E. unfold eps in *.
    set (X := A * dm) in *. set (Y := B * dm) in *.
    set (X' := A * da) in *. set (Y' := B * db) in *. lra.
Qed.

(** Scores that are all at most [hi <= 0]. *)
Lemma total_upper (hi : Q) (p : plan) :
  hi <= 0 ->
  Forall (fun x => exists q, x = Fin q /\ q <= hi) (scores p) ->
  exists s, total rnd p = Fin s /\
            s <= hi * count p * down (length (scores p)).
Proof.
  intros Hhi. induction p as [x | a IHa b IHb]; intros Hall.
  - cbn [scores] in Hall. apply Forall_cons in Hall as [(q & -> & Hq) _].
    exists q. split; [reflexivity|].
    unfold count. cbn [scores length]. change (inject_Z (Z.of_nat 1)) with 1.
    unfold down, pow, eps. lra.
  - cbn [scores] in Hall. apply Forall_app in Hall as [Ha Hb].
    destruct (IHa Ha) as (sa & Ea & La). destruct (IHb Hb) as (sb & Eb & Lb).
    cbn [total]. rewrite Ea, Eb. unfold add. cbn [fadd round].
    eexists. split; [reflexivity|].
    rewrite count_Add. cbn [scores]. rewrite length_app.
    pose proof (scores_length_pos a) as Pa.
    pose proof (scores_length_pos b) as Pb.
    pose proof (count_pos a) as Ca. pose proof (count_pos b) as Cb.
    set (ka := length (scores a)) in *. set (kb := length (scores b)) in *.
    replace (ka + kb)%nat with (S (ka + pred kb)) by lia.
    rewrite down_S.
    pose proof (down_antitone ka (ka + pred kb) ltac:(lia)) as Da.
    pose proof (down_antitone kb (ka + pred kb) ltac:(lia)) as Db.
    pose proof (down_range (ka + pred kb)) as Dm.
    set (dm := down (ka + pred kb)) in *.
    set (da := down ka) in *. set (db := down kb) in *.
    assert (Na : 0 <= - hi * count a) by (apply Qmult_le_0_compat; lra).
    assert (Nb : 0 <= - hi * count b) by (apply Qmult_le_0_compat; lra).
    assert (EA : hi * count a * da == - (- hi * count a * da)) by ring.
    assert (EB : hi * count b * db == - (- hi * count b * db)) by ring.
    rewrite EA in La. rewrite EB in Lb.
    set (A := - hi * count a) in *. set (B := - hi * count b) in *.
    assert (Ma : A * dm <= A * da).
    { rewrite !(Qmult_comm A). apply Qmult_le_compat_r; assumption. }
    assert (Mb : B * dm <= B * db).
    { rewrite !(Qmult_comm B). apply Qmult_le_compat_r; assumption. }
    assert (Pa' : 0 <= A * dm) by (apply Qmult_le_0_compat; lra).
    assert (Pb' : 0 <= B * dm) by (apply Qmult_le_0_compat; lra).
    assert (Hsum : sa + sb <= 0) by lra.
    pose proof (rnd_nonpos_upper rnd rnd_accurate (sa + sb) Hsum) as R.
    assert (E : hi * (count a + count b) * ((1 - eps) * dm)
                == - ((1 - eps) * (A * dm + B * dm))) by (unfold A, B; ring).
    rewrite E. unfold eps in *.
    set (X := A * dm) in *. set (Y := B * dm) in *.
    set (X' := A * da) in *. set (Y' := B * db) in *. lra.
Qed.

(** Scores within [-a, a]: the rounded total stays within [a] per score,
    up to one rounding per score. *)
Lemma total_abs (a : Q) (p : plan) :
  0 <= a ->
  Forall (fun x => exists q, x = Fin q /\ Qabs q <= a) (scores p) ->
  exists s, total rnd p = Fin s /\
            Qabs s <= a * count p * up (length (scores p)).
Proof.
  intros Ha0. induction p as [x | l IHl r IHr]; intros Hall.
  - cbn [scores] in Hall. apply Forall_cons in Hall as [(q & -> & Hq) _].
    exists q. split; [reflexivity|].
    unfold count. cbn [scores length]. change (inject_Z (Z.of_nat 1)) with 1.
    unfold up, pow, eps. lra.
  - cbn [scores] in Hall. apply Forall_app in Hall as [Hl Hr].
    destruct (IHl Hl) as (sl & El & Ll). destruct (IHr Hr) as (sr & Er & Lr).
    cbn [total]. rewrite El, Er. unfold add. cbn [fadd round].
    eexists. split; [reflexivity|].
    rewrite count_Add. cbn [scores]. rewrite length_app.
    pose proof (scores_length_pos l) as Pl.
    pose proof (scores_length_pos r) as Pr.
    pose proof (count_pos l) as Cl. pose proof (count_pos r) as Cr.
    set (kl := length (scores l)) in *. set (kr := length (scores r)) in *.
    replace (kl + kr)%nat with (S (kl + pred kr)) by lia.
    rewrite up_S.
    pose proof (up_monotone kl (kl + pred kr) ltac:(lia)) as Ul.
    pose proof (up_monotone kr (kl + pred kr) ltac:(lia)) as Ur.
    pose proof (up_range (kl + pred kr)) as Um.
    set (um := up (kl + pred kr)) in *.
    set (ul := up kl) in *. set (ur := up kr) in *.
    assert (Nl : 0 <= a * count l) by (apply Qmult_le_0_compat; lra).
    assert (Nr : 0 <= a * count r) by (apply Qmult_le_0_compat; lra).
    set (A := a * count l) in *. set (B := a * count r) in *.
    assert (Ml : A * ul <= A * um).
    { rewrite !(Qmult_comm A). apply Qmult_le_compat_r; assumption. }
    assert (Mr : B * ur <= B * um).
    { rewrite !(Qmult_comm B). apply Qmult_le_compat_r; assumption. }
    pose proof (rnd_abs_upper rnd rnd_accurate (sl + sr)) as R.
    pose proof (Qabs_triangle sl sr) as T.
    pose proof (Qabs_nonneg (sl + sr)) as N.
    assert (E : a * (count l + count r) * ((1 + eps) * um)
                == (1 + eps) * (A * um + B * um)) by (unfold A, B; ring).
    rewrite E. unfold eps in *.
    set (X := A * um) in *. set (Y := B * um) in *.
    set (X' := A * ul) in *. set (Y' := B * ur) in *.
    set (S1 := Qabs sl) in *. set (S2 := Qabs sr) in *.
    set (S3 := Qabs (sl + sr)) in *. set (S4 := Qabs (rnd (sl + sr))) in *.
    lra.
Qed.

(** The mean of a list that is not empty, from its rounded total. *)
Lemma mean_of_total (order : list fval -> plan) (l : list fval) (s : Q) :
  l <> [] -> total rnd (order l) = Fin s ->
  mean rnd order l = Fin (rnd (s / inject_Z (Z.of_nat (length l)))).
Proof.
  intros Hne Hs. unfold mean, div. rewrite Hs.
  rewrite fdiv_of_nat by (destruct l; [congruence | simpl; lia]).
  reflexivity.
Qed.

Lemma scale_nonneg (b d : Q) : 0 < d -> 0 <= b * d -> 0 <= b.
Proof.
  intros Hd H. destruct (Qlt_le_dec b 0) as [Hb|Hb]; [|exact Hb].
  assert (H' : b * d < 0 * d) by (apply Qmult_lt_compat_r; assumption).
  lra.
Qed.

Lemma scale_nonpos (b d : Q) : 0 < d -> b * d <= 0 -> b <= 0.
Proof.
  intros Hd H. destruct (Qlt_le_dec 0 b) as [Hb|Hb]; [|exact Hb].
  assert (H' : 0 * d < b * d) by (apply Qmult_lt_compat_r; assumption).
  lra.
Qed.

(** The mean of scores that are all at least [b], all at most [b], or all
    within [-b, b]. *)
Lemma mean_lower (order : list fval -> plan) (l : list fval) (b : Q) :
  follows order -> l <> [] -> 0 <= b ->
  Forall (fun x => exists q, x = Fin q /\ b <= q) l ->
  exists m, mean rnd order l = Fin m /\ b * down (S (length l)) <= m.
Proof.
  intros Hord Hne Hb Hall.
  pose proof (Hord l Hne) as Hperm.
  rewrite <- Hperm in Hall.
  destruct (total_lower b (order l) Hb Hall) as (s & Hs & Ls).
  rewrite (mean_of_total order l s Hne Hs).
  eexists. split; [reflexivity|].
  unfold count in Ls. rewrite (Permutation_length Hperm) in Ls.
  assert (HN : 0 < inject_Z (Z.of_nat (length l)))
    by (apply inject_nat_pos; destruct l; [congruence | simpl; lia]).
  pose proof (down_range (length l)) as Dn.
  set (N := inject_Z (Z.of_nat (length l))) in *.
  set (d := down (length l)) in *.
  assert (Hq : b * d <= s / N).
  { apply Qle_shift_div_l; [exact HN|].
    assert (E : b * d * N == b * N * d) by ring. rewrite E. exact Ls. }
  assert (Hbd : 0 <= b * d) by (apply Qmult_le_0_compat; lra).
  pose proof (rnd_nonneg_lower rnd rnd_accurate (s / N) ltac:(lra)) as R.
  rewrite down_S. fold d.
  assert (E : b * ((1 - eps) * d) == (1 - eps) * (b * d)) by ring.
  rewrite E. unfold eps in *. set (X := b * d) in *. lra.
Qed.

Lemma mean_upper (order : list fval -> plan) (l : list fval) (b : Q) :
  follows order -> l <> [] -> b <= 0 ->
  Forall (fun x => exists q, x = Fin q /\ q <= b) l ->
  exists m, mean rnd order l = Fin m /\ m <= b * down (S (length l)).
Proof.
  intros Hord Hne Hb Hall.
  pose proof (Hord l Hne) as Hperm.
  rewrite <- Hperm in Hall.
  destruct (total_upper b (order l) Hb Hall) as (s & Hs & Ls).
  rewrite (mean_of_total order l s Hne Hs).
  eexists. split; [reflexivity|].
  unfold count in Ls. rewrite (Permutation_length Hperm) in Ls.
  assert (HN : 0 < inject_Z (Z.of_nat (length l)))
    by (apply inject_nat_pos; destruct l; [congruence | simpl; lia]).
  pose proof (down_range (length l)) as Dn.
  set (N := inject_Z (Z.of_nat (length l))) in *.
  set (d := down (length l)) in *.
  assert (Hq : s / N <= b * d).
  { apply Qle_shift_div_r; [exact HN|].
    assert (E : b * d * N == b * N * d) by ring. rewrite E. exact Ls. }
  assert (Hbd : 0 <= - b * d) by (apply Qmult_le_0_compat; lra).
  assert (Ebd : - b * d == - (b * d)) by ring. rewrite Ebd in Hbd.
  pose proof (rnd_nonpos_upper rnd rnd_accurate (s / N) ltac:(lra)) as R.
  rewrite down_S. fold d.
  assert (E : b * ((1 - eps) * d) == (1 - eps) * (b * d)) by ring.
  rewrite E. unfold eps in *. set (X := b * d) in *. lra.
Qed.

Lemma mean_abs (order : list fval -> plan) (l : list fval) (b : Q) :
  follows order -> l <> [] -> 0 <= b ->
  Forall (fun x => exists q, x = Fin q /\ Qabs q <= b) l ->
  exists m, mean rnd order l = Fin m /\ Qabs m <= b * up (S (length l)).
Proof.
  intros Hord Hne Hb Hall.
  pose proof (Hord l Hne) as Hperm.
  rewrite <- Hperm in Hall.
  destruct (total_abs b (order l) Hb Hall) as (s & Hs & Ls).
  rewrite (mean_of_total order l s Hne Hs).
  eexists. split; [reflexivity|].
  unfold count in Ls. rewrite (Permutation_length Hperm) in Ls.
  assert (HN : 0 < inject_Z (Z.of_nat (length l)))
    by (apply inject_nat_pos; destruct l; [congruence | simpl; lia]).
  pose proof (up_range (length l)) as Un.
  set (N := inject_Z (Z.of_nat (length l))) in *.
  set (u := up (length l)) in *.
  assert (Hq : Qabs (s / N) <= b * u).
  { unfold Qdiv. rewrite Qabs_Qmult.
    rewrite (Qabs_pos (/ N)) by (apply Qlt_le_weak, Qinv_lt_0_compat; exact HN).
    apply Qle_shift_div_r; [exact HN|].
    assert (E : b * u * N == b * N * u) by ring. rewrite E. exact Ls. }
  pose proof (rnd_abs_upper rnd rnd_accurate (s / N)) as R.
  rewrite up_S. fold u.
  assert (E : b * ((1 + eps) * u) == (1 + eps) * (b * u)) by ring.
  rewrite E. unfold eps in *. set (X := b * u) in *.
  set (Y := Qabs (s / N)) in *. set (Z := Qabs (rnd (s / N))) in *. lra.
Qed.

End Accurate.

(** The three regions of the classifier. *)
Lemma classify_regions (q : Q) :
  (5 # 100 <= q /\ Sentimental.classify_sentiment (Fin q) = bullish)
  \/ (q <= - (5 # 100) /\ Sentimental.classify_sentiment (Fin q) = bearish)
  \/ ((- (5 # 100) < q /\ q < 5 # 100) /\
      Sentimental.classify_sentiment (Fin q) = neutral).
Proof.
  rewrite classify_finite.
  destruct (Qle_bool (5 # 100) q) eqn:E1.
  - left. apply Qle_bool_iff in E1. split; [exact E1 | reflexivity].
  - apply Qle_bool_false in E1.
    destruct (Qle_bool q (- (5 # 100))) eqn:E2.
    + right. left. apply Qle_bool_iff in E2. split; [exact E2 | reflexivity].
    + apply Qle_bool_false in E2. right. right. split; [lra | reflexivity].
Qed.

Lemma classify_bullish (q : Q) :
  5 # 100 <= q -> Sentimental.classify_sentiment (Fin q) = bullish.
Proof.
  intros H. destruct (classify_regions q) as [[_ C] | [[R _] | [R _]]];
    [exact C | lra | lra].
Qed.

Lemma classify_bearish (q : Q) :
  q <= - (5 # 100) -> Sentimental.classify_sentiment (Fin q) = bearish.
Proof.
  intros H. destruct (classify_regions q) as [[R _] | [[_ C] | [R _]]];
    [lra | exact C | lra].
Qed.

Lemma classify_neutral (q : Q) :
  Qabs q < 5 # 100 -> Sentimental.classify_sentiment (Fin q) = neutral.
Proof.
  intros H.
  assert (H' : - (5 # 100) < q < 5 # 100).
  { pose proof (Qle_Qabs q) as H1. pose proof (Qle_Qabs (- q)) as H2.
    rewrite Qabs_opp in H2. split; lra. }
  destruct (classify_regions q) as [[R _] | [[R _] | [_ C]]];
    [lra | lra | exact C].
Qed.

Lemma per_article_all (analyze : string -> fval) (titles : list string)
    (P : Q -> Prop) (label : string * string * string) :
  (forall q, P q -> Sentimental.classify_sentiment (Fin q) = label) ->
  Forall (fun t => exists q, analyze t = Fin q /\ P q) titles ->
  Forall (fun l => l = label) (per_article analyze titles).
Proof.
  intros HP Hall. unfold per_article. apply Forall_map.
  eapply Forall_impl; [exact Hall|].
  intros t (q & -> & Hq). apply HP. exact Hq.
Qed.

Lemma scores_of_titles (analyze : string -> fval) (titles : list string)
    (P : Q -> Prop) :
  Forall (fun t => exists q, analyze t = Fin q /\ P q) titles ->
  Forall (fun x => exists q, x = Fin q /\ P q) (map analyze titles).
Proof. intros H. apply Forall_map. exact H. Qed.

(** X18: on the sentiment page the overall label agrees with unanimous
    articles that clear their threshold by more than rounding can consume.
    For every accurate rounding and every order in which [np.mean] adds,
    with [n] articles: when every title scores at least [b] and [b] is
    still 0.05 after [n + 1] roundings downwards, the overall label and the
    label of every article are Bullish; when every title scores at most [b]
    and [b] is still -0.05 after [n + 1] roundings, both are Bearish; when
    every score is within [-b, b] and [b] stays below 0.05 after [n + 1]
    roundings upwards, both are Neutral. *)
Theorem unanimous_overall (rnd : Q -> Q) (order : list fval -> plan)
    (analyze : string -> fval) (titles : list string) (b : Q) :
  accurate rnd -> follows order -> titles <> [] ->
  let n := length titles in
  (5 # 100 <= b * down (S n) ->
   Forall (fun t => exists q, analyze t = Fin q /\ b <= q) titles ->
   overall rnd order analyze titles = Some bullish /\
   Forall (fun l => l = bullish) (per_article analyze titles)) /\
  (b * down (S n) <= - (5 # 100) ->
   Forall (fun t => exists q, analyze t = Fin q /\ q <= b) titles ->
   overall rnd order analyze titles = Some bearish /\
   Forall (fun l => l = bearish) (per_article analyze titles)) /\
  (0 <= b -> b * up (S n) < 5 # 100 ->
   Forall (fun t => exists q, analyze t = Fin q /\ Qabs q <= b) titles ->
   overall rnd order analyze titles = Some neutral /\
   Forall (fun l => l = neutral) (per_article analyze titles)).
Proof.
  intros Hacc Hord Hne. cbv zeta.
  assert (Hne' : map analyze titles <> [])
    by (destruct titles; [congruence | discriminate]).
  assert (Hov : overall rnd order analyze titles
                = Some (Sentimental.classify_sentiment
                          (mean rnd order (map analyze titles))))
    by (unfold overall; destruct titles; [congruence | reflexivity]).
  pose proof (down_range (S (length titles))) as Dn.
  pose proof (up_range (S (length titles))) as Un.
  rewrite Hov.
  split; [|split].
  - intros Hb Hall.
    assert (Hb0 : 0 <= b) by (apply (scale_nonneg b (down (S (length titles)))); lra).
    destruct (mean_lower rnd Hacc order _ b Hord Hne' Hb0
                (scores_of_titles _ _ _ Hall)) as (m & -> & Hm).
    rewrite length_map in Hm.
    split; [rewrite classify_bullish by lra; reflexivity|].
    apply (per_article_all analyze titles (fun q => b <= q)); [|exact Hall].
    intros q Hq. apply classify_bullish.
    assert (Hd : b * down (S (length titles)) <= b * 1).
    { rewrite !(Qmult_comm b). apply Qmult_le_compat_r; lra. }
    lra.
  - intros Hb Hall.
    assert (Hb0 : b <= 0) by (apply (scale_nonpos b (down (S (length titles)))); lra).
    destruct (mean_upper rnd Hacc order _ b Hord Hne' Hb0
                (scores_of_titles _ _ _ Hall)) as (m & -> & Hm).
    rewrite length_map in Hm.
    split; [rewrite classify_bearish by lra; reflexivity|].
    apply (per_article_all analyze titles (fun q => q <= b)); [|exact Hall].
    intros q Hq. apply classify_bearish.
    assert (Hd : (- b) * down (S (length titles)) <= (- b) * 1).
    { rewrite !(Qmult_comm (- b)). apply Qmult_le_compat_r; lra. }
    assert (E : - b * down (S (length titles))
                == - (b * down (S (length titles)))) by ring.
    rewrite E in Hd. lra.
  - intros Hb0 Hb Hall.
    destruct (mean_abs rnd Hacc order _ b Hord Hne' Hb0
                (scores_of_titles _ _ _ Hall)) as (m & -> & Hm).
    rewrite length_map in Hm.
    split; [rewrite classify_neutral by lra; reflexivity|].
    apply (per_article_all analyze titles (fun q => Qabs q <= b)); [|exact Hall].
    intros q Hq. apply classify_neutral.
    assert (Hd : b * 1 <= b * up (S (length titles))).
    { rewrite !(Qmult_comm b). apply Qmult_le_compat_r; lra. }
    lra.
Qed.

Lemma unanimous_overall_witness :
  overall (fun x => x) in_turn sample_scorer ["surges"; "record profit"]
  = Some bullish /\
  Forall (fun l => l = bullish)
         (per_article sample_scorer ["surges"; "record profit"]).
Proof.
  apply (unanimous_overall (fun x => x) in_turn sample_scorer
           ["surges"; "record profit"] (4 # 10)).
  - exact exact_accurate.
  - exact in_turn_follows.
  - discriminate.
  - vm_compute. discriminate.
  - repeat constructor; eexists; (split; [reflexivity | vm_compute; discriminate]).
Defined.

(** On the threshold itself rounding decides: with six titles at 0.05,
    every article is Bullish, and the overall label is Bullish under exact
    arithmetic and Neutral under the chopping rounding; in binary64 the
    mean of six times 0.05 is below 0.05. *)
Example overall_on_threshold :
  let titles := ["a"; "b"; "c"; "d"; "e"; "f"]%string in
  Forall (fun l => l = bullish) (per_article threshold_scorer titles) /\
  overall (fun x => x) in_turn threshold_scorer titles = Some bullish /\
  overall chop in_turn threshold_scorer titles = Some neutral.
Proof. cbv zeta. split; [repeat constructor | split; reflexivity]. Qed.

#[warnings="-inexact-float"] Example mean_of_six_binary64 :
  PrimFloat.ltb (Binary64.mean_of_six 0.05) 0.05 = true.
Proof. reflexivity. Qed.

(** Without unanimity the overall label may be shared by no article. *)
Example overall_unlike_any_article :
  overall (fun x => x) in_turn
          (fun t => if String.eqb t "up" then Fin (4 # 100) else Fin (- (4 # 100)))
          ["up"; "down"]
  = Some neutral /\
  overall (fun x => x) in_turn sample_scorer
          ["surges"; "other"; "other"; "other"; "other"; "other"; "other";
           "other"; "other"; "other"; "other"; "other"]
  = Some bullish.
Proof. split; reflexivity. Qed.

End SentimentPageFacts.


(** ** The stock search *)

Module SearchFacts.

Import Search.

Lemma equity_pairs_complete (quotes : list (gmap string pyval)) :
  Forall (fun q => is_equity q = true -> is_Some (q !! "symbol")) quotes ->
  equity_pairs quotes
  = inr (map (fun q => (symbol_of q, name_of q)) (List.filter is_equity quotes)).
Proof.
  induction 1 as [|q quotes Hq _ IH]; [reflexivity|].
  cbn [equity_pairs List.filter].
  destruct (is_equity q) eqn:E; [|exact IH].
  destruct (Hq eq_refl) as [v Hv].
  unfold getitem. rewrite Hv, IH. cbn [bind ret map].
  unfold symbol_of. rewrite Hv. reflexivity.
Qed.

Lemma equity_pairs_missing (quotes : list (gmap string pyval)) :
  Exists (fun q => is_equity q = true /\ q !! "symbol" = None) quotes ->
  equity_pairs quotes = inl (KeyError "symbol").
Proof.
  induction 1 as [q quotes [E Hq] | q quotes _ IH].
  - cbn [equity_pairs]. unfold getitem. rewrite E, Hq. reflexivity.
  - cbn [equity_pairs]. rewrite IH.
    destruct (is_equity q); [|reflexivity].
    unfold getitem. destruct (q !! "symbol"); reflexivity.
Qed.

(** X19: [search_stocks] returns the EQUITY quotes only, in the order of
    the answer, each with its symbol and its long name, else its short
    name, else the empty string; quotes of another type are dropped even
    when they are incomplete; but a single EQUITY quote without a symbol
    makes the whole result empty, with an error shown. *)
Theorem search_stocks_result (S : Service) (query : string)
    (quotes : list (gmap string pyval)) :
  search S query = inr (Some quotes) ->
  (Forall (fun q => is_equity q = true -> is_Some (q !! "symbol")) quotes ->
     search_stocks S query
     = (map (fun q => (symbol_of q, name_of q)) (List.filter is_equity quotes),
        [])) /\
  (Exists (fun q => is_equity q = true /\ q !! "symbol" = None) quotes ->
     search_stocks S query = ([], [ErrorSearching "'symbol'"])).
Proof.
  intros Hs. unfold search_stocks. rewrite Hs.
  destruct quotes as [|q rest].
  - split; [reflexivity|]. intros H. inversion H.
  - split; intros H.
    + rewrite (equity_pairs_complete _ H). reflexivity.
    + rewrite (equity_pairs_missing _ H). reflexivity.
Qed.

Lemma search_stocks_result_witness :
  search_stocks {| search := fun _ => inr (Some sample_quotes) |} "apple"
  = ([(VStr "AAPL", VStr "Apple"); (VStr "APLE", VStr "")], []).
Proof.
  apply (search_stocks_result {| search := fun _ => inr (Some sample_quotes) |}
           "apple" sample_quotes).
  - reflexivity.
  - repeat (apply Forall_cons; split;
            [intros H; first [eexists; reflexivity | discriminate H]|]).
    apply List.Forall_nil.
Defined.

End SearchFacts.

(** ** Support, resistance and the RSI signal *)

Module LevelFacts.

Import Series StockAnalyzer TechnicalSpec PyFloatFacts SeriesFacts RsiFacts.
Local Open Scope Q_scope.

Lemma dropna_Fin (qs : list Q) : dropna (map Fin qs) = map Fin qs.
Proof.
  unfold dropna. induction qs as [|q qs IH]; [reflexivity|].
  cbn [map List.filter is_nan negb]. rewrite IH. reflexivity.
Qed.

(** The running minimum ends on a value of the list, below all of them. *)
Lemma foldl_fmin2 (qs : list Q) (x : Q) :
  exists m, foldl fmin2 (Fin x) (map Fin qs) = Fin m /\
            m <= x /\ Forall (fun q => m <= q) qs /\ (m = x \/ m ∈ qs).
Proof.
  revert x. induction qs as [|q qs IH]; intros x.
  - exists x. split; [reflexivity|]. split; [lra|]. split; [constructor | left; reflexivity].
  - cbn [map foldl]. unfold fmin2 at 2. cbn [fltb].
    destruct (Qltb q x) eqn:E.
    + apply Qltb_lt in E. destruct (IH q) as (m & Hm & Hle & Hall & Hin).
      exists m. split; [exact Hm|]. split; [lra|].
      split; [constructor; assumption|].
      right. destruct Hin as [-> | Hin]; [left | right; exact Hin].
    + apply Qltb_ge in E. destruct (IH x) as (m & Hm & Hle & Hall & Hin).
      exists m. split; [exact Hm|]. split; [exact Hle|].
      split; [constructor; [lra | assumption]|].
      destruct Hin as [-> | Hin]; [left; reflexivity | right; right; exact Hin].
Qed.

Lemma foldl_fmax2 (qs : list Q) (x : Q) :
  exists m, foldl fmax2 (Fin x) (map Fin qs) = Fin m /\
            x <= m /\ Forall (fun q => q <= m) qs /\ (m = x \/ m ∈ qs).
Proof.
  revert x. induction qs as [|q qs IH]; intros x.
  - exists x. split; [reflexivity|]. split; [lra|]. split; [constructor | left; reflexivity].
  - cbn [map foldl]. unfold fmax2 at 2. cbn [fltb].
    destruct (Qltb x q) eqn:E.
    + apply Qltb_lt in E. destruct (IH q) as (m & Hm & Hle & Hall & Hin).
      exists m. split; [exact Hm|]. split; [lra|].
      split; [constructor; assumption|].
      right. destruct Hin as [-> | Hin]; [left | right; exact Hin].
    + apply Qltb_ge in E. destruct (IH x) as (m & Hm & Hle & Hall & Hin).
      exists m. split; [exact Hm|]. split; [exact Hle|].
      split; [constructor; [lra | assumption]|].
      destruct Hin as [-> | Hin]; [left; reflexivity | right; right; exact Hin].
Qed.

Lemma min_Fin (qs : list Q) :
  qs <> [] ->
  exists m, Series.min (map Fin qs) = Fin m /\
            Forall (fun q => m <= q) qs /\ m ∈ qs.
Proof.
  intros Hne. unfold Series.min. rewrite dropna_Fin.
  destruct qs as [|x qs]; [congruence|]. cbn [map].
  destruct (foldl_fmin2 qs x) as (m & Hm & Hle & Hall & Hin).
  exists m. split; [exact Hm|]. split; [constructor; assumption|].
  destruct Hin as [-> | Hin]; [left | right; exact Hin].
Qed.

Lemma max_Fin (qs : list Q) :
  qs <> [] ->
  exists m, Series.max (map Fin qs) = Fin m /\
            Forall (fun q => q <= m) qs /\ m ∈ qs.
Proof.
  intros Hne. unfold Series.max. rewrite dropna_Fin.
  destruct qs as [|x qs]; [congruence|]. cbn [map].
  destruct (foldl_fmax2 qs x) as (m & Hm & Hle & Hall & Hin).
  exists m. split; [exact Hm|]. split; [constructor; assumption|].
  destruct Hin as [-> | Hin]; [left | right; exact Hin].
Qed.

Lemma tail_Fin (n : nat) (qs : list Q) :
  Series.tail n (map Fin qs) = map Fin (drop (length qs - n) qs).
Proof. unfold Series.tail. rewrite length_map, skipn_map. reflexivity. Qed.

(** X20: on a table with at least one row whose lows and highs are finite
    with low <= high in every row, the support level is the least low and
    the resistance level the greatest high of the most recent 20 rows
    (of all rows when there are fewer), and the support level is not above
    the resistance level. *)
Theorem support_below_resistance (df : frame) (lows highs : list Q) :
  df <> [] ->
  map Low df = map Fin lows ->
  map High df = map Fin highs ->
  Forall2 Qle lows highs ->
  exists s r,
    _find_support df = Fin s /\ _find_resistance df = Fin r /\
    s <= r /\
    s ∈ drop (length lows - 20) lows /\
    r ∈ drop (length highs - 20) highs /\
    Forall (fun q => s <= q) (drop (length lows - 20) lows) /\
    Forall (fun q => q <= r) (drop (length highs - 20) highs).
Proof.
  intros Hne Hlow Hhigh Hle.
  assert (Hlen : length lows = length df)
    by (apply (f_equal length) in Hlow; rewrite !length_map in Hlow; congruence).
  assert (Hlen2 : length highs = length lows)
    by (symmetry; apply (Forall2_length _ _ _ Hle)).
  assert (Hpos : (0 < length df)%nat)
    by (destruct df; [congruence | simpl; lia]).
  unfold _find_support, _find_resistance. rewrite Hlow, Hhigh, !tail_Fin.
  set (k := (length lows - 20)%nat). rewrite Hlen2. fold k.
  assert (Hk : (k < length lows)%nat) by (unfold k; lia).
  destruct (min_Fin (drop k lows)) as (s & Hs & Hsall & Hsin).
  { intros E. apply (f_equal length) in E. rewrite length_drop in E.
    simpl in E. lia. }
  destruct (max_Fin (drop k highs)) as (r & Hr & Hrall & Hrin).
  { intros E. apply (f_equal length) in E. rewrite length_drop in E.
    simpl in E. lia. }
  exists s, r. repeat split; try assumption.
  destruct (lows !! k) as [lo|] eqn:Elo; [|apply lookup_ge_None in Elo; lia].
  destruct (highs !! k) as [hi|] eqn:Ehi; [|apply lookup_ge_None in Ehi; lia].
  pose proof (Forall2_lookup_lr _ _ _ _ _ _ Hle Elo Ehi) as Hlh.
  assert (H1 : s <= lo).
  { rewrite Forall_forall in Hsall. apply Hsall.
    apply list_elem_of_lookup. exists 0%nat. rewrite lookup_drop.
    rewrite Nat.add_0_r. exact Elo. }
  assert (H2 : hi <= r).
  { rewrite Forall_forall in Hrall. apply Hrall.
    apply list_elem_of_lookup. exists 0%nat. rewrite lookup_drop.
    rewrite Nat.add_0_r. exact Ehi. }
  lra.
Qed.

Lemma support_below_resistance_witness :
  exists s r,
    _find_support (frame_of_closes [10; 11; 12]) = Fin s /\
    _find_resistance (frame_of_closes [10; 11; 12]) = Fin r /\
    s <= r /\
    s ∈ drop (length [10; 11; 12] - 20) [10; 11; 12] /\
    r ∈ drop (length [10; 11; 12] - 20) [10; 11; 12] /\
    Forall (fun q => s <= q) (drop (length [10; 11; 12] - 20) [10; 11; 12]) /\
    Forall (fun q => q <= r) (drop (length [10; 11; 12] - 20) [10; 11; 12]).
Proof.
  apply (support_below_resistance (frame_of_closes [10; 11; 12])
           [10; 11; 12] [10; 11; 12]).
  - discriminate.
  - reflexivity.
  - reflexivity.
  - repeat constructor; lra.
Defined.

(** The gains of a window without a positive delta add up to zero. *)
Lemma gain_sum_zero (W : list fval) :
  Forall delta_cell W -> Forall (fun d => ~ positive_delta d) W ->
  exists G, fsum (map gain_cell W) = Fin G /\ G == 0.
Proof.
  induction 1 as [|d W Hd _ IH]; intros Hnp.
  - exists 0. split; reflexivity.
  - apply Forall_cons in Hnp as [Hd' Hnp].
    destruct (IH Hnp) as (G & HG & HG0).
    unfold fsum in *. cbn [map foldr]. rewrite HG.
    destruct d as [q| | |]; try contradiction.
    + rewrite gain_cell_Fin. cbn [fadd].
      destruct (Qltb 0 q) eqn:E.
      * apply Qltb_lt in E. simpl in Hd'. contradiction.
      * eexists. split; [reflexivity|]. lra.
    + exists (0 + G). split; [reflexivity|]. lra.
Qed.

(** Without gains the index is zero. *)
Lemma rsi_of_no_gain (g l : Q) :
  g == 0 -> 0 < l ->
  exists r, rsi_of (Fin g) (Fin l) = Fin r /\ r == 0.
Proof.
  intros Hg Hl. unfold rsi_of, of_Z, fsub. cbn [fdiv].
  pose proof Hl as Hc. apply Qgt_alt in Hc. rewrite Hc. cbn [fadd].
  change (inject_Z 1) with 1. change (inject_Z 100) with 100.
  assert (Hrs : g / l == 0) by (rewrite Hg; field; lra).
  assert (Hden : 0 < 1 + g / l) by lra.
  cbn [fdiv]. pose proof Hden as Hc2. apply Qgt_alt in Hc2. rewrite Hc2.
  cbn [fneg fadd]. eexists. split; [reflexivity|].
  rewrite Hrs. field.
Qed.

(** The signal that [analyze_technicals] derives from the latest cell of
    the index. *)
Lemma analyze_technicals_rsi_signal (self : t) (df : frame) (closes : list Q) :
  data self = Some df -> map Close df = map Fin closes -> closes <> [] ->
  exists signals r,
    analyze_technicals self = inr (signals, set_technical_signals self signals) /\
    _calculate_rsi (map Fin closes) 14 !! pred (length closes) = Some r /\
    signals !! "rsi_signal"
    = Some (VStr (if (r <? of_Z 30)%F then "Oversold"
                  else if (r >? of_Z 70)%F then "Overbought" else "Neutral")).
Proof.
  intros Hdata Hcl Hne.
  assert (Hne' : map Fin closes <> [])
    by (destruct closes; [congruence | discriminate]).
  destruct (last_item_lookup _ Hne') as (c & _ & Hc).
  destruct (TechnicalFacts.last_item_rolling_mean 50 _ Hne') as (m50 & _ & H50).
  destruct (TechnicalFacts.last_item_rolling_mean 200 _ Hne') as (m200 & _ & H200).
  assert (Hrne : _calculate_rsi (map Fin closes) 14 <> []).
  { intros E. apply (f_equal length) in E. rewrite length_rsi in E.
    destruct closes; [congruence | discriminate]. }
  destruct (last_item_lookup _ Hrne) as (r & Hr & Hrl).
  rewrite length_rsi, length_map in Hr.
  unfold analyze_technicals, analyze_technicals_with. rewrite Hdata. cbv zeta.
  fold (_calculate_rsi (map Close df) 14).
  rewrite Hcl, Hc, H50, H200, Hrl. cbn [bind ret].
  eexists _, r. split; [reflexivity|]. split; [exact Hr|].
  rewrite lookup_insert_ne by discriminate. apply lookup_insert_eq.
Qed.

(** X21: on finite closes with a full window of 14 rows, a window without a
    falling session and with a rising one is flagged "Overbought" by
    [analyze_technicals], and a window without a rising session and with a
    falling one is flagged "Oversold" (the index is then 0). *)
Theorem streak_signal (self : t) (df : frame) (closes : list Q) :
  data self = Some df -> map Close df = map Fin closes ->
  (14 <= length closes)%nat ->
  let W := delta_window closes 14 (pred (length closes)) in
  exists signals,
    analyze_technicals self = inr (signals, set_technical_signals self signals) /\
    (Exists positive_delta W -> Forall (fun d => ~ negative_delta d) W ->
       signals !! "rsi_signal" = Some (VStr "Overbought")) /\
    (Exists negative_delta W -> Forall (fun d => ~ positive_delta d) W ->
       signals !! "rsi_signal" = Some (VStr "Oversold")).
Proof.
  intros Hdata Hcl Hlen W.
  assert (Hne : closes <> []) by (intros ->; simpl in Hlen; lia).
  destruct (analyze_technicals_rsi_signal self df closes Hdata Hcl Hne)
    as (signals & r & Hrun & Hr & Hsig).
  exists signals. split; [exact Hrun|].
  rewrite lookup_rsi in Hr by lia. fold W in Hr.
  assert (Hcells : Forall delta_cell W) by apply delta_window_cells.
  assert (Hw : (0 < inject_Z (Z.of_nat 14))%Q) by (apply inject_nat_pos; lia).
  set (w := inject_Z (Z.of_nat 14)) in *.
  split.
  - intros Hpos Hnoneg.
    destruct (gain_sum W Hcells) as (G & HG & HG0 & HGpos).
    destruct (loss_sum W Hcells) as (L & HL & HL0 & _ & HLzero).
    rewrite HG, HL, !fdiv_of_nat in Hr by lia. fold w in Hr.
    assert (Hg : 0 < G / w) by (apply Qlt_shift_div_l; [|specialize (HGpos Hpos)]; lra).
    assert (Hl : L / w == 0) by (rewrite (HLzero Hnoneg); field; lra).
    destruct (rsi_of_range (G / w) (L / w)) as (x & Hx & _ & H100); try lra.
    rewrite Hx in Hr. injection Hr as <-. rewrite Hsig.
    specialize (H100 Hl).
    assert (E1 : (Fin x <? of_Z 30)%F = false)
      by (apply Qltb_ge; change (inject_Z 30) with 30; lra).
    assert (E2 : (Fin x >? of_Z 70)%F = true)
      by (apply Qltb_lt; change (inject_Z 70) with 70; lra).
    rewrite E1, E2. reflexivity.
  - intros Hneg Hnopos.
    destruct (gain_sum_zero W Hcells Hnopos) as (G & HG & HG0).
    destruct (loss_sum W Hcells) as (L & HL & HL0 & HLpos & _).
    rewrite HG, HL, !fdiv_of_nat in Hr by lia. fold w in Hr.
    assert (Hg : G / w == 0) by (rewrite HG0; field; lra).
    assert (Hl : 0 < L / w) by (apply Qlt_shift_div_l; [|specialize (HLpos Hneg)]; lra).
    destruct (rsi_of_no_gain (G / w) (L / w) Hg Hl) as (x & Hx & H0).
    rewrite Hx in Hr. injection Hr as <-. rewrite Hsig.
    assert (E1 : (Fin x <? of_Z 30)%F = true)
      by (apply Qltb_lt; change (inject_Z 30) with 30; lra).
    rewrite E1. reflexivity.
Qed.

Lemma streak_signal_witness :
  exists signals,
    analyze_technicals
      (set_data (fresh "AAPL") (frame_of_closes (rising_prices 100 15)))
    = inr (signals,
           set_technical_signals
             (set_data (fresh "AAPL") (frame_of_closes (rising_prices 100 15)))
             signals) /\
    signals !! "rsi_signal" = Some (VStr "Overbought").
Proof.
  destruct (streak_signal
              (set_data (fresh "AAPL") (frame_of_closes (rising_prices 100 15)))
              (frame_of_closes (rising_prices 100 15)) (rising_prices 100 15))
    as (signals & Hrun & Hover & _).
  - reflexivity.
  - reflexivity.
  - simpl. lia.
  - exists signals. split; [exact Hrun|]. apply Hover.
    + vm_compute. constructor. reflexivity.
    + vm_compute. repeat constructor; discriminate.
Defined.

End LevelFacts.

(** ** The analyses in the order of use *)

Module PipelineFacts.

Import Series StockAnalyzer Home Samples MoreSamples PyFloatFacts DictFacts
  ScorerFacts SeriesFacts RsiFacts LifecycleFacts.
Local Open Scope Q_scope.

Lemma get_numeric (i : gmap string pyval) (k : string) :
  numeric_or_absent i k -> exists x, get i k (VNum (of_Z 0)) = VNum x.
Proof.
  unfold numeric_or_absent, get.
  destruct (i !! k) as [[| |x]|]; try contradiction; intros _; eexists; reflexivity.
Qed.

(** X22: used in the order fetch, technical analysis, fundamental analysis,
    the analyzer gives a computed recommendation: when the fetch succeeded
    with a non-empty info mapping whose forward P/E, profit margin and
    debt-to-equity are numbers or absent, [get_investment_recommendation]
    returns, its total is 0.4 * (technical + fundamental) within [40, 68],
    and its label is "Hold" or "Buy". *)
Theorem pipeline_recommendation (P : Provider) (sym period : string)
    (a1 : t) (i : gmap string pyval) :
  fetch_data P (fresh sym) period = (true, a1) ->
  info a1 = Some i -> i <> ∅ ->
  numeric_or_absent i "forwardPE" ->
  numeric_or_absent i "profitMargins" ->
  numeric_or_absent i "debtToEquity" ->
  exists signals a2 label total explanation,
    analyze_technicals a1 = inr (signals, a2) /\
    get_investment_recommendation (snd (analyze_fundamentals a2))
    = inr (label, Fin total, explanation) /\
    40 <= total <= 68 /\
    (label = "Hold"%string \/ label = "Buy"%string).
Proof.
  intros Hfetch Hinfo Hne Hpe Hpm Hde.
  destruct (TechnicalFacts.fetch_data_true_nonempty P _ _ _ Hfetch)
    as (df & Hdata & Hdf).
  destruct (TechnicalFacts.analyze_technicals_returns a1 df Hdata Hdf)
    as (signals & m50 & m200 & Hrun & _ & _ & Htrend).
  destruct (analyze_technicals_frame _ _ _ Hrun) as (Hs & _ & _ & Hi & Hd).
  destruct (fetch_data_frame P (fresh sym) period) as (_ & Hsent & _ & _).
  rewrite Hfetch in Hsent. cbn [snd fresh sentiment_score] in Hsent.
  set (a2 := set_technical_signals a1 signals) in *.
  assert (Hdom : technical_signals a2 = signals /\ dom signals = signal_keys).
  { destruct Hd as [[Hempty _] | Hd]; [|exact Hd].
    split; [reflexivity|]. exfalso.
    rewrite Hempty, lookup_empty in Htrend. discriminate. }
  destruct Hdom as [Hts Hdom].
  exists signals, a2.
  unfold analyze_fundamentals.
  rewrite Hi, Hinfo, (FundamentalFacts.info_truthy_Some i Hne).
  cbn [negb default snd].
  set (metrics := <[ "pe_ratio" := _ ]> _). unfold id in metrics.
  set (a3 := set_fundamental_metrics a2 metrics).
  destruct (get_numeric i _ Hpe) as [pe Epe].
  destruct (get_numeric i _ Hpm) as [pm Epm].
  destruct (get_numeric i _ Hde) as [de Ede].
  assert (Hsc : scorable a3).
  { unfold scorable. cbn [a3 technical_signals fundamental_metrics
      set_fundamental_metrics]. rewrite Hts.
    repeat split;
      try (apply (dom_lookup _ _ _ Hdom); in_keys).
    - exists pe. unfold metrics. rewrite lookup_insert_eq, Epe. reflexivity.
    - exists pm. unfold metrics.
      rewrite !lookup_insert_ne by discriminate.
      rewrite lookup_insert_eq, Epm. reflexivity.
    - exists de. unfold metrics.
      rewrite !lookup_insert_ne by discriminate.
      rewrite lookup_insert_eq, Ede. reflexivity. }
  destruct Hsc as (Ht1 & Ht2 & Ht3 & Hf1 & Hf2 & Hf3).
  destruct (technical_score_returns a3 Ht1 Ht2 Ht3) as [ts Hts'].
  destruct (fundamental_score_returns a3 Hf1 Hf2 Hf3) as [fs Hfs].
  pose proof (technical_score_range a3 ts Hts') as Rts.
  pose proof (fundamental_score_range a3 fs Hfs) as Rfs.
  assert (Hsent3 : sentiment_score a3 = of_Z 0)
    by (cbn [a3 a2 sentiment_score set_fundamental_metrics
             set_technical_signals]; exact Hsent).
  assert (Htot : exists total,
            total_of ts fs (of_Z 0) = Fin total /\ 40 <= total <= 68).
  { pose proof (inject_Z_bounds ts 50 90 Rts) as B1.
    pose proof (inject_Z_bounds fs 50 80 Rfs) as B2.
    change (inject_Z 50) with 50 in *. change (inject_Z 90) with 90 in *.
    change (inject_Z 80) with 80 in *.
    unfold total_of, of_Z, q_04, q_02. cbn [fmul fadd].
    change (inject_Z 0) with 0.
    generalize dependent (inject_Z ts). generalize dependent (inject_Z fs).
    intros b Hb a Ha. eexists. split; [reflexivity | lra]. }
  destruct Htot as (total & Htotal & Hrange).
  destruct Ht1 as [v1 Ht1]. destruct Hf1 as [x1 Hf1].
  exists (fst (label_of (Fin total))), total, (snd (label_of (Fin total))).
  split; [exact Hrun|]. split; [|split; [exact Hrange|]].
  - unfold get_investment_recommendation.
    rewrite (dict_truthy_lookup _ _ _ Ht1), (dict_truthy_lookup _ _ _ Hf1).
    cbn [andb negb]. rewrite Hts', Hfs. cbn [bind]. rewrite Hsent3, Htotal.
    destruct (label_of (Fin total)); reflexivity.
  - rewrite <- Htotal. apply label_without_sentiment; assumption.
Qed.

Lemma pipeline_recommendation_witness :
  exists signals a2 label total explanation,
    analyze_technicals (snd (fetch_data three_row_provider (fresh "AAPL") "1y"))
    = inr (signals, a2) /\
    get_investment_recommendation (snd (analyze_fundamentals a2))
    = inr (label, Fin total, explanation) /\
    40 <= total <= 68 /\
    (label = "Hold"%string \/ label = "Buy"%string).
Proof.
  apply (pipeline_recommendation three_row_provider "AAPL" "1y"
           (snd (fetch_data three_row_provider (fresh "AAPL") "1y"))
           (<[ "forwardPE" := VNum (of_Z 15) ]>
              (<[ "profitMargins" := VNum (Fin (25 # 100)) ]> ∅))).
  - reflexivity.
  - reflexivity.
  - intros H. apply (f_equal (fun m : gmap string pyval => m !! "forwardPE")) in H.
    vm_compute in H. discriminate.
  - exact I.
  - exact I.
  - exact I.
Defined.

(** The latest cell of the index is NaN before the first full window. *)
Lemma rsi_short_nan (s : series) (period : nat) :
  s <> [] -> (length s < period)%nat ->
  last_item (_calculate_rsi s period) = inr NaN.
Proof.
  intros Hne Hlen.
  assert (Hrne : _calculate_rsi s period <> []).
  { intros E. apply (f_equal length) in E. rewrite length_rsi in E.
    destruct s; [congruence | discriminate]. }
  destruct (last_item_lookup _ Hrne) as (r & Hr & Hrl).
  rewrite Hrl. f_equal. rewrite length_rsi in Hr.
  revert Hr. unfold _calculate_rsi, _calculate_rsi_with, div.
  change (map ?f ?l) with (f <$> l) at 1.
  rewrite list_lookup_fmap, lookup_zip_with.
  assert (Hpos : (0 < length s)%nat) by (destruct s; [congruence | simpl; lia]).
  rewrite !lookup_rolling_mean
    by (unfold where_, neg; rewrite ?length_map, length_diff; lia).
  assert (E : (S (pred (length s)) <? period)%nat = true)
    by (apply Nat.ltb_lt; lia).
  rewrite E. cbn. intros [= <-]. reflexivity.
Qed.

(** X23: a history of one to thirteen rows always scores 50 on the
    technical side, whatever its prices: the 50- and 200-period averages
    and the index are NaN, so the signals are Bearish, Neutral and Down and
    nothing is added to the base score. *)
Theorem short_history_scores_50 (self : t) (df : frame) :
  data self = Some df -> df <> [] -> (length df < 14)%nat ->
  exists signals self',
    analyze_technicals self = inr (signals, self') /\
    signals !! "trend" = Some (VStr "Bearish") /\
    signals !! "rsi_signal" = Some (VStr "Neutral") /\
    signals !! "price_trend" = Some (VStr "Down") /\
    _calculate_technical_score self' = inr 50%Z.
Proof.
  intros Hdata Hne Hlen.
  assert (Hcl : map Close df <> [])
    by (destruct df; [congruence | discriminate]).
  assert (Hlencl : length (map Close df) = length df) by apply length_map.
  assert (Hpos : (0 < length df)%nat)
    by (destruct df; [congruence | simpl; lia]).
  destruct (last_item_lookup _ Hcl) as (c & _ & Hc).
  assert (Hnan : forall w, (14 <= w)%nat ->
            last_item (rolling_mean w (map Close df)) = inr NaN).
  { intros w Hw.
    destruct (TechnicalFacts.last_item_rolling_mean w _ Hcl) as (m & Hm & Hl).
    rewrite Hl. f_equal.
    rewrite lookup_rolling_mean in Hm by lia.
    assert (E : (S (pred (length (map Close df))) <? w)%nat = true)
      by (apply Nat.ltb_lt; lia).
    rewrite E in Hm. congruence. }
  assert (Hrsi : last_item (_calculate_rsi (map Close df) 14) = inr NaN)
    by (apply rsi_short_nan; [exact Hcl | lia]).
  unfold analyze_technicals, analyze_technicals_with. rewrite Hdata. cbv zeta.
  fold (_calculate_rsi (map Close df) 14).
  rewrite Hc, (Hnan 50%nat), (Hnan 200%nat), Hrsi by lia. cbn [bind ret].
  eexists _, _. split; [reflexivity|].
  assert (Eup : (c >? NaN)%F = false) by (destruct c; reflexivity).
  rewrite Eup.
  split; [reflexivity|]. split; [reflexivity|]. split; [reflexivity|].
  reflexivity.
Qed.

Lemma short_history_scores_50_witness :
  exists signals self',
    analyze_technicals
      (set_data (fresh "AAPL") (TechnicalSpec.frame_of_closes [12; 11; 10]))
    = inr (signals, self') /\
    signals !! "trend" = Some (VStr "Bearish") /\
    signals !! "rsi_signal" = Some (VStr "Neutral") /\
    signals !! "price_trend" = Some (VStr "Down") /\
    _calculate_technical_score self' = inr 50%Z.
Proof.
  apply (short_history_scores_50
           (set_data (fresh "AAPL") (TechnicalSpec.frame_of_closes [12; 11; 10]))
           (TechnicalSpec.frame_of_closes [12; 11; 10])).
  - reflexivity.
  - discriminate.
  - simpl. lia.
Defined.

End PipelineFacts.

(** ** The confidence of a forecast *)

Module ConfidenceFacts.

Import Rounded RoundedFacts PredictionMetrics PyFloatFacts.
Local Open Scope Q_scope.

(** The computed change of a positive price is a number, off the exact
    percentage by three roundings at most. *)
Lemma change_bounds (rnd : Q -> Q) (p c : Q) :
  accurate rnd -> 0 < c ->
  exists r,
    change rnd (Fin p) (Fin c) = Fin r /\
    Qabs (p - c) * 100 / c * down 3 <= Qabs r <= Qabs (p - c) * 100 / c * up 3.
Proof.
  intros Hacc Hc.
  unfold change, mul, div, sub, fsub. cbn [fneg fadd round fdiv].
  assert (Ec : (c ?= 0) = Gt) by (apply Qgt_alt; exact Hc).
  rewrite Ec. cbn [round fmul of_Z].
  eexists. split; [reflexivity|].
  set (r1 := rnd (p + - c)).
  set (r2 := rnd (r1 / c)).
  set (r3 := rnd (r2 * inject_Z 100)).
  assert (Hk : 0 < / c) by (apply Qinv_lt_0_compat; exact Hc).
  pose proof (rnd_abs_upper rnd Hacc (p + - c)) as U1.
  pose proof (rnd_abs_lower rnd Hacc (p + - c)) as L1.
  pose proof (rnd_abs_upper rnd Hacc (r1 / c)) as U2.
  pose proof (rnd_abs_lower rnd Hacc (r1 / c)) as L2.
  pose proof (rnd_abs_upper rnd Hacc (r2 * inject_Z 100)) as U3.
  pose proof (rnd_abs_lower rnd Hacc (r2 * inject_Z 100)) as L3.
  fold r1 in U1, L1. fold r2 in U2, L2. fold r3 in U3, L3.
  unfold Qdiv in *. rewrite Qabs_Qmult in U2, L2, U3, L3.
  rewrite (Qabs_pos (/ c)) in U2, L2 by lra.
  change (Qabs (inject_Z 100)) with 100 in U3, L3.
  apply (Qmult_le_compat_r _ _ (/ c)) in U1; [|lra].
  apply (Qmult_le_compat_r _ _ (/ c)) in L1; [|lra].
  change (p - c) with (p + - c).
  assert (E : Qabs (p + - c) * 100 * / c == 100 * (Qabs (p + - c) * / c)) by ring.
  rewrite E.
  assert (E1 : (1 + eps) * Qabs (p + - c) * / c
               == (1 + eps) * (Qabs (p + - c) * / c)) by ring.
  assert (E2 : (1 - eps) * Qabs (p + - c) * / c
               == (1 - eps) * (Qabs (p + - c) * / c)) by ring.
  rewrite E1 in U1. rewrite E2 in L1.
  unfold up, down, pow, eps in *.
  set (X := Qabs (p + - c) * / c) in *.
  set (Y := Qabs r1 * / c) in *.
  set (R2 := Qabs r2) in *. set (R3 := Qabs r3) in *.
  assert (NX : 0 <= X).
  { unfold X. apply Qmult_le_0_compat; [apply Qabs_nonneg | lra]. }
  split; lra.
Qed.

(** X24: the confidence shown with a forecast reads the distance of the
    last prediction from the current price, up to the three roundings of
    the computed change.  For every accurate rounding, a positive current
    price and [d] the exact distance in per cent of that price: the
    confidence is "High" when [d] stays below 10 after three roundings
    upwards, "Medium" when [d] is still 10 after three roundings downwards
    and stays below 20 after three upwards, "Low" when [d] is still 20
    after three roundings downwards.  With a current price of zero the
    division does not raise and the confidence is "Low". *)
Theorem confidence_by_distance (rnd : Q -> Q) (p c : Q) :
  accurate rnd ->
  (c == 0 -> confidence (change rnd (Fin p) (Fin c)) = "Low"%string) /\
  (0 < c ->
   let d := Qabs (p - c) * 100 / c in
   (d * up 3 < 10 ->
      confidence (change rnd (Fin p) (Fin c)) = "High"%string) /\
   (10 <= d * down 3 -> d * up 3 < 20 ->
      confidence (change rnd (Fin p) (Fin c)) = "Medium"%string) /\
   (20 <= d * down 3 ->
      confidence (change rnd (Fin p) (Fin c)) = "Low"%string)).
Proof.
  intros Hacc. split.
  - intros Hz.
    unfold change, mul, div, sub, fsub. cbn [fneg fadd round fdiv].
    assert (Ec : (c ?= 0) = Eq) by (apply Qeq_alt; exact Hz).
    rewrite Ec. unfold signed_inf.
    destruct (rnd (p + - c) ?= 0); reflexivity.
  - intros Hc. cbv zeta.
    destruct (change_bounds rnd p c Hacc Hc) as (r & -> & Hlo & Hhi).
    set (d := Qabs (p - c) * 100 / c) in *.
    unfold confidence, fabs, of_Z. cbn [fltb].
    change (inject_Z 10) with 10. change (inject_Z 20) with 20.
    split; [|split].
    + intros H. assert (L : Qabs r < 10) by lra.
      apply Qltb_lt in L. rewrite L. reflexivity.
    + intros H1 H2.
      assert (L1 : 10 <= Qabs r) by lra. assert (L2 : Qabs r < 20) by lra.
      apply Qltb_ge in L1. apply Qltb_lt in L2. rewrite L1, L2. reflexivity.
    + intros H.
      assert (L1 : 10 <= Qabs r) by lra. assert (L2 : 20 <= Qabs r) by lra.
      apply Qltb_ge in L1. apply Qltb_ge in L2. rewrite L1, L2. reflexivity.
Qed.

Lemma confidence_by_distance_witness :
  confidence (change (fun x => x) (Fin 105) (Fin 100)) = "High"%string.
Proof.
  apply (confidence_by_distance (fun x => x) 105 100).
  - exact exact_accurate.
  - reflexivity.
  - reflexivity.
Defined.

(** On the boundary rounding decides: a prediction below the price by
    exactly ten per cent is "Medium" under exact arithmetic and "High"
    under the chopping rounding; in binary64 the prediction 3.5 against the
    price 3.888888888888889 has a computed change of exactly -10, which is
    shown as "Medium". *)
Example confidence_on_boundary :
  confidence (change (fun x => x) (Fin 90) (Fin 100)) = "Medium"%string /\
  confidence (change chop (Fin 90) (Fin 100)) = "High"%string.
Proof. split; reflexivity. Qed.

#[warnings="-inexact-float"] Example change_binary64 :
  PrimFloat.eqb (Binary64.change 3.5 3.888888888888889) (-10) = true.
Proof. reflexivity. Qed.

End ConfidenceFacts.
